(** * Vulcan sensors: change detection, retry and lesson availability

    A shallow embedding of [custom_components/vulcan/sensor.py].

    Python values are modelled as follows.
    - [str] is [string], holding the UTF-8 bytes of the text; an f-string
      is a concatenation with [+:+], and [str(n)] of an integer is
      [pretty n].
    - the dictionaries returned by the fetch functions have a fixed set of
      keys and are records, one per fact kind;
    - attendance datetimes and calendar dates are points on the integer
      line ([Z]): only their order and equality are used by the code;
    - a coroutine is a function from the world it runs in (the entity
      object, the backend client, the device registry) to its result, the
      world it leaves behind and the calls it made into Home Assistant;
    - a [raise] is a [Raise] result: the world at that point is kept. *)

From Stdlib Require Import ZArith Ascii String List Bool Lia.
From stdpp Require Import base gmap strings pretty.
Import ListNotations.

Local Open Scope string_scope.

(** ** Python exceptions and results *)

Module Py.

(** The exception classes the module names or can meet.
    [CancelledError] derives from [BaseException] only, the others
    derive from [Exception]. *)
Inductive exn : Type :=
| UnauthorizedCertificateException
| ClientConnectorError (detail : string)
| TimeoutError
| TypeError
| KeyError (key : string)
| UpdateFailed (message : string)
| OtherException (detail : string)
| CancelledError.

(** [isinstance(e, Exception)]: what an [except Exception] clause catches. *)
Definition is_Exception (e : exn) : bool :=
  match e with
  | CancelledError => false
  | _ => true
  end.

(** [isinstance(e, UnauthorizedCertificateException)]. *)
Definition is_UnauthorizedCertificateException (e : exn) : bool :=
  match e with
  | UnauthorizedCertificateException => true
  | _ => false
  end.

(** [isinstance(e, ClientConnectorError)]. *)
Definition is_ClientConnectorError (e : exn) : bool :=
  match e with
  | ClientConnectorError _ => true
  | _ => false
  end.

(** [c in s]. *)
Fixpoint contains (c : ascii) (s : string) : bool :=
  match s with
  | EmptyString => false
  | String x rest => Ascii.eqb x c || contains c rest
  end.

Definition hex_digit (n : nat) : ascii :=
  match n with
  | 0 => "0" | 1 => "1" | 2 => "2" | 3 => "3" | 4 => "4" | 5 => "5" | 6 => "6"
  | 7 => "7" | 8 => "8" | 9 => "9" | 10 => "a" | 11 => "b" | 12 => "c"
  | 13 => "d" | 14 => "e" | _ => "f"
  end%char.

(** How [repr] writes one character between the quotes [quote]: the quote
    and the backslash (byte 92) are escaped, tab, line feed and carriage
    return are written with their letter, the other control characters in
    hexadecimal. Characters outside ASCII are taken to be printable, which
    [repr] copies. *)
Definition repr_char (quote c : ascii) : string :=
  let n := nat_of_ascii c in
  if Ascii.eqb c quote || Ascii.eqb c "092" then String "092" (String c "")
  else if (n =? 9)%nat then String "092" "t"
  else if (n =? 10)%nat then String "092" "n"
  else if (n =? 13)%nat then String "092" "r"
  else if (n <? 32)%nat || (n =? 127)%nat then
    String "092" (String "x" (String (hex_digit (Nat.div n 16))
                                (String (hex_digit (Nat.modulo n 16)) "")))
  else String c "".

Fixpoint repr_body (quote : ascii) (s : string) : string :=
  match s with
  | EmptyString => EmptyString
  | String c rest => repr_char quote c ++ repr_body quote rest
  end.

(** [repr(s)] of a text: in single quotes (byte 39), or in double quotes
    (byte 34) when the text holds a single quote and no double quote. *)
Definition repr (s : string) : string :=
  let quote :=
    if contains "039" s && negb (contains "034" s) then "034"%char else "039"%char in
  String quote (repr_body quote s ++ String quote "").

(** [str(e)]; for a [KeyError] that is the [repr] of the key. *)
Definition str (e : exn) : string :=
  match e with
  | UnauthorizedCertificateException => "UnauthorizedCertificateException"
  | ClientConnectorError d => d
  | TimeoutError => ""
  | TypeError => "'NoneType' object is not subscriptable"
  | KeyError k => repr k
  | UpdateFailed m => m
  | OtherException d => d
  | CancelledError => ""
  end.

Inductive res (A : Type) : Type :=
| Return (a : A)
| Raise (e : exn).

Arguments Return {A} a.
Arguments Raise {A} e.

(** [x is True] for a configuration value that may be unset. *)
Definition is_True (x : option bool) : bool :=
  match x with
  | Some true => true
  | _ => false
  end.

(** A byte [10xxxxxx] continues a character of a UTF-8 text. *)
Definition is_continuation (c : ascii) : bool :=
  (128 <=? nat_of_ascii c)%nat && (nat_of_ascii c <? 192)%nat.

(** [s[0:n]]: the first [n] characters of [s] (all of it when it is
    shorter), on the UTF-8 bytes of the text. *)
Fixpoint slice_0 (n : nat) (s : string) : string :=
  match s with
  | EmptyString => EmptyString
  | String c rest =>
      if is_continuation c then String c (slice_0 n rest)
      else match n with
           | O => EmptyString
           | S k => String c (slice_0 k rest)
           end
  end.

(** [s[0:250]]. *)
Definition slice_0_250 (s : string) : string := slice_0 250 s.

End Py.

Import Py.

(** ** Calls into Home Assistant *)

(** The calls that act on Home Assistant: a notification, an event on the
    bus, a line in the log, the start of a configuration flow. Looking a
    device up in the device registry is a read and is not recorded. *)
Inductive effect : Type :=
| persistent_notification_async_create (message title : string)
| bus_async_fire (event_type device_id type_ : string)
| LOGGER_error (msg : string)
| flow_async_init (domain source : string).

Definition is_notification (e : effect) : bool :=
  match e with
  | persistent_notification_async_create _ _ => true
  | _ => false
  end.

Definition is_bus_event (e : effect) : bool :=
  match e with
  | bus_async_fire _ _ _ => true
  | _ => false
  end.

(** The notifications, and the domain events, among the calls of a cycle. *)
Definition notifications (l : list effect) : list effect := List.filter is_notification l.
Definition bus_events (l : list effect) : list effect := List.filter is_bus_event l.

(** ** Coroutines of an entity *)

(** The backend client seen from one fetch function: the answer to the
    [n]-th call, and the number of calls made so far. *)
Record Client (T : Type) : Type := mkClient {
  responses : nat -> res T;
  calls : nat
}.

Arguments mkClient {T} _ _.
Arguments responses {T} _ _.
Arguments calls {T} _.

(** [device_registry] maps a device identifier [(domain, name)] to the id of
    the device registered under it. *)
Record world (E T : Type) : Type := mkWorld {
  self : E;
  client : Client T;
  device_registry : gmap (string * string) string
}.

Arguments mkWorld {E T} _ _ _.
Arguments self {E T} _.
Arguments client {E T} _.
Arguments device_registry {E T} _.

Definition M (E T A : Type) : Type := world E T -> res A * world E T * list effect.

Section Coroutine.
Context {E T : Type}.

Definition ret {A : Type} (a : A) : M E T A := fun w => (Return a, w, []).

Definition bind {A B : Type} (m : M E T A) (f : A -> M E T B) : M E T B :=
  fun w =>
    match m w with
    | (Return a, w1, l1) => let '(r, w2, l2) := f a w1 in (r, w2, (l1 ++ l2)%list)
    | (Raise e, w1, l1) => (Raise e, w1, l1)
    end.

(** [try: body  except Exception: handler]. *)
Definition try_except_Exception {A : Type} (body handler : M E T A) : M E T A :=
  fun w =>
    match body w with
    | (Return a, w1, l1) => (Return a, w1, l1)
    | (Raise e, w1, l1) =>
        if is_Exception e
        then let '(r, w2, l2) := handler w1 in (r, w2, (l1 ++ l2)%list)
        else (Raise e, w1, l1)
    end.

(** [await get_...(self.client)]: one round trip to the backend. *)
Definition await_fetch : M E T T :=
  fun w =>
    let c := client w in
    (responses c (calls c),
     mkWorld (self w) (mkClient (responses c) (S (calls c))) (device_registry w),
     []).

Definition get_self : M E T E := fun w => (Return (self w), w, []).

Definition set_self (f : E -> E) : M E T unit :=
  fun w => (Return tt, mkWorld (f (self w)) (client w) (device_registry w), []).

Definition call (e : effect) : M E T unit := fun w => (Return tt, w, [e]).

(** [dr.async_get(hass).async_get_device(identifiers={identifier})]. *)
Definition async_get_device (identifier : string * string) : M E T (option string) :=
  fun w => (Return (device_registry w !! identifier), w, []).

Definition when (b : bool) (m : M E T unit) : M E T unit :=
  if b then m else ret tt.

(** The polling loop: [n] scheduled cycles of [update], one after the
    other; a cycle that raises is logged by the caller and the next one
    still runs. *)
Fixpoint cycles (update : M E T unit) (n : nat) (w : world E T) : world E T * list effect :=
  match n with
  | O => (w, [])
  | S k =>
      let '(_, w1, l1) := update w in
      let '(w2, l2) := cycles update k w1 in
      (w2, (l1 ++ l2)%list)
  end.

(** What the two attempts of [try: x = await fetch  except Exception:
    x = await fetch] deliver. *)
Definition fetched (w : world E T) : res T :=
  let c := client w in
  match responses c (calls c) with
  | Return v => Return v
  | Raise e => if is_Exception e then responses c (S (calls c)) else Raise e
  end.

(** How many round trips that statement makes. *)
Definition retried (w : world E T) : nat :=
  let c := client w in
  match responses c (calls c) with
  | Return _ => 1
  | Raise e => if is_Exception e then 2 else 1
  end.

(** The client after the cycle: same backend, [retried w] more calls. *)
Definition client_after (w : world E T) : Client T :=
  mkClient (responses (client w)) (retried w + calls (client w)).

(** From this cycle on the backend keeps answering [v]. *)
Definition repeats (v : T) (w : world E T) : Prop :=
  forall i, calls (client w) <= i -> responses (client w) i = Return v.

(** The entity [s] took its baseline from the snapshot [v]: it was built
    at setup from data holding [v], or it is what a cycle that fetched
    [v] left behind. *)
Definition established {D : Type} (init : D -> E) (snapshot : D -> T)
    (update : M E T unit) (v : T) (s : E) : Prop :=
  (exists data, snapshot data = v /\ s = init data) \/
  (exists w0, fetched w0 = Return v /\ s = self (snd (fst (update w0)))).

End Coroutine.

Declare Scope coroutine_scope.
Delimit Scope coroutine_scope with coroutine.
Notation "x <- c1 ;; c2" := (bind c1 (fun x => c2))
  (at level 100, c1 at next level, right associativity) : coroutine_scope.
Notation "c1 ;; c2" := (bind c1 (fun _ => c2))
  (at level 100, right associativity) : coroutine_scope.

Definition result {E T A : Type} (x : res A * world E T * list effect) : res A := fst (fst x).
Definition after {E T A : Type} (x : res A * world E T * list effect) : world E T := snd (fst x).
Definition effects {E T A : Type} (x : res A * world E T * list effect) : list effect := snd x.

(** ** Snapshots returned by the fetch functions *)

Module grade.
Record t : Type := mk {
  content : string;
  subject : string;
  date : string;
  description : string;
  teacher : string;
  weight : string
}.
End grade.

Module attendance.
Record t : Type := mk {
  content : string;
  lesson_name : string;
  lesson_number : string;
  lesson_date : string;
  lesson_time : string;
  datetime : Z
}.
End attendance.

Module message.
Record t : Type := mk {
  id : Z;
  title : string;
  sender : string;
  date : string;
  content : string
}.
End message.

Module homework.
Record t : Type := mk {
  description : string;
  subject : string;
  teacher : string;
  date : string
}.
End homework.

Module exam.
Record t : Type := mk {
  description : string;
  subject : string;
  type_ : string;
  teacher : string;
  date : string
}.
End exam.

Module lucky_number.
Record t : Type := mk {
  number : string;
  date : string
}.
End lucky_number.

Module student_info.
Record t : Type := mk {
  id : Z;
  full_name : string;
  class : string;
  school : string;
  symbol : string
}.
End student_info.

(** The [data["notify"]] dictionary: each toggle is what
    [config_entry.options.get] gave, [None] when the option is unset. *)
Record Notify : Type := mkNotify {
  CONF_MESSAGE_NOTIFY : option bool;
  CONF_GRADE_NOTIFY : option bool;
  CONF_ATTENDANCE_NOTIFY : option bool
}.

(** The [data] dictionary built by [async_setup_entry] from the first
    fetches. *)
Record Data : Type := mkData {
  data_student_info : student_info.t;
  data_students_number : Z;
  data_grade : grade.t;
  data_message : message.t;
  data_lucky_number : lucky_number.t;
  data_attendance : attendance.t;
  data_homework : homework.t;
  data_exam : exam.t;
  data_notify : Notify
}.

(** The two names every entity derives from [students_number]:
    the suffix of [_name] and [device_student_name]. *)
Definition name_suffix (data : Data) : string :=
  if (data_students_number data =? 1)%Z then ""
  else " - " +:+ student_info.full_name (data_student_info data).

Definition device_student_name_of (data : Data) : string :=
  if (data_students_number data =? 1)%Z then ""
  else student_info.full_name (data_student_info data) +:+ ": ".

(** The line break of ["...\n..."]. *)
Definition nl : string := String "010"%char "".

(** ** [class LatestGrade] *)

Module LatestGrade.

Record t : Type := mk {
  student_info : student_info.t;
  latest_grade : grade.t;
  _state : string;
  student_id : string;
  notify : option bool;
  old_state : string;
  device_student_name : string;
  _name : string;
  _unique_id : string;
  _icon : string
}.

(** The f-string
    [f"{content}_{subject}_{date}_{description}"] that [__init__] and
    [async_update] store in, and compare with, [old_state]. *)
Definition identity (g : grade.t) : string :=
  grade.content g +:+ "_" +:+ grade.subject g +:+ "_" +:+ grade.date g
    +:+ "_" +:+ grade.description g.

Definition __init__ (data : Data) : t :=
  let info := data_student_info data in
  let g := data_grade data in
  let sid := pretty (student_info.id info) in
  {| student_info := info;
     latest_grade := g;
     _state := grade.content g;
     student_id := sid;
     notify := CONF_GRADE_NOTIFY (data_notify data);
     old_state := identity g;
     device_student_name := device_student_name_of data;
     _name := "Latest grade" +:+ name_suffix data;
     _unique_id := "grade_latest_" +:+ sid;
     _icon := "mdi:school-outline" |}.

Definition set_latest_grade (g : grade.t) (s : t) : t :=
  mk (student_info s) g (_state s) (student_id s) (notify s) (old_state s)
     (device_student_name s) (_name s) (_unique_id s) (_icon s).

Definition set_old_state (k : string) (s : t) : t :=
  mk (student_info s) (latest_grade s) (_state s) (student_id s) (notify s) k
     (device_student_name s) (_name s) (_unique_id s) (_icon s).

Definition set__state (v : string) (s : t) : t :=
  mk (student_info s) (latest_grade s) v (student_id s) (notify s) (old_state s)
     (device_student_name s) (_name s) (_unique_id s) (_icon s).

Definition notification (s : t) : effect :=
  let g := latest_grade s in
  persistent_notification_async_create
    ("Nowa ocena " +:+ grade.content g +:+ " z " +:+ grade.subject g
       +:+ " została wystawiona " +:+ grade.date g +:+ " przez "
       +:+ grade.teacher g +:+ ".")
    (device_student_name s +:+ "Vulcan: Nowa ocena z " +:+ grade.subject g
       +:+ ": " +:+ grade.content g).

Section WithDomain.
Variable DOMAIN : string.

(** The member of [device_info["identifiers"]]. *)
Definition device_identifier (s : t) : string * string :=
  (DOMAIN, "grade" +:+ student_id s).

Definition async_update : M t grade.t unit :=
  (try_except_Exception
     (g <- await_fetch ;; set_self (set_latest_grade g))
     (g <- await_fetch ;; set_self (set_latest_grade g)) ;;
   s <- get_self ;;
   when (negb (grade.content (latest_grade s) =? "-")
         && negb (old_state s =? identity (latest_grade s)))
     (when (is_True (notify s)) (call (notification s)) ;;
      set_self (set_old_state (identity (latest_grade s))) ;;
      device_entry <- async_get_device
        (DOMAIN, "message" +:+ pretty (student_info.id (student_info s))) ;;
      match device_entry with
      | Some device_id => call (bus_async_fire "vulcan_event" device_id "new_grade")
      | None => ret tt
      end) ;;
   s <- get_self ;;
   set_self (set__state (grade.content (latest_grade s))))%coroutine.

End WithDomain.

End LatestGrade.

(** ** [class LatestAttendance] *)

Module LatestAttendance.

Record t : Type := mk {
  student_info : student_info.t;
  student_id : string;
  latest_attendance : attendance.t;
  notify : option bool;
  old_att : Z;
  _state : string;
  device_student_name : string;
  _name : string;
  _unique_id : string;
  _icon : string
}.

Definition __init__ (data : Data) : t :=
  let info := data_student_info data in
  let a := data_attendance data in
  let sid := pretty (student_info.id info) in
  {| student_info := info;
     student_id := sid;
     latest_attendance := a;
     notify := CONF_ATTENDANCE_NOTIFY (data_notify data);
     old_att := attendance.datetime a;
     _state := attendance.content a;
     device_student_name := device_student_name_of data;
     _name := "Latest Attendance" +:+ name_suffix data;
     _unique_id := "attendance_latest_" +:+ sid;
     _icon := "mdi:account-check-outline" |}.

Definition set_latest_attendance (a : attendance.t) (s : t) : t :=
  mk (student_info s) (student_id s) a (notify s) (old_att s) (_state s)
     (device_student_name s) (_name s) (_unique_id s) (_icon s).

Definition set_old_att (d : Z) (s : t) : t :=
  mk (student_info s) (student_id s) (latest_attendance s) (notify s) d (_state s)
     (device_student_name s) (_name s) (_unique_id s) (_icon s).

Definition set__state (v : string) (s : t) : t :=
  mk (student_info s) (student_id s) (latest_attendance s) (notify s) (old_att s) v
     (device_student_name s) (_name s) (_unique_id s) (_icon s).

Definition notification (s : t) : effect :=
  let a := latest_attendance s in
  persistent_notification_async_create
    (attendance.lesson_time a +:+ ", " +:+ attendance.lesson_date a +:+ nl
       +:+ attendance.content a)
    (device_student_name s +:+ "Vulcan: Nowy wpis frekwencji na lekcji "
       +:+ attendance.lesson_name a).

Section WithDomain.
Variable DOMAIN : string.

Definition device_identifier (s : t) : string * string :=
  (DOMAIN, "attendance" +:+ student_id s).

Definition async_update : M t attendance.t unit :=
  (try_except_Exception
     (a <- await_fetch ;; set_self (set_latest_attendance a))
     (a <- await_fetch ;; set_self (set_latest_attendance a)) ;;
   s <- get_self ;;
   let latest_attendance_ := latest_attendance s in
   when (negb (attendance.content (latest_attendance s) =? "-")
         && (old_att s <? attendance.datetime (latest_attendance s))%Z)
     (when (is_True (notify s)
            && negb (attendance.content (latest_attendance s) =? "obecność"))
        (call (notification s)) ;;
      set_self (set_old_att (attendance.datetime (latest_attendance s))) ;;
      device_entry <- async_get_device (DOMAIN, "attendance" +:+ student_id s) ;;
      match device_entry with
      | Some device_id =>
          call (bus_async_fire "vulcan_event" device_id "new_attendance")
      | None => ret tt
      end) ;;
   set_self (set__state (attendance.content latest_attendance_)))%coroutine.

End WithDomain.

End LatestAttendance.

(** ** [class LatestMessage] *)

Module LatestMessage.

Record t : Type := mk {
  student_info : student_info.t;
  latest_message : message.t;
  notify : option bool;
  old_msg : Z;
  _state : string;
  device_student_name : string;
  _name : string;
  _unique_id : string;
  _icon : string
}.

Definition __init__ (data : Data) : t :=
  let info := data_student_info data in
  let m := data_message data in
  {| student_info := info;
     latest_message := m;
     notify := CONF_MESSAGE_NOTIFY (data_notify data);
     old_msg := message.id m;
     _state := slice_0_250 (message.title m);
     device_student_name := device_student_name_of data;
     _name := "Latest Message" +:+ name_suffix data;
     _unique_id := "message_latest_" +:+ pretty (student_info.id info);
     _icon := "mdi:message-arrow-left-outline" |}.

Definition set_latest_message (m : message.t) (s : t) : t :=
  mk (student_info s) m (notify s) (old_msg s) (_state s)
     (device_student_name s) (_name s) (_unique_id s) (_icon s).

Definition set_old_msg (i : Z) (s : t) : t :=
  mk (student_info s) (latest_message s) (notify s) i (_state s)
     (device_student_name s) (_name s) (_unique_id s) (_icon s).

Definition set__state (v : string) (s : t) : t :=
  mk (student_info s) (latest_message s) (notify s) (old_msg s) v
     (device_student_name s) (_name s) (_unique_id s) (_icon s).

Definition notification (s : t) : effect :=
  let m := latest_message s in
  persistent_notification_async_create
    (message.sender m +:+ ", " +:+ message.date m +:+ nl +:+ message.content m)
    ("Vulcan: " +:+ message.title m).

Section WithDomain.
Variable DOMAIN : string.

Definition device_identifier (s : t) : string * string :=
  (DOMAIN, "message" +:+ pretty (student_info.id (student_info s))).

Definition async_update : M t message.t unit :=
  (try_except_Exception
     (m <- await_fetch ;; set_self (set_latest_message m))
     (m <- await_fetch ;; set_self (set_latest_message m)) ;;
   s <- get_self ;;
   when (negb (old_msg s =? message.id (latest_message s))%Z
         && negb (message.id (latest_message s) =? 0)%Z)
     (when (is_True (notify s)) (call (notification s)) ;;
      set_self (set_old_msg (message.id (latest_message s))) ;;
      device_entry <- async_get_device
        (DOMAIN, "message" +:+ pretty (student_info.id (student_info s))) ;;
      match device_entry with
      | Some device_id => call (bus_async_fire "vulcan_event" device_id "new_message")
      | None => ret tt
      end) ;;
   s <- get_self ;;
   set_self (set__state (slice_0_250 (message.title (latest_message s)))))%coroutine.

End WithDomain.

End LatestMessage.

(** ** [class NextHomework], [class NextExam], [class LuckyNumber] *)

Module NextHomework.

Record t : Type := mk {
  student_info : student_info.t;
  student_name : string;
  student_id : string;
  next_homework : homework.t;
  _state : string;
  device_student_name : string;
  _name : string;
  _unique_id : string;
  _icon : string
}.

Definition __init__ (data : Data) : t :=
  let info := data_student_info data in
  let sid := pretty (student_info.id info) in
  {| student_info := info;
     student_name := student_info.full_name info;
     student_id := sid;
     next_homework := data_homework data;
     _state := slice_0_250 (homework.description (data_homework data));
     device_student_name := device_student_name_of data;
     _name := "Next Homework" +:+ name_suffix data;
     _unique_id := "homework_next_" +:+ sid;
     _icon := "mdi:pen" |}.

Definition set_next_homework (h : homework.t) (s : t) : t :=
  mk (student_info s) (student_name s) (student_id s) h (_state s)
     (device_student_name s) (_name s) (_unique_id s) (_icon s).

Definition set__state (v : string) (s : t) : t :=
  mk (student_info s) (student_name s) (student_id s) (next_homework s) v
     (device_student_name s) (_name s) (_unique_id s) (_icon s).

Definition async_update : M t homework.t unit :=
  (try_except_Exception
     (h <- await_fetch ;; set_self (set_next_homework h))
     (h <- await_fetch ;; set_self (set_next_homework h)) ;;
   s <- get_self ;;
   set_self (set__state (slice_0_250 (homework.description (next_homework s)))))%coroutine.

(** The member of [device_info["identifiers"]]. *)
Definition device_identifier (DOMAIN : string) (s : t) : string * string :=
  (DOMAIN, "homework" +:+ student_id s).

End NextHomework.

Module NextExam.

Record t : Type := mk {
  student_info : student_info.t;
  student_name : string;
  student_id : string;
  next_exam : exam.t;
  _state : string;
  device_student_name : string;
  _name : string;
  _unique_id : string;
  _icon : string
}.

Definition __init__ (data : Data) : t :=
  let info := data_student_info data in
  let sid := pretty (student_info.id info) in
  {| student_info := info;
     student_name := student_info.full_name info;
     student_id := sid;
     next_exam := data_exam data;
     _state := slice_0_250 (exam.description (data_exam data));
     device_student_name := device_student_name_of data;
     _name := "Next Exam" +:+ name_suffix data;
     _unique_id := "exam_next_" +:+ sid;
     _icon := "mdi:format-list-checks" |}.

Definition set_next_exam (x : exam.t) (s : t) : t :=
  mk (student_info s) (student_name s) (student_id s) x (_state s)
     (device_student_name s) (_name s) (_unique_id s) (_icon s).

Definition set__state (v : string) (s : t) : t :=
  mk (student_info s) (student_name s) (student_id s) (next_exam s) v
     (device_student_name s) (_name s) (_unique_id s) (_icon s).

Definition async_update : M t exam.t unit :=
  (try_except_Exception
     (x <- await_fetch ;; set_self (set_next_exam x))
     (x <- await_fetch ;; set_self (set_next_exam x)) ;;
   s <- get_self ;;
   set_self (set__state (slice_0_250 (exam.description (next_exam s)))))%coroutine.

(** The member of [device_info["identifiers"]]. *)
Definition device_identifier (DOMAIN : string) (s : t) : string * string :=
  (DOMAIN, "exam" +:+ student_id s).

End NextExam.

Module LuckyNumber.

Record t : Type := mk {
  student_info : student_info.t;
  student_name : string;
  student_id : string;
  lucky_number : lucky_number.t;
  _state : string;
  device_student_name : string;
  _name : string;
  _unique_id : string;
  _icon : string
}.

Definition __init__ (data : Data) : t :=
  let info := data_student_info data in
  let sid := pretty (student_info.id info) in
  {| student_info := info;
     student_name := student_info.full_name info;
     student_id := sid;
     lucky_number := data_lucky_number data;
     _state := lucky_number.number (data_lucky_number data);
     device_student_name := device_student_name_of data;
     _name := "Lucky Number" +:+ name_suffix data;
     _unique_id := "lucky_number_" +:+ sid;
     _icon := "mdi:ticket-confirmation-outline" |}.

Definition set_lucky_number (n : lucky_number.t) (s : t) : t :=
  mk (student_info s) (student_name s) (student_id s) n (_state s)
     (device_student_name s) (_name s) (_unique_id s) (_icon s).

Definition set__state (v : string) (s : t) : t :=
  mk (student_info s) (student_name s) (student_id s) (lucky_number s) v
     (device_student_name s) (_name s) (_unique_id s) (_icon s).

Definition async_update : M t lucky_number.t unit :=
  (try_except_Exception
     (n <- await_fetch ;; set_self (set_lucky_number n))
     (n <- await_fetch ;; set_self (set_lucky_number n)) ;;
   s <- get_self ;;
   set_self (set__state (lucky_number.number (lucky_number s))))%coroutine.

(** The member of [device_info["identifiers"]]. *)
Definition device_identifier (DOMAIN : string) (s : t) : string * string :=
  (DOMAIN, "lucky_number" +:+ student_id s).

End LuckyNumber.

(** ** The timetable: [async_update_data] and its coordinator *)

Definition res_bind {A B : Type} (r : res A) (f : A -> res B) : res B :=
  match r with
  | Return a => f a
  | Raise e => Raise e
  end.

Declare Scope res_scope.
Delimit Scope res_scope with res.
Notation "x <- c1 ;; c2" := (res_bind c1 (fun x => c2))
  (at level 100, c1 at next level, right associativity) : res_scope.

(** [d[k]] on a dictionary. *)
Definition getitem {V : Type} (d : gmap string V) (k : string) : res V :=
  match d !! k with
  | Some v => Return v
  | None => Raise (KeyError k)
  end.

(** [d[k]] on a value that is a dictionary or [None]. *)
Definition getitem_opt {V : Type} (d : option (gmap string V)) (k : string) : res V :=
  match d with
  | Some m => getitem m k
  | None => Raise TypeError
  end.

(** One slot of the dictionary [get_lessons] returns. *)
Module lesson.
Record t : Type := mk {
  lesson : string;
  date : Z;
  room : string;
  teacher : string;
  from_to : string;
  reason : string
}.
End lesson.

Module Coordinator.

(** An answer of the backend to [get_lessons]: how long the call takes
    (in seconds) and how it ends. *)
Record answer : Type := mkAnswer {
  took : Z;
  outcome : res (gmap string lesson.t)
}.

(** The coordinator object shared by the lesson entities. *)
Record t : Type := mk {
  data : option (gmap string (gmap string lesson.t));
  last_update_success : bool
}.

(** [DataUpdateCoordinator(...)] before its first refresh. *)
Definition new : t := {| data := None; last_update_success := true |}.

Section UpdateMethod.
Variable DOMAIN : string.
Variable DEFAULT_LESSON_ENTITIES_NUMBER : Z.
(** [get_lessons(client, date_from, entities_number)]. *)
Variable get_lessons : Z -> Z -> answer.
(** [datetime.date.today()] as read before the first call, and as read
    again before the second call, once the first has returned. *)
Variable today : Z.
Variable today_again : Z.
(** [config_entry.options.get(CONF_LESSON_ENTITIES_NUMBER)]. *)
Variable lesson_entities_number : option Z.

(** The block [async with timeout(30): return {...}]: the two calls
    run one after the other, and the deadline cancels the block with
    [TimeoutError] once more than 30 seconds have gone by. *)
Definition fetch_lessons : res (gmap string (gmap string lesson.t)) :=
  let n := default DEFAULT_LESSON_ENTITIES_NUMBER lesson_entities_number in
  let first := get_lessons today n in
  if (30 <? took first)%Z then Raise TimeoutError
  else
    match outcome first with
    | Raise e => Raise e
    | Return lessons =>
        let second := get_lessons (today_again + 1)%Z n in
        if (30 <? took first + took second)%Z then Raise TimeoutError
        else
          match outcome second with
          | Raise e => Raise e
          | Return lessons_t =>
              Return (<["lessons" := lessons]> (<["lessons_t" := lessons_t]> ∅))
          end
    end.

Definition async_update_data
  : res (option (gmap string (gmap string lesson.t))) * list effect :=
  match fetch_lessons with
  | Return d => (Return (Some d), [])
  | Raise e =>
      if is_UnauthorizedCertificateException e then
        (Return None,
         [LOGGER_error
            "The certificate is not authorized, please authorize integration again.";
          flow_async_init DOMAIN "reauth"])
      else if is_ClientConnectorError e then
        (Raise (UpdateFailed ("Error communicating with API: " +:+ str e)), [])
      else if is_Exception e then
        (Raise (UpdateFailed (str e)), [])
      else (Raise e, [])
  end.

End UpdateMethod.

(** Modelled from the spec: Home Assistant's [DataUpdateCoordinator] is
    not among the sources. When the update method raises, the stored data
    are retained and the update is marked unsuccessful, which is not an
    error for the caller. When it returns, the coordinator stores the
    returned value, whatever it is, and marks the update successful. A
    cancellation is not handled and leaves the coordinator as it was. *)
Definition async_refresh
    (c : t) (update : res (option (gmap string (gmap string lesson.t))))
    : res unit * t :=
  match update with
  | Return d => (Return tt, {| data := d; last_update_success := true |})
  | Raise e =>
      if is_Exception e
      then (Return tt, {| data := data c; last_update_success := false |})
      else (Raise e, c)
  end.

End Coordinator.

(** ** [class VulcanLessonEntity] *)

Module VulcanLessonEntity.

Record t : Type := mk {
  is_tomorrow : bool;
  student_info : student_info.t;
  student_name : string;
  student_id : string;
  device_student_name : string;
  number : string;
  tomorrow : string;
  tomorrow_device_id : string;
  device_name_tomorrow : string;
  num_tomorrow : Z;
  _name : string;
  _unique_id : string;
  _icon : string
}.

(** [chr(160)], the no-break space. *)
Definition chr_160 : string := String "194"%char (String "160"%char "").

Definition __init__ (data : Data) (number_ : nat) (is_tomorrow_ : bool) : t :=
  let info := data_student_info data in
  let sid := pretty (student_info.id info) in
  let name := name_suffix data in
  let num := pretty number_ in
  let tomorrow_ := if is_tomorrow_ then "_t" else "" in
  let name_tomorrow := if is_tomorrow_ then " (Tomorrow)" else " " in
  let space := if (10 <=? number_)%nat then chr_160 else " " in
  {| is_tomorrow := is_tomorrow_;
     student_info := info;
     student_name := student_info.full_name info;
     student_id := sid;
     device_student_name := device_student_name_of data;
     number := num;
     tomorrow := tomorrow_;
     tomorrow_device_id := if is_tomorrow_ then "tomorrow_" else "";
     device_name_tomorrow := if is_tomorrow_ then "Tomorrow " else "";
     num_tomorrow := if is_tomorrow_ then 1%Z else 0%Z;
     _name := "Lesson" +:+ space +:+ num +:+ name_tomorrow +:+ name;
     _unique_id := "lesson_" +:+ tomorrow_ +:+ num +:+ "_" +:+ sid;
     _icon := "mdi:timetable" |}.

(** [self.coordinator.data[f"lessons{self.tomorrow}"][f"lesson_{self.number}"]]. *)
Definition lesson_info (c : Coordinator.t) (e : t) : res lesson.t :=
  (day <- getitem_opt (Coordinator.data c) ("lessons" +:+ tomorrow e) ;;
   getitem day ("lesson_" +:+ number e))%res.

Definition state (c : Coordinator.t) (e : t) : res string :=
  (info <- lesson_info c e ;; Return (lesson.lesson info))%res.

(** [today] is what [datetime.date.today()] gives when the property is
    read. *)
Definition available (c : Coordinator.t) (today : Z) (e : t) : res bool :=
  if negb (Coordinator.last_update_success c) then
    if negb (is_tomorrow e) then
      (info <- lesson_info c e ;;
       if negb (lesson.date info =? today)%Z then Return false else Return true)%res
    else
      (info <- lesson_info c e ;;
       if negb (lesson.date info =? today + 1)%Z then Return false else Return true)%res
  else Return true.

Definition extra_state_attributes (c : Coordinator.t) (e : t)
    : res (list (string * string)) :=
  (info <- lesson_info c e ;;
   Return [("room", lesson.room info); ("teacher", lesson.teacher info);
           ("time", lesson.from_to info); ("reason", lesson.reason info)])%res.

Definition device_identifier (DOMAIN : string) (e : t) : string * string :=
  (DOMAIN, tomorrow_device_id e +:+ "timetable_" +:+ student_id e).

End VulcanLessonEntity.

(** ** Lengths of texts *)

(** [len(s)]: the number of characters of the text whose UTF-8 bytes are
    [s]. *)
Fixpoint chars (s : string) : nat :=
  match s with
  | EmptyString => 0
  | String c rest => if is_continuation c then chars rest else S (chars rest)
  end.

(** ** Shapes of a cycle *)

(** Among the calls of a cycle there is at most one notification and at
    most one domain event, and no event comes before a notification. *)
Definition notification_then_event (l : list effect) : Prop :=
  length (notifications l) <= 1
  /\ length (bus_events l) <= 1
  /\ exists before after_ : list effect,
       l = (before ++ after_)%list
       /\ bus_events before = []
       /\ notifications after_ = [].

(** Two runs that cannot be told apart by the caller, the entity or Home
    Assistant. *)
Definition same_observation {E T : Type}
    (r1 r2 : res unit * world E T * list effect) : Prop :=
  result r1 = result r2 /\ self (after r1) = self (after r2) /\ effects r1 = effects r2.

(** The cycle sees the backend only through what the two attempts
    deliver. *)
Definition backend_blind {E T : Type} (update : M E T unit) : Prop :=
  forall w1 w2 : world E T,
    self w1 = self w2 ->
    device_registry w1 = device_registry w2 ->
    fetched w1 = fetched w2 ->
    same_observation (update w1) (update w2).

(** An exception that [except Exception] does not catch ends the cycle
    after one call, with the entity as it was and nothing sent. *)
Definition passes_through {E T : Type} (update : M E T unit) : Prop :=
  forall (w : world E T) (e : exn),
    responses (client w) (calls (client w)) = Raise e ->
    is_Exception e = false ->
    result (update w) = Raise e
    /\ calls (client (after (update w))) = 1 + calls (client w)
    /\ self (after (update w)) = self w
    /\ effects (update w) = [].

(** From this cycle on every answer of the backend is a snapshot that
    satisfies [P]. *)
Definition answers_only {E T : Type} (P : T -> Prop) (w : world E T) : Prop :=
  forall i, calls (client w) <= i ->
    exists x : T, responses (client w) i = Return x /\ P x.

(** The text holds no "_". *)
Fixpoint no_underscore (s : string) : bool :=
  match s with
  | EmptyString => true
  | String c rest => negb (Ascii.eqb c "_") && no_underscore rest
  end.

(** ** [async_setup_entry] *)

Module Setup.

(** The members of the [entities] list. *)
Inductive entity : Type :=
| Grade (e : LatestGrade.t)
| Lucky (e : LuckyNumber.t)
| Attendance (e : LatestAttendance.t)
| Message (e : LatestMessage.t)
| Homework (e : NextHomework.t)
| Exam (e : NextExam.t)
| Lesson (e : VulcanLessonEntity.t).

(** The [unique_id] an entity reports to the entity registry. *)
Definition unique_id (x : entity) : string :=
  match x with
  | Grade e => LatestGrade._unique_id e
  | Lucky e => LuckyNumber._unique_id e
  | Attendance e => LatestAttendance._unique_id e
  | Message e => LatestMessage._unique_id e
  | Homework e => NextHomework._unique_id e
  | Exam e => NextExam._unique_id e
  | Lesson e => VulcanLessonEntity._unique_id e
  end.

(** The device an entity is attached to. *)
Definition device_identifier (DOMAIN : string) (x : entity) : string * string :=
  match x with
  | Grade e => LatestGrade.device_identifier DOMAIN e
  | Lucky e => LuckyNumber.device_identifier DOMAIN e
  | Attendance e => LatestAttendance.device_identifier DOMAIN e
  | Message e => LatestMessage.device_identifier DOMAIN e
  | Homework e => NextHomework.device_identifier DOMAIN e
  | Exam e => NextExam.device_identifier DOMAIN e
  | Lesson e => VulcanLessonEntity.device_identifier DOMAIN e
  end.

(** [config_entry.options], by key; [None] for a key that is not set. *)
Record options : Type := mkOptions {
  scan_interval : option Z;
  lesson_entities_number : option Z;
  message_notify : option bool;
  grade_notify : option bool;
  attendance_notify : option bool
}.

(** What the backend answers to the seven fetches of the setup. *)
Record answers : Type := mkAnswers {
  get_student_info : res student_info.t;
  get_latest_grade : res grade.t;
  get_latest_message : res message.t;
  get_lucky_number : res lucky_number.t;
  get_latest_attendance : res attendance.t;
  get_next_homework : res homework.t;
  get_next_exam : res exam.t
}.

(** What the setup reads and writes outside its arguments: the key
    ["connection_error"] of [hass.data[DOMAIN]] (present or not) and the
    module global [SCAN_INTERVAL], in minutes. *)
Record globals : Type := mkGlobals {
  connection_error : bool;
  SCAN_INTERVAL : Z
}.

(** How the coroutine ends: [async_add_entities(entities)] was reached, or
    [PlatformNotReady] was raised from [cause], or another exception left
    it. *)
Inductive outcome : Type :=
| Added (entities : list entity)
| PlatformNotReady (cause : exn)
| Raised (e : exn).

(** The dictionary display [data = {...}]: the fetches run in the order
    they are written and the first one that raises ends the display. *)
Definition fetch_data (b : answers) (students_number : Z) (o : options) : res Data :=
  (info <- get_student_info b ;;
   g <- get_latest_grade b ;;
   m <- get_latest_message b ;;
   l <- get_lucky_number b ;;
   a <- get_latest_attendance b ;;
   h <- get_next_homework b ;;
   x <- get_next_exam b ;;
   Return (mkData info students_number g m l a h x
             (mkNotify (message_notify o) (grade_notify o) (attendance_notify o))))%res.

(** [for i in range(n): entities.append(today i); entities.append(tomorrow i)]. *)
Definition lesson_entities (data : Data) (n : Z) : list entity :=
  flat_map (fun i => [Lesson (VulcanLessonEntity.__init__ data i false);
                      Lesson (VulcanLessonEntity.__init__ data i true)])
    (seq 0 (Z.to_nat n)).

Definition entities_of (data : Data) (n : Z) : list entity :=
  ([Grade (LatestGrade.__init__ data);
    Lucky (LuckyNumber.__init__ data);
    Attendance (LatestAttendance.__init__ data);
    Message (LatestMessage.__init__ data);
    Homework (NextHomework.__init__ data);
    Exam (NextExam.__init__ data)]
   ++ lesson_entities data n)%list.

Section WithConstants.
Variable DOMAIN : string.
Variable DEFAULT_LESSON_ENTITIES_NUMBER : Z.

(** The result is the outcome, the globals and the coordinator the setup
    leaves behind, and the calls it made. The entity ids, which
    [generate_entity_id] computes from the entity registry, are left out. *)
Definition async_setup_entry (g : globals) (o : options)
    (get_lessons : Z -> Z -> Coordinator.answer) (today today_again : Z)
    (b : answers) (students_number : Z)
    : outcome * globals * Coordinator.t * list effect :=
  let interval :=
    match scan_interval o with
    | Some minutes => minutes
    | None => SCAN_INTERVAL g
    end in
  let update :=
    Coordinator.async_update_data DOMAIN DEFAULT_LESSON_ENTITIES_NUMBER get_lessons today
      today_again (lesson_entities_number o) in
  match Coordinator.async_refresh Coordinator.new (fst update) with
  | (Raise e, coordinator) =>
      (Raised e, mkGlobals (connection_error g) interval, coordinator, snd update)
  | (Return _, coordinator) =>
      match fetch_data b students_number o with
      | Raise err =>
          if is_ClientConnectorError err then
            if connection_error g
            then (PlatformNotReady err, mkGlobals true interval, coordinator, snd update)
            else (PlatformNotReady err, mkGlobals true interval, coordinator,
                  (snd update
                   ++ [LOGGER_error
                         ("Connection error - please check your internet connection: "
                          +:+ str err)])%list)
          else (Raised err, mkGlobals (connection_error g) interval, coordinator, snd update)
      | Return data =>
          (Added (entities_of data
                    (default DEFAULT_LESSON_ENTITIES_NUMBER (lesson_entities_number o))),
           mkGlobals (connection_error g) interval, coordinator, snd update)
      end
  end.

End WithConstants.

End Setup.

(** ** Repeated setups *)

Module Attempts.

(** The arguments of one call of [async_setup_entry]: Home Assistant calls
    it once per configured account, and again after [PlatformNotReady]. *)
Record attempt : Type := mkAttempt {
  options_ : Setup.options;
  get_lessons : Z -> Z -> Coordinator.answer;
  today : Z;
  today_again : Z;
  answers_ : Setup.answers;
  students_number : Z
}.

Definition run (DOMAIN : string) (DEFAULT : Z) (g : Setup.globals) (a : attempt)
    : Setup.outcome * Setup.globals * Coordinator.t * list effect :=
  Setup.async_setup_entry DOMAIN DEFAULT g (options_ a) (get_lessons a) (today a)
    (today_again a) (answers_ a) (students_number a).

(** The calls one after the other: the globals they leave and the calls
    they made into Home Assistant. *)
Fixpoint setups (DOMAIN : string) (DEFAULT : Z) (g : Setup.globals) (l : list attempt)
    : Setup.globals * list effect :=
  match l with
  | [] => (g, [])
  | a :: rest =>
      let '(_, g1, _, l1) := run DOMAIN DEFAULT g a in
      let '(g2, l2) := setups DOMAIN DEFAULT g1 rest in
      (g2, (l1 ++ l2)%list)
  end.

(** The log lines about a connection error. *)
Definition is_connection_log (e : effect) : bool :=
  match e with
  | LOGGER_error msg => String.prefix "Connection error" msg
  | _ => false
  end.

(** The device group of an entity: one per kind, the lessons of today and
    those of tomorrow apart. *)
Definition group (x : Setup.entity) : nat :=
  match x with
  | Setup.Grade _ => 0
  | Setup.Lucky _ => 1
  | Setup.Attendance _ => 2
  | Setup.Message _ => 3
  | Setup.Homework _ => 4
  | Setup.Exam _ => 5
  | Setup.Lesson e => if VulcanLessonEntity.is_tomorrow e then 7 else 6
  end.

End Attempts.

(** ** Sample values *)

Definition student0 : student_info.t :=
  student_info.mk 7 "Jan Kowalski" "3a" "SP 1" "gdansk".

Definition notify_all : Notify := mkNotify (Some true) (Some true) (Some true).

Definition grade0 : grade.t := grade.mk "5" "Math" "2024-01-10" "Quiz" "Nowak" "1".
Definition grade_placeholder : grade.t := grade.mk "-" "-" "-" "-" "-" "-".
Definition grade_joined : grade.t :=
  grade.mk "5" "WF_gr1" "2024-01-10" "Test" "Nowak" "1".
Definition grade_split : grade.t :=
  grade.mk "5_WF" "gr1" "2024-01-10" "Test" "Nowak" "1".

Definition attendance0 : attendance.t :=
  attendance.mk "obecność" "Math" "1" "2024-01-10" "10:00-10:45" 1000.
Definition attendance_late : attendance.t :=
  attendance.mk "spóźnienie" "Math" "1" "2024-01-10" "10:00-10:45" 1005.
Definition attendance_older : attendance.t :=
  attendance.mk "spóźnienie" "Math" "1" "2024-01-09" "10:00-10:45" 900.

Definition message0 : message.t :=
  message.mk 11 "Zebranie" "Dyrektor" "2024-01-10" "Zapraszam na zebranie.".
Definition message1 : message.t :=
  message.mk 12 "Wycieczka" "Wychowawca" "2024-01-11" "Zgody do piątku.".
Definition message_placeholder : message.t := message.mk 0 "-" "-" "-" "-".

Definition homework0 : homework.t := homework.mk "Zadanie 5" "Math" "Nowak" "2024-01-12".
Definition exam0 : exam.t := exam.mk "Ułamki" "Math" "Sprawdzian" "Nowak" "2024-01-15".
Definition lucky0 : lucky_number.t := lucky_number.mk "13" "2024-01-10".

Definition data0 : Data :=
  mkData student0 1 grade0 message0 lucky0 attendance0 homework0 exam0 notify_all.

Definition data_joined : Data :=
  mkData student0 1 grade_joined message0 lucky0 attendance0 homework0 exam0 notify_all.

Definition notify_off : Notify := mkNotify (Some false) None (Some false).

Definition data_off : Data :=
  mkData student0 1 grade_placeholder message0 lucky0 attendance0 homework0 exam0 notify_off.

Definition attendance_present_later : attendance.t :=
  attendance.mk "obecność" "Physics" "2" "2024-01-10" "11:00-11:45" 1010.

(** A backend that answers the placeholder message and [message0] in
    turn. *)
Definition flicker : nat -> res message.t :=
  fun i => if Nat.even i then Return message_placeholder else Return message0.

(** A world with an empty device registry whose backend has not been
    called yet. *)
Definition serving {E T : Type} (s : E) (r : nat -> res T) : world E T :=
  mkWorld s (mkClient r 0) ∅.

(** The same with the Messages device of student 7 registered. *)
Definition serving_registered {E T : Type} (s : E) (r : nat -> res T) : world E T :=
  mkWorld s (mkClient r 0) (<[("vulcan", "message7") := "device-1"]> ∅).

Definition always {T : Type} (v : T) : nat -> res T := fun _ => Return v.
Definition down {T : Type} : nat -> res T := fun _ => Raise (ClientConnectorError "down").
Definition flaky {T : Type} (v : T) : nat -> res T :=
  fun i => match i with O => Raise (ClientConnectorError "down") | _ => Return v end.

(** The four fields of the grade identity, as a tuple. *)
Definition grade_tuple (g : grade.t) : string * string * string * string :=
  (grade.content g, grade.subject g, grade.date g, grade.description g).

Definition lesson0 : lesson.t := lesson.mk "Math" 100 "12" "Nowak" "08:00-08:45" "".
Definition lesson1 : lesson.t := lesson.mk "Physics" 101 "3" "Lis" "08:00-08:45" "".

Definition timetable0 : gmap string (gmap string lesson.t) :=
  <["lessons" := <["lesson_0" := lesson0]> ∅]> (<["lessons_t" := <["lesson_0" := lesson1]> ∅]> ∅).

Definition coordinator0 : Coordinator.t := Coordinator.mk (Some timetable0) true.

Definition backend_ok : Z -> Z -> Coordinator.answer :=
  fun day _ => Coordinator.mkAnswer 2 (Return (<["lesson_0" := lesson.mk "Math" day "12" "Nowak" "08:00-08:45" ""]> ∅)).
Definition backend_slow : Z -> Z -> Coordinator.answer :=
  fun day _ => Coordinator.mkAnswer 31 (Return ∅).
Definition backend_down : Z -> Z -> Coordinator.answer :=
  fun _ _ => Coordinator.mkAnswer 1 (Raise (ClientConnectorError "down")).
Definition backend_unauthorized : Z -> Z -> Coordinator.answer :=
  fun _ _ => Coordinator.mkAnswer 1 (Raise UnauthorizedCertificateException).

(** The retry policy of one entity: after a first
    attempt that raised an [Exception] the cycle has made exactly two
    calls, and when the second raises [e2] the coroutine raises [e2], with
    the entity as it was and nothing sent. *)
Definition retried_once_then_raises {E T : Type} (update : M E T unit) : Prop :=
  forall (w : world E T) (e1 : exn),
    responses (client w) (calls (client w)) = Raise e1 ->
    is_Exception e1 = true ->
    calls (client (after (update w))) = 2 + calls (client w)
    /\ forall e2 : exn,
        responses (client w) (S (calls (client w))) = Raise e2 ->
        result (update w) = Raise e2
        /\ self (after (update w)) = self w
        /\ effects (update w) = [].

(** The slots [backend_ok] delivers for a day, and the timetable built
    from them. *)
Definition day_of (day : Z) : gmap string lesson.t :=
  <["lesson_0" := lesson.mk "Math" day "12" "Nowak" "08:00-08:45" ""]> ∅.

Definition timetable_of (today : Z) : gmap string (gmap string lesson.t) :=
  <["lessons" := day_of today]> (<["lessons_t" := day_of (today + 1)]> ∅).

(** A backend whose two answers take 15 and 16 seconds. *)
Definition backend_two_halves : Z -> Z -> Coordinator.answer :=
  fun day _ => Coordinator.mkAnswer (if (day =? 100)%Z then 15 else 16) (Return (day_of day)).

(** Backends for the setup: one that answers every fetch, one that
    refuses the connection at the attendance fetch, one whose message
    fetch fails otherwise. *)
Definition answers_ok : Setup.answers :=
  Setup.mkAnswers (Return student0) (Return grade0) (Return message0) (Return lucky0)
    (Return attendance0) (Return homework0) (Return exam0).
Definition answers_down : Setup.answers :=
  Setup.mkAnswers (Return student0) (Return grade0) (Return message0) (Return lucky0)
    (Raise (ClientConnectorError "down")) (Return homework0) (Return exam0).

Definition options_default : Setup.options :=
  Setup.mkOptions None None (Some true) (Some true) (Some true).
Definition options_five_minutes : Setup.options :=
  Setup.mkOptions (Some 5%Z) (Some 2%Z) (Some true) (Some true) (Some true).

Definition globals0 : Setup.globals := Setup.mkGlobals false 10.

Definition globals_flagged : Setup.globals := Setup.mkGlobals true 10.

Definition attempt_down : Attempts.attempt :=
  Attempts.mkAttempt options_default backend_ok 100 100 answers_down 1.
Definition attempt_five : Attempts.attempt :=
  Attempts.mkAttempt options_five_minutes backend_ok 100 100 answers_ok 1.
Definition attempt_plain : Attempts.attempt :=
  Attempts.mkAttempt options_default backend_ok 100 100 answers_ok 1.

Definition student1 : student_info.t :=
  student_info.mk 71 "Anna Kowalska" "1b" "SP 1" "gdansk".

Definition data1 : Data :=
  mkData student1 2 grade0 message0 lucky0 attendance0 homework0 exam0 notify_all.

(** A cache in which the slots do not all hold the same day: today's
    slot 0 holds day 101 and slot 1 day 100; tomorrow's slots hold day
    102. *)
Definition day_mixed : gmap string lesson.t :=
  <["lesson_0" := lesson.mk "Math" 101 "12" "Nowak" "08:00-08:45" ""]>
    (<["lesson_1" := lesson.mk "Physics" 100 "3" "Lis" "09:00-09:45" ""]> ∅).

Definition day_mixed_t : gmap string lesson.t :=
  <["lesson_0" := lesson.mk "Math" 102 "12" "Nowak" "08:00-08:45" ""]>
    (<["lesson_1" := lesson.mk "Physics" 102 "3" "Lis" "09:00-09:45" ""]> ∅).

Definition timetable_mixed : gmap string (gmap string lesson.t) :=
  <["lessons" := day_mixed]> (<["lessons_t" := day_mixed_t]> ∅).

Definition coordinator_mixed : Coordinator.t := Coordinator.mk (Some timetable_mixed) true.

(** * Properties *)

(** ** The fetch with one retry *)

Section FetchAssign.
Context {E T : Type}.
Variable store : T -> E -> E.

Lemma fetch_assign_eq (w : world E T) :
  try_except_Exception
    (bind await_fetch (fun v => set_self (store v)))
    (bind await_fetch (fun v => set_self (store v))) w
  = let c := mkClient (responses (client w)) (retried w + calls (client w)) in
    match fetched w with
    | Return v => (Return tt, mkWorld (store v (self w)) c (device_registry w), [])
    | Raise e => (Raise e, mkWorld (self w) c (device_registry w), [])
    end.
Proof.
  destruct w as [s [resp n] reg].
  unfold try_except_Exception, bind, await_fetch, set_self, fetched, retried; simpl.
  destruct (resp n) as [v|e]; simpl; [reflexivity|].
  destruct (is_Exception e); simpl; [|reflexivity].
  destruct (resp (S n)) as [v|e2]; reflexivity.
Qed.

(** When both attempts fail nothing after the fetch runs. *)
Lemma fetch_assign_raise (rest : unit -> M E T unit) (w : world E T) (e : exn) :
  fetched w = Raise e ->
  bind (try_except_Exception
          (bind await_fetch (fun v => set_self (store v)))
          (bind await_fetch (fun v => set_self (store v)))) rest w
  = (Raise e,
     mkWorld (self w) (mkClient (responses (client w)) (retried w + calls (client w)))
       (device_registry w),
     []).
Proof.
  intros Hf. unfold bind at 1. rewrite fetch_assign_eq. cbv zeta.
  rewrite Hf. reflexivity.
Qed.

Lemma fetched_first (w : world E T) (v : T) :
  responses (client w) (calls (client w)) = Return v ->
  fetched w = Return v /\ retried w = 1.
Proof. unfold fetched, retried; cbv zeta. intros ->. split; reflexivity. Qed.

Lemma fetched_second (w : world E T) (e : exn) :
  responses (client w) (calls (client w)) = Raise e ->
  is_Exception e = true ->
  fetched w = responses (client w) (S (calls (client w))) /\ retried w = 2.
Proof. unfold fetched, retried; cbv zeta. intros -> ->. split; reflexivity. Qed.

End FetchAssign.

(** ** One cycle of each entity, by the outcome of the fetch *)

Ltac run_coroutine :=
  unfold bind, when, get_self, set_self, call, async_get_device, ret; cbn.

Ltac after_fetch Hf :=
  unfold bind at 1; rewrite fetch_assign_eq; cbv zeta; rewrite Hf.

Lemma LatestGrade_cycle (DOMAIN : string) (w : world LatestGrade.t grade.t) (g : grade.t) :
  fetched w = Return g ->
  LatestGrade.async_update DOMAIN w =
    let s := LatestGrade.set_latest_grade g (self w) in
    if negb (grade.content g =? "-")
       && negb (LatestGrade.old_state (self w) =? LatestGrade.identity g)
    then (Return tt,
          mkWorld (LatestGrade.set__state (grade.content g)
                     (LatestGrade.set_old_state (LatestGrade.identity g) s))
            (client_after w) (device_registry w),
          ((if is_True (LatestGrade.notify (self w)) then [LatestGrade.notification s] else [])
           ++ match device_registry w !!
                      (DOMAIN, "message" +:+ pretty (student_info.id (LatestGrade.student_info (self w)))) with
              | Some d => [bus_async_fire "vulcan_event" d "new_grade"]
              | None => []
              end)%list)
    else (Return tt,
          mkWorld (LatestGrade.set__state (grade.content g) s) (client_after w)
            (device_registry w),
          []).
Proof.
  intros Hf. unfold LatestGrade.async_update, client_after. after_fetch Hf.
  destruct w as [s [resp n] reg]. run_coroutine.
  destruct (negb (grade.content g =? "-")
            && negb (LatestGrade.old_state s =? LatestGrade.identity g)); cbn.
  - destruct (is_True (LatestGrade.notify s)); cbn; destruct (reg !! _); reflexivity.
  - reflexivity.
Qed.

Lemma LatestAttendance_cycle (DOMAIN : string)
    (w : world LatestAttendance.t attendance.t) (a : attendance.t) :
  fetched w = Return a ->
  LatestAttendance.async_update DOMAIN w =
    let s := LatestAttendance.set_latest_attendance a (self w) in
    if negb (attendance.content a =? "-")
       && (LatestAttendance.old_att (self w) <? attendance.datetime a)%Z
    then (Return tt,
          mkWorld (LatestAttendance.set__state (attendance.content a)
                     (LatestAttendance.set_old_att (attendance.datetime a) s))
            (client_after w) (device_registry w),
          ((if is_True (LatestAttendance.notify (self w))
               && negb (attendance.content a =? "obecność")
            then [LatestAttendance.notification s] else [])
           ++ match device_registry w !!
                      (DOMAIN, "attendance" +:+ LatestAttendance.student_id (self w)) with
              | Some d => [bus_async_fire "vulcan_event" d "new_attendance"]
              | None => []
              end)%list)
    else (Return tt,
          mkWorld (LatestAttendance.set__state (attendance.content a) s) (client_after w)
            (device_registry w),
          []).
Proof.
  intros Hf. unfold LatestAttendance.async_update, client_after. after_fetch Hf.
  destruct w as [s [resp n] reg]. run_coroutine.
  destruct (negb (attendance.content a =? "-")
            && (LatestAttendance.old_att s <? attendance.datetime a)%Z); cbn.
  - destruct (is_True (LatestAttendance.notify s)
              && negb (attendance.content a =? "obecność")); cbn;
      destruct (reg !! _); reflexivity.
  - reflexivity.
Qed.

Lemma LatestMessage_cycle (DOMAIN : string)
    (w : world LatestMessage.t message.t) (m : message.t) :
  fetched w = Return m ->
  LatestMessage.async_update DOMAIN w =
    let s := LatestMessage.set_latest_message m (self w) in
    if negb (LatestMessage.old_msg (self w) =? message.id m)%Z
       && negb (message.id m =? 0)%Z
    then (Return tt,
          mkWorld (LatestMessage.set__state (slice_0_250 (message.title m))
                     (LatestMessage.set_old_msg (message.id m) s))
            (client_after w) (device_registry w),
          ((if is_True (LatestMessage.notify (self w))
            then [LatestMessage.notification s] else [])
           ++ match device_registry w !!
                      (DOMAIN, "message" +:+ pretty (student_info.id (LatestMessage.student_info (self w)))) with
              | Some d => [bus_async_fire "vulcan_event" d "new_message"]
              | None => []
              end)%list)
    else (Return tt,
          mkWorld (LatestMessage.set__state (slice_0_250 (message.title m)) s)
            (client_after w) (device_registry w),
          []).
Proof.
  intros Hf. unfold LatestMessage.async_update, client_after. after_fetch Hf.
  destruct w as [s [resp n] reg]. run_coroutine.
  destruct (negb (LatestMessage.old_msg s =? message.id m)%Z
            && negb (message.id m =? 0)%Z); cbn.
  - destruct (is_True (LatestMessage.notify s)); cbn; destruct (reg !! _); reflexivity.
  - reflexivity.
Qed.

Lemma NextHomework_cycle (w : world NextHomework.t homework.t) (h : homework.t) :
  fetched w = Return h ->
  NextHomework.async_update w =
    (Return tt,
     mkWorld (NextHomework.set__state (slice_0_250 (homework.description h))
                (NextHomework.set_next_homework h (self w)))
       (client_after w) (device_registry w),
     []).
Proof.
  intros Hf. unfold NextHomework.async_update, client_after. after_fetch Hf.
  destruct w as [s [resp n] reg]. run_coroutine. reflexivity.
Qed.

Lemma NextExam_cycle (w : world NextExam.t exam.t) (x : exam.t) :
  fetched w = Return x ->
  NextExam.async_update w =
    (Return tt,
     mkWorld (NextExam.set__state (slice_0_250 (exam.description x))
                (NextExam.set_next_exam x (self w)))
       (client_after w) (device_registry w),
     []).
Proof.
  intros Hf. unfold NextExam.async_update, client_after. after_fetch Hf.
  destruct w as [s [resp n] reg]. run_coroutine. reflexivity.
Qed.

Lemma LuckyNumber_cycle (w : world LuckyNumber.t lucky_number.t) (n : lucky_number.t) :
  fetched w = Return n ->
  LuckyNumber.async_update w =
    (Return tt,
     mkWorld (LuckyNumber.set__state (lucky_number.number n)
                (LuckyNumber.set_lucky_number n (self w)))
       (client_after w) (device_registry w),
     []).
Proof.
  intros Hf. unfold LuckyNumber.async_update, client_after. after_fetch Hf.
  destruct w as [s [resp k] reg]. run_coroutine. reflexivity.
Qed.

(** Both attempts failed: the exception of the second leaves the
    coroutine, with the entity untouched and nothing sent. *)
Lemma LatestGrade_raise (DOMAIN : string) (w : world LatestGrade.t grade.t) (e : exn) :
  fetched w = Raise e ->
  LatestGrade.async_update DOMAIN w
  = (Raise e, mkWorld (self w) (client_after w) (device_registry w), []).
Proof. intros Hf. unfold LatestGrade.async_update. erewrite fetch_assign_raise; eauto. Qed.

Lemma LatestAttendance_raise (DOMAIN : string)
    (w : world LatestAttendance.t attendance.t) (e : exn) :
  fetched w = Raise e ->
  LatestAttendance.async_update DOMAIN w
  = (Raise e, mkWorld (self w) (client_after w) (device_registry w), []).
Proof. intros Hf. unfold LatestAttendance.async_update. erewrite fetch_assign_raise; eauto. Qed.

Lemma LatestMessage_raise (DOMAIN : string)
    (w : world LatestMessage.t message.t) (e : exn) :
  fetched w = Raise e ->
  LatestMessage.async_update DOMAIN w
  = (Raise e, mkWorld (self w) (client_after w) (device_registry w), []).
Proof. intros Hf. unfold LatestMessage.async_update. erewrite fetch_assign_raise; eauto. Qed.

Lemma NextHomework_raise (w : world NextHomework.t homework.t) (e : exn) :
  fetched w = Raise e ->
  NextHomework.async_update w
  = (Raise e, mkWorld (self w) (client_after w) (device_registry w), []).
Proof. intros Hf. unfold NextHomework.async_update. erewrite fetch_assign_raise; eauto. Qed.

Lemma NextExam_raise (w : world NextExam.t exam.t) (e : exn) :
  fetched w = Raise e ->
  NextExam.async_update w
  = (Raise e, mkWorld (self w) (client_after w) (device_registry w), []).
Proof. intros Hf. unfold NextExam.async_update. erewrite fetch_assign_raise; eauto. Qed.

Lemma LuckyNumber_raise (w : world LuckyNumber.t lucky_number.t) (e : exn) :
  fetched w = Raise e ->
  LuckyNumber.async_update w
  = (Raise e, mkWorld (self w) (client_after w) (device_registry w), []).
Proof. intros Hf. unfold LuckyNumber.async_update. erewrite fetch_assign_raise; eauto. Qed.

(** ** The guards, as propositions *)

Lemma grade_guard (g : grade.t) (old : string) :
  negb (grade.content g =? "-") && negb (old =? LatestGrade.identity g) = true
  <-> grade.content g <> "-" /\ old <> LatestGrade.identity g.
Proof.
  rewrite andb_true_iff, !negb_true_iff, !String.eqb_neq. reflexivity.
Qed.

Lemma attendance_guard (a : attendance.t) (old : Z) :
  negb (attendance.content a =? "-") && (old <? attendance.datetime a)%Z = true
  <-> attendance.content a <> "-" /\ (old < attendance.datetime a)%Z.
Proof.
  rewrite andb_true_iff, negb_true_iff, String.eqb_neq, Z.ltb_lt. reflexivity.
Qed.

Lemma message_guard (m : message.t) (old : Z) :
  negb (old =? message.id m)%Z && negb (message.id m =? 0)%Z = true
  <-> old <> message.id m /\ message.id m <> 0%Z.
Proof.
  rewrite andb_true_iff, !negb_true_iff, !Z.eqb_neq. reflexivity.
Qed.

Lemma guard_false (b : bool) (P : Prop) : (b = true <-> P) -> b = false -> ~ P.
Proof. intros H Hb HP. apply H in HP. congruence. Qed.

Lemma notifications_with_event (l : list effect) (d : option string) (type_ : string) :
  notifications
    (l ++ match d with
          | Some i => [bus_async_fire "vulcan_event" i type_]
          | None => []
          end)
  = notifications l.
Proof.
  unfold notifications. rewrite List.filter_app.
  destruct d; cbn; apply app_nil_r.
Qed.

(** ** C1: the comparison baseline after a successful fetch *)

(** C1, as stated, does not hold. Each of the three entities keeps its old
    baseline after a successful fetch whose guard is false: a grade entity
    set up on a real grade that fetches the placeholder grade, an attendance
    entity that fetches an entry older than its baseline, a message entity
    that fetches the placeholder message with id 0. *)
Lemma baseline_kept_when_guard_fails :
  (fetched (serving (LatestGrade.__init__ data0) (always grade_placeholder))
     = Return grade_placeholder
   /\ LatestGrade.old_state
        (self (after (LatestGrade.async_update "vulcan"
                        (serving (LatestGrade.__init__ data0) (always grade_placeholder)))))
      <> LatestGrade.identity grade_placeholder)
  /\ (fetched (serving (LatestAttendance.__init__ data0) (always attendance_older))
        = Return attendance_older
      /\ LatestAttendance.old_att
           (self (after (LatestAttendance.async_update "vulcan"
                           (serving (LatestAttendance.__init__ data0) (always attendance_older)))))
         <> attendance.datetime attendance_older)
  /\ (fetched (serving (LatestMessage.__init__ data0) (always message_placeholder))
        = Return message_placeholder
      /\ LatestMessage.old_msg
           (self (after (LatestMessage.async_update "vulcan"
                           (serving (LatestMessage.__init__ data0) (always message_placeholder)))))
         <> message.id message_placeholder).
Proof.
  repeat split; try reflexivity; vm_compute; discriminate.
Qed.

(** C1, amended. After a successful fetch the stored snapshot and the
    exposed state are always those of the fetched snapshot, and the
    coroutine returns normally. The comparison baseline becomes the identity
    of the fetched snapshot when the guard of the kind holds (grade: content
    is not "-" and the identity string differs from [old_state]; attendance:
    content is not "-" and [old_att] is earlier than the datetime; message:
    the id differs from [old_msg] and is not 0). When the guard does not
    hold the baseline keeps its previous value. *)
Theorem baseline_follows_guard (DOMAIN : string) :
  (forall (w : world LatestGrade.t grade.t) (g : grade.t),
      fetched w = Return g ->
      let r := LatestGrade.async_update DOMAIN w in
      result r = Return tt
      /\ LatestGrade.latest_grade (self (after r)) = g
      /\ LatestGrade._state (self (after r)) = grade.content g
      /\ (grade.content g <> "-" /\ LatestGrade.old_state (self w) <> LatestGrade.identity g ->
          LatestGrade.old_state (self (after r)) = LatestGrade.identity g)
      /\ (~ (grade.content g <> "-" /\ LatestGrade.old_state (self w) <> LatestGrade.identity g) ->
          LatestGrade.old_state (self (after r)) = LatestGrade.old_state (self w)))
  /\ (forall (w : world LatestAttendance.t attendance.t) (a : attendance.t),
      fetched w = Return a ->
      let r := LatestAttendance.async_update DOMAIN w in
      result r = Return tt
      /\ LatestAttendance.latest_attendance (self (after r)) = a
      /\ LatestAttendance._state (self (after r)) = attendance.content a
      /\ (attendance.content a <> "-"
          /\ (LatestAttendance.old_att (self w) < attendance.datetime a)%Z ->
          LatestAttendance.old_att (self (after r)) = attendance.datetime a)
      /\ (~ (attendance.content a <> "-"
             /\ (LatestAttendance.old_att (self w) < attendance.datetime a)%Z) ->
          LatestAttendance.old_att (self (after r)) = LatestAttendance.old_att (self w)))
  /\ (forall (w : world LatestMessage.t message.t) (m : message.t),
      fetched w = Return m ->
      let r := LatestMessage.async_update DOMAIN w in
      result r = Return tt
      /\ LatestMessage.latest_message (self (after r)) = m
      /\ LatestMessage._state (self (after r)) = slice_0_250 (message.title m)
      /\ (LatestMessage.old_msg (self w) <> message.id m /\ message.id m <> 0%Z ->
          LatestMessage.old_msg (self (after r)) = message.id m)
      /\ (~ (LatestMessage.old_msg (self w) <> message.id m /\ message.id m <> 0%Z) ->
          LatestMessage.old_msg (self (after r)) = LatestMessage.old_msg (self w))).
Proof.
  split; [|split].
  - intros w g Hf r. subst r. rewrite (LatestGrade_cycle _ _ _ Hf). cbv zeta.
    destruct (negb (grade.content g =? "-")
              && negb (LatestGrade.old_state (self w) =? LatestGrade.identity g)) eqn:Hg;
      cbn; repeat split; try reflexivity; intros H.
    + exfalso. apply H. apply grade_guard. exact Hg.
    + exfalso. exact (guard_false _ _ (grade_guard g _) Hg H).
  - intros w a Hf r. subst r. rewrite (LatestAttendance_cycle _ _ _ Hf). cbv zeta.
    destruct (negb (attendance.content a =? "-")
              && (LatestAttendance.old_att (self w) <? attendance.datetime a)%Z) eqn:Hg;
      cbn; repeat split; try reflexivity; intros H.
    + exfalso. apply H. apply attendance_guard. exact Hg.
    + exfalso. exact (guard_false _ _ (attendance_guard a _) Hg H).
  - intros w m Hf r. subst r. rewrite (LatestMessage_cycle _ _ _ Hf). cbv zeta.
    destruct (negb (LatestMessage.old_msg (self w) =? message.id m)%Z
              && negb (message.id m =? 0)%Z) eqn:Hg;
      cbn; repeat split; try reflexivity; intros H.
    + exfalso. apply H. apply message_guard. exact Hg.
    + exfalso. exact (guard_false _ _ (message_guard m _) Hg H).
Qed.

(** A first attempt that fails, a retry that delivers a new grade, a new
    attendance entry, a new message. *)
Lemma baseline_follows_guard_witness :
  (fetched (serving (LatestGrade.__init__ data_joined) (flaky grade0)) = Return grade0
   /\ LatestGrade.old_state
        (self (after (LatestGrade.async_update "vulcan"
                        (serving (LatestGrade.__init__ data_joined) (flaky grade0)))))
      = LatestGrade.identity grade0)
  /\ (fetched (serving (LatestAttendance.__init__ data0) (flaky attendance_late))
        = Return attendance_late
      /\ LatestAttendance.old_att
           (self (after (LatestAttendance.async_update "vulcan"
                           (serving (LatestAttendance.__init__ data0) (flaky attendance_late)))))
         = attendance.datetime attendance_late)
  /\ (fetched (serving (LatestMessage.__init__ data0) (flaky message_placeholder))
        = Return message_placeholder
      /\ LatestMessage.old_msg
           (self (after (LatestMessage.async_update "vulcan"
                           (serving (LatestMessage.__init__ data0) (flaky message_placeholder)))))
         = LatestMessage.old_msg (LatestMessage.__init__ data0)).
Proof.
  destruct (baseline_follows_guard "vulcan") as [Hg [Ha Hm]].
  split; [|split]; (split; [reflexivity|]).
  - apply (Hg (serving (LatestGrade.__init__ data_joined) (flaky grade0)) grade0);
      [reflexivity|].
    split; vm_compute; discriminate.
  - apply (Ha (serving (LatestAttendance.__init__ data0) (flaky attendance_late))
              attendance_late); [reflexivity|].
    split; [vm_compute; discriminate | vm_compute; reflexivity].
  - apply (Hm (serving (LatestMessage.__init__ data0) (flaky message_placeholder))
              message_placeholder); [reflexivity|].
    intros [_ H]. apply H. reflexivity.
Defined.

(** ** C3, C4, C5: when a notification is sent *)

(** C3. With the attendance toggle on, a cycle that fetched the entry [a]
    sends a notification exactly when the stored baseline [old_att] is
    strictly earlier than the datetime of [a] and the content of [a] is
    neither "-" nor "obecność". The entity [w] is arbitrary, so this is
    every cycle of every sequence of fetched entries. When the content is
    "obecność" and the datetime is strictly later, nothing is sent and the
    baseline still moves to the new datetime. *)
Theorem attendance_notification_iff (DOMAIN : string)
    (w : world LatestAttendance.t attendance.t) (a : attendance.t) :
  LatestAttendance.notify (self w) = Some true ->
  fetched w = Return a ->
  let r := LatestAttendance.async_update DOMAIN w in
  (notifications (effects r) <> []
   <-> (LatestAttendance.old_att (self w) < attendance.datetime a)%Z
       /\ attendance.content a <> "-"
       /\ attendance.content a <> "obecność")
  /\ (attendance.content a = "obecność" ->
      (LatestAttendance.old_att (self w) < attendance.datetime a)%Z ->
      notifications (effects r) = []
      /\ LatestAttendance.old_att (self (after r)) = attendance.datetime a).
Proof.
  intros Hn Hf r. subst r. rewrite (LatestAttendance_cycle _ _ _ Hf). cbv zeta.
  rewrite Hn. cbn [is_True andb].
  destruct (negb (attendance.content a =? "-")
            && (LatestAttendance.old_att (self w) <? attendance.datetime a)%Z) eqn:Hg.
  - apply attendance_guard in Hg. destruct Hg as [Hc Hlt].
    unfold effects, after. cbn [fst snd]. rewrite notifications_with_event.
    destruct (attendance.content a =? "obecność") eqn:Hp; cbn.
    + apply String.eqb_eq in Hp. split.
      * split; [intros H; congruence | intros [_ [_ H]]; congruence].
      * intros _ _. split; reflexivity.
    + apply String.eqb_neq in Hp. split.
      * split; [intros _; auto | intros _; discriminate].
      * intros H; congruence.
  - pose proof (guard_false _ _ (attendance_guard a _) Hg) as Hno.
    unfold effects, after. cbn. split.
    + split; [intros H; congruence | intros [Hlt [Hc _]]; exfalso; apply Hno; auto].
    + intros Hp Hlt. exfalso. apply Hno. split; [|exact Hlt].
      rewrite Hp. vm_compute. discriminate.
Qed.

(** The 10:00 "obecność" baseline followed by the 10:05 "spóźnienie". *)
Lemma attendance_notification_iff_witness :
  LatestAttendance.notify (LatestAttendance.__init__ data0) = Some true
  /\ fetched (serving (LatestAttendance.__init__ data0) (always attendance_late))
     = Return attendance_late
  /\ notifications
       (effects (LatestAttendance.async_update "vulcan"
                   (serving (LatestAttendance.__init__ data0) (always attendance_late))))
     <> [].
Proof.
  split; [reflexivity|]. split; [reflexivity|].
  apply (attendance_notification_iff "vulcan"
           (serving (LatestAttendance.__init__ data0) (always attendance_late))
           attendance_late eq_refl eq_refl).
  split; [vm_compute; reflexivity|].
  split; vm_compute; discriminate.
Defined.

(** C4, as stated, does not hold. An entity set up on the grade with
    content "5" and subject "WF_gr1" fetches the grade with content "5_WF"
    and subject "gr1": the tuples (content, subject, date, description)
    differ and the new content is not "-", but both grades give the string
    "5_WF_gr1_2024-01-10_Test" and no notification is sent. *)
Lemma grade_tuple_change_unnoticed :
  LatestGrade.notify (LatestGrade.__init__ data_joined) = Some true
  /\ fetched (serving (LatestGrade.__init__ data_joined) (always grade_split))
     = Return grade_split
  /\ grade_tuple grade_split <> grade_tuple (data_grade data_joined)
  /\ grade.content grade_split <> "-"
  /\ notifications
       (effects (LatestGrade.async_update "vulcan"
                   (serving (LatestGrade.__init__ data_joined) (always grade_split))))
     = [].
Proof.
  repeat split; try reflexivity; vm_compute; discriminate.
Qed.

(** C4, amended. With the grade toggle on, a cycle that fetched the grade
    [g] sends a notification exactly when the string
    content_subject_date_description built from [g] differs from the stored
    [old_state] string and the content of [g] is not "-". *)
Theorem grade_notification_iff (DOMAIN : string)
    (w : world LatestGrade.t grade.t) (g : grade.t) :
  LatestGrade.notify (self w) = Some true ->
  fetched w = Return g ->
  notifications (effects (LatestGrade.async_update DOMAIN w)) <> []
  <-> LatestGrade.identity g <> LatestGrade.old_state (self w)
      /\ grade.content g <> "-".
Proof.
  intros Hn Hf. rewrite (LatestGrade_cycle _ _ _ Hf). cbv zeta. rewrite Hn.
  cbn [is_True].
  destruct (negb (grade.content g =? "-")
            && negb (LatestGrade.old_state (self w) =? LatestGrade.identity g)) eqn:Hg.
  - apply grade_guard in Hg. destruct Hg as [Hc Hd].
    unfold effects. cbn [snd]. rewrite notifications_with_event. cbn.
    split; [intros _; split; [congruence | exact Hc] | intros _; discriminate].
  - pose proof (guard_false _ _ (grade_guard g _) Hg) as Hno.
    unfold effects. cbn. split; [congruence|].
    intros [Hd Hc]. exfalso. apply Hno. split; [exact Hc | congruence].
Qed.

(** A baseline grade followed by a grade that reads differently. *)
Lemma grade_notification_iff_witness :
  LatestGrade.notify (LatestGrade.__init__ data_joined) = Some true
  /\ fetched (serving (LatestGrade.__init__ data_joined) (always grade0)) = Return grade0
  /\ notifications
       (effects (LatestGrade.async_update "vulcan"
                   (serving (LatestGrade.__init__ data_joined) (always grade0))))
     <> [].
Proof.
  split; [reflexivity|]. split; [reflexivity|].
  apply (grade_notification_iff "vulcan"
           (serving (LatestGrade.__init__ data_joined) (always grade0)) grade0
           eq_refl eq_refl).
  split; vm_compute; discriminate.
Defined.

(** C5. With the message toggle on, a cycle that fetched the message [m]
    sends a notification exactly when the id of [m] differs from the stored
    [old_msg] and is not 0. *)
Theorem message_notification_iff (DOMAIN : string)
    (w : world LatestMessage.t message.t) (m : message.t) :
  LatestMessage.notify (self w) = Some true ->
  fetched w = Return m ->
  notifications (effects (LatestMessage.async_update DOMAIN w)) <> []
  <-> message.id m <> LatestMessage.old_msg (self w) /\ message.id m <> 0%Z.
Proof.
  intros Hn Hf. rewrite (LatestMessage_cycle _ _ _ Hf). cbv zeta. rewrite Hn.
  cbn [is_True].
  destruct (negb (LatestMessage.old_msg (self w) =? message.id m)%Z
            && negb (message.id m =? 0)%Z) eqn:Hg.
  - apply message_guard in Hg. destruct Hg as [Hd Hz].
    unfold effects. cbn [snd]. rewrite notifications_with_event. cbn.
    split; [intros _; split; [congruence | exact Hz] | intros _; discriminate].
  - pose proof (guard_false _ _ (message_guard m _) Hg) as Hno.
    unfold effects. cbn. split; [congruence|].
    intros [Hd Hz]. exfalso. apply Hno. split; [congruence | exact Hz].
Qed.

Lemma message_notification_iff_witness :
  LatestMessage.notify (LatestMessage.__init__ data0) = Some true
  /\ fetched (serving (LatestMessage.__init__ data0) (always message1)) = Return message1
  /\ notifications
       (effects (LatestMessage.async_update "vulcan"
                   (serving (LatestMessage.__init__ data0) (always message1))))
     <> [].
Proof.
  split; [reflexivity|]. split; [reflexivity|].
  apply (message_notification_iff "vulcan"
           (serving (LatestMessage.__init__ data0) (always message1)) message1
           eq_refl eq_refl).
  split; vm_compute; discriminate.
Defined.

(** ** C9: the device of the "new_grade" event *)

Lemma bus_events_after_notification (l : list effect) (rest : list effect) :
  List.forallb is_notification l = true ->
  bus_events (l ++ rest) = bus_events rest.
Proof.
  intros Hl. unfold bus_events. rewrite List.filter_app.
  induction l as [|x l IH]; [reflexivity|].
  cbn in Hl. apply andb_true_iff in Hl. destruct Hl as [Hx Hl].
  destruct x; try discriminate. cbn. apply IH. exact Hl.
Qed.

(** C9. When a cycle detects a grade change (the fetched content is not "-"
    and its identity string differs from [old_state]), the domain events it
    fires are read off the device registry at the identifier of the
    Messages device of the same student: one "new_grade" event carrying
    that device's id when the Messages device is registered, none when it
    is not. That identifier is never the one of the Grades device, so
    registering the Grades device alone fires nothing. *)
Theorem new_grade_event_targets_message_device (DOMAIN : string)
    (w : world LatestGrade.t grade.t) (g : grade.t) (messages : LatestMessage.t) :
  LatestMessage.student_info messages = LatestGrade.student_info (self w) ->
  fetched w = Return g ->
  grade.content g <> "-" ->
  LatestGrade.old_state (self w) <> LatestGrade.identity g ->
  let fired := bus_events (effects (LatestGrade.async_update DOMAIN w)) in
  let registered := device_registry w !! LatestMessage.device_identifier DOMAIN messages in
  fired = match registered with
          | Some d => [bus_async_fire "vulcan_event" d "new_grade"]
          | None => []
          end
  /\ (fired <> [] <-> is_Some registered)
  /\ LatestGrade.device_identifier DOMAIN (self w)
     <> LatestMessage.device_identifier DOMAIN messages.
Proof.
  intros Hs Hf Hc Hd fired registered. subst fired registered.
  rewrite (LatestGrade_cycle _ _ _ Hf). cbv zeta.
  rewrite (proj2 (grade_guard g _) (conj Hc Hd)).
  unfold effects, LatestMessage.device_identifier, LatestGrade.device_identifier.
  cbn [snd]. rewrite Hs.
  rewrite bus_events_after_notification
    by (destruct (is_True (LatestGrade.notify (self w))); reflexivity).
  destruct (device_registry w !! _) as [d|]; cbn.
  - repeat split; [intros _; eauto | intros _; discriminate | intros H; discriminate H].
  - repeat split; [intros H; congruence | intros [x H]; discriminate | intros H; discriminate H].
Qed.

(** A new grade with only the Messages device registered: the event names
    that device. *)
Lemma new_grade_event_targets_message_device_witness :
  bus_events
    (effects (LatestGrade.async_update "vulcan"
                (serving_registered (LatestGrade.__init__ data_joined) (always grade0))))
  = [bus_async_fire "vulcan_event" "device-1" "new_grade"].
Proof.
  apply (new_grade_event_targets_message_device "vulcan"
           (serving_registered (LatestGrade.__init__ data_joined) (always grade0))
           grade0 (LatestMessage.__init__ data_joined) eq_refl eq_refl);
    vm_compute; discriminate.
Defined.

(** ** C2: a fetch that fails twice *)

(** Whatever the fetch delivers, a cycle leaves the client with [retried w]
    more calls. *)
Lemma LatestGrade_client (DOMAIN : string) (w : world LatestGrade.t grade.t) :
  client (after (LatestGrade.async_update DOMAIN w)) = client_after w.
Proof.
  destruct (fetched w) as [g|e] eqn:Hf.
  - rewrite (LatestGrade_cycle _ _ _ Hf). cbv zeta.
    destruct (negb _ && negb _); reflexivity.
  - rewrite (LatestGrade_raise _ _ _ Hf). reflexivity.
Qed.

Lemma LatestAttendance_client (DOMAIN : string)
    (w : world LatestAttendance.t attendance.t) :
  client (after (LatestAttendance.async_update DOMAIN w)) = client_after w.
Proof.
  destruct (fetched w) as [a|e] eqn:Hf.
  - rewrite (LatestAttendance_cycle _ _ _ Hf). cbv zeta.
    destruct (negb _ && _); reflexivity.
  - rewrite (LatestAttendance_raise _ _ _ Hf). reflexivity.
Qed.

Lemma LatestMessage_client (DOMAIN : string) (w : world LatestMessage.t message.t) :
  client (after (LatestMessage.async_update DOMAIN w)) = client_after w.
Proof.
  destruct (fetched w) as [m|e] eqn:Hf.
  - rewrite (LatestMessage_cycle _ _ _ Hf). cbv zeta.
    destruct (negb _ && negb _); reflexivity.
  - rewrite (LatestMessage_raise _ _ _ Hf). reflexivity.
Qed.

Lemma NextHomework_client (w : world NextHomework.t homework.t) :
  client (after (NextHomework.async_update w)) = client_after w.
Proof.
  destruct (fetched w) as [h|e] eqn:Hf.
  - rewrite (NextHomework_cycle _ _ Hf). reflexivity.
  - rewrite (NextHomework_raise _ _ Hf). reflexivity.
Qed.

Lemma NextExam_client (w : world NextExam.t exam.t) :
  client (after (NextExam.async_update w)) = client_after w.
Proof.
  destruct (fetched w) as [x|e] eqn:Hf.
  - rewrite (NextExam_cycle _ _ Hf). reflexivity.
  - rewrite (NextExam_raise _ _ Hf). reflexivity.
Qed.

Lemma LuckyNumber_client (w : world LuckyNumber.t lucky_number.t) :
  client (after (LuckyNumber.async_update w)) = client_after w.
Proof.
  destruct (fetched w) as [n|e] eqn:Hf.
  - rewrite (LuckyNumber_cycle _ _ Hf). reflexivity.
  - rewrite (LuckyNumber_raise _ _ Hf). reflexivity.
Qed.

Lemma retried_once_then_raises_intro {E T : Type} (update : M E T unit) :
  (forall w, client (after (update w)) = client_after w) ->
  (forall w e, fetched w = Raise e ->
     update w = (Raise e, mkWorld (self w) (client_after w) (device_registry w), [])) ->
  retried_once_then_raises update.
Proof.
  intros Hclient Hraise w e1 H1 He1.
  destruct (fetched_second w e1 H1 He1) as [Hf Hn]. split.
  - rewrite Hclient. unfold client_after. cbn. rewrite Hn. reflexivity.
  - intros e2 H2. rewrite H2 in Hf. rewrite (Hraise w e2 Hf). repeat split.
Qed.

(** C2, as stated, does not hold: with a backend that fails on both
    attempts every [async_update] raises the second exception to its
    caller. *)
Lemma second_failure_leaves_async_update :
  result (LatestGrade.async_update "vulcan" (serving (LatestGrade.__init__ data0) down))
    = Raise (ClientConnectorError "down")
  /\ result (LatestAttendance.async_update "vulcan"
               (serving (LatestAttendance.__init__ data0) down))
     = Raise (ClientConnectorError "down")
  /\ result (LatestMessage.async_update "vulcan"
               (serving (LatestMessage.__init__ data0) down))
     = Raise (ClientConnectorError "down")
  /\ result (NextHomework.async_update (serving (NextHomework.__init__ data0) down))
     = Raise (ClientConnectorError "down")
  /\ result (NextExam.async_update (serving (NextExam.__init__ data0) down))
     = Raise (ClientConnectorError "down")
  /\ result (LuckyNumber.async_update (serving (LuckyNumber.__init__ data0) down))
     = Raise (ClientConnectorError "down").
Proof. repeat split. Qed.

(** C2, amended. For every fact kind, when the first fetch of a cycle
    raises an [Exception] the fetch is made exactly once more. When that
    second fetch raises too, its exception is raised by [async_update]; the
    entity (exposed state, stored snapshot, baseline) is as before the cycle
    and no notification or event is sent. *)
Theorem second_failure_keeps_entity (DOMAIN : string) :
  retried_once_then_raises (LatestGrade.async_update DOMAIN)
  /\ retried_once_then_raises (LatestAttendance.async_update DOMAIN)
  /\ retried_once_then_raises (LatestMessage.async_update DOMAIN)
  /\ retried_once_then_raises NextHomework.async_update
  /\ retried_once_then_raises NextExam.async_update
  /\ retried_once_then_raises LuckyNumber.async_update.
Proof.
  split; [|split; [|split; [|split; [|split]]]];
    apply retried_once_then_raises_intro.
  - apply LatestGrade_client.
  - intros w e. apply LatestGrade_raise.
  - apply LatestAttendance_client.
  - intros w e. apply LatestAttendance_raise.
  - apply LatestMessage_client.
  - intros w e. apply LatestMessage_raise.
  - apply NextHomework_client.
  - apply NextHomework_raise.
  - apply NextExam_client.
  - apply NextExam_raise.
  - apply LuckyNumber_client.
  - apply LuckyNumber_raise.
Qed.

Lemma second_failure_keeps_entity_witness :
  calls (client (after (LatestMessage.async_update "vulcan"
                          (serving (LatestMessage.__init__ data0) down)))) = 2
  /\ self (after (LatestMessage.async_update "vulcan"
                    (serving (LatestMessage.__init__ data0) down)))
     = LatestMessage.__init__ data0.
Proof.
  destruct (second_failure_keeps_entity "vulcan") as [_ [_ [Hm _]]].
  destruct (Hm (serving (LatestMessage.__init__ data0) down)
               (ClientConnectorError "down") eq_refl eq_refl) as [Hcalls Hraise].
  split; [exact Hcalls|].
  exact (proj1 (proj2 (Hraise (ClientConnectorError "down") eq_refl))).
Defined.

(** ** C6: a repeated snapshot is silent *)

Section Quiet.
Context {E T : Type}.
Variable update : M E T unit.
Variable inv : E -> Prop.
Variable v : T.

Hypothesis quiet_cycle :
  forall w : world E T,
    inv (self w) -> fetched w = Return v ->
    effects (update w) = []
    /\ inv (self (after (update w)))
    /\ client (after (update w)) = client_after w.

Lemma repeats_next (w : world E T) :
  repeats v w -> fetched w = Return v /\ repeats v (mkWorld (self w) (client_after w) (device_registry w)).
Proof.
  intros Hr.
  destruct (fetched_first w v (Hr _ (Nat.le_refl _))) as [Hf Hn].
  split; [exact Hf|].
  intros i Hi. unfold client_after in *. cbn in *. rewrite Hn in Hi.
  apply Hr. lia.
Qed.

Lemma cycles_quiet (n : nat) :
  forall w : world E T, inv (self w) -> repeats v w -> snd (cycles update n w) = [].
Proof.
  induction n as [|k IH]; intros w Hi Hr; [reflexivity|].
  destruct (repeats_next w Hr) as [Hf Hr'].
  destruct (quiet_cycle w Hi Hf) as [He [Hi' Hc]].
  cbn. unfold effects, after in *.
  destruct (update w) as [[r w1] l1]. cbn in *. subst l1.
  specialize (IH w1 Hi').
  destruct (cycles update k w1) as [w2 l2]. cbn in *.
  apply IH. intros i Hle. rewrite Hc in *. apply Hr'. exact Hle.
Qed.

End Quiet.

(** What keeps a grade entity silent while the backend repeats [v]. *)
Lemma LatestGrade_settled (DOMAIN : string) (v : grade.t) (s : LatestGrade.t) :
  established LatestGrade.__init__ data_grade (LatestGrade.async_update DOMAIN) v s ->
  grade.content v = "-" \/ LatestGrade.old_state s = LatestGrade.identity v.
Proof.
  intros [[data [Hv Hs]] | [w0 [Hf Hs]]].
  - right. subst. reflexivity.
  - subst s. rewrite (LatestGrade_cycle _ _ _ Hf). cbv zeta.
    destruct (negb (grade.content v =? "-")
              && negb (LatestGrade.old_state (self w0) =? LatestGrade.identity v)) eqn:Hg.
    + right. reflexivity.
    + cbn. apply andb_false_iff in Hg. destruct Hg as [Hg|Hg];
        apply negb_false_iff in Hg; apply String.eqb_eq in Hg; auto.
Qed.

Lemma LatestAttendance_settled (DOMAIN : string) (v : attendance.t)
    (s : LatestAttendance.t) :
  established LatestAttendance.__init__ data_attendance
    (LatestAttendance.async_update DOMAIN) v s ->
  attendance.content v = "-" \/ (attendance.datetime v <= LatestAttendance.old_att s)%Z.
Proof.
  intros [[data [Hv Hs]] | [w0 [Hf Hs]]].
  - right. subst. cbn. lia.
  - subst s. rewrite (LatestAttendance_cycle _ _ _ Hf). cbv zeta.
    destruct (negb (attendance.content v =? "-")
              && (LatestAttendance.old_att (self w0) <? attendance.datetime v)%Z) eqn:Hg.
    + right. cbn. lia.
    + cbn. apply andb_false_iff in Hg. destruct Hg as [Hg|Hg].
      * left. apply negb_false_iff in Hg. apply String.eqb_eq in Hg. exact Hg.
      * right. apply Z.ltb_ge in Hg. exact Hg.
Qed.

Lemma LatestMessage_settled (DOMAIN : string) (v : message.t) (s : LatestMessage.t) :
  established LatestMessage.__init__ data_message (LatestMessage.async_update DOMAIN) v s ->
  message.id v = 0%Z \/ LatestMessage.old_msg s = message.id v.
Proof.
  intros [[data [Hv Hs]] | [w0 [Hf Hs]]].
  - right. subst. reflexivity.
  - subst s. rewrite (LatestMessage_cycle _ _ _ Hf). cbv zeta.
    destruct (negb (LatestMessage.old_msg (self w0) =? message.id v)%Z
              && negb (message.id v =? 0)%Z) eqn:Hg.
    + right. reflexivity.
    + cbn. apply andb_false_iff in Hg. destruct Hg as [Hg|Hg];
        apply negb_false_iff in Hg; apply Z.eqb_eq in Hg; auto.
Qed.

(** C6. For every fact kind: once the entity has taken its baseline from
    the snapshot [v] (at setup, or in an earlier cycle that fetched [v]),
    [N] further cycles in which the backend answers [v] make no call into
    Home Assistant at all, so no notification and no domain event, for
    every [N]. *)
Theorem repeated_snapshot_is_silent (DOMAIN : string) (N : nat) :
  (forall (v : grade.t) (w : world LatestGrade.t grade.t),
      established LatestGrade.__init__ data_grade (LatestGrade.async_update DOMAIN) v (self w) ->
      repeats v w ->
      snd (cycles (LatestGrade.async_update DOMAIN) N w) = [])
  /\ (forall (v : attendance.t) (w : world LatestAttendance.t attendance.t),
      established LatestAttendance.__init__ data_attendance
        (LatestAttendance.async_update DOMAIN) v (self w) ->
      repeats v w ->
      snd (cycles (LatestAttendance.async_update DOMAIN) N w) = [])
  /\ (forall (v : message.t) (w : world LatestMessage.t message.t),
      established LatestMessage.__init__ data_message
        (LatestMessage.async_update DOMAIN) v (self w) ->
      repeats v w ->
      snd (cycles (LatestMessage.async_update DOMAIN) N w) = [])
  /\ (forall (v : homework.t) (w : world NextHomework.t homework.t),
      established NextHomework.__init__ data_homework NextHomework.async_update v (self w) ->
      repeats v w ->
      snd (cycles NextHomework.async_update N w) = [])
  /\ (forall (v : exam.t) (w : world NextExam.t exam.t),
      established NextExam.__init__ data_exam NextExam.async_update v (self w) ->
      repeats v w ->
      snd (cycles NextExam.async_update N w) = [])
  /\ (forall (v : lucky_number.t) (w : world LuckyNumber.t lucky_number.t),
      established LuckyNumber.__init__ data_lucky_number LuckyNumber.async_update v (self w) ->
      repeats v w ->
      snd (cycles LuckyNumber.async_update N w) = []).
Proof.
  split; [|split; [|split; [|split; [|split]]]]; intros v w Hest Hrep.
  - apply LatestGrade_settled in Hest.
    apply (cycles_quiet _
             (fun s => grade.content v = "-" \/ LatestGrade.old_state s = LatestGrade.identity v) v);
      [|exact Hest|exact Hrep].
    intros w1 Hi Hf. rewrite (LatestGrade_cycle _ _ _ Hf). cbv zeta.
    destruct (negb (grade.content v =? "-")
              && negb (LatestGrade.old_state (self w1) =? LatestGrade.identity v)) eqn:Hg.
    + apply grade_guard in Hg. destruct Hg, Hi; congruence.
    + repeat split. exact Hi.
  - apply LatestAttendance_settled in Hest.
    apply (cycles_quiet _
             (fun s => attendance.content v = "-"
                       \/ (attendance.datetime v <= LatestAttendance.old_att s)%Z) v);
      [|exact Hest|exact Hrep].
    intros w1 Hi Hf. rewrite (LatestAttendance_cycle _ _ _ Hf). cbv zeta.
    destruct (negb (attendance.content v =? "-")
              && (LatestAttendance.old_att (self w1) <? attendance.datetime v)%Z) eqn:Hg.
    + apply attendance_guard in Hg. destruct Hg, Hi; [congruence | lia].
    + repeat split. exact Hi.
  - apply LatestMessage_settled in Hest.
    apply (cycles_quiet _
             (fun s => message.id v = 0%Z \/ LatestMessage.old_msg s = message.id v) v);
      [|exact Hest|exact Hrep].
    intros w1 Hi Hf. rewrite (LatestMessage_cycle _ _ _ Hf). cbv zeta.
    destruct (negb (LatestMessage.old_msg (self w1) =? message.id v)%Z
              && negb (message.id v =? 0)%Z) eqn:Hg.
    + apply message_guard in Hg. destruct Hg, Hi; congruence.
    + repeat split. exact Hi.
  - apply (cycles_quiet _ (fun _ => True) v); [|exact I|exact Hrep].
    intros w1 _ Hf. rewrite (NextHomework_cycle _ _ Hf). repeat split.
  - apply (cycles_quiet _ (fun _ => True) v); [|exact I|exact Hrep].
    intros w1 _ Hf. rewrite (NextExam_cycle _ _ Hf). repeat split.
  - apply (cycles_quiet _ (fun _ => True) v); [|exact I|exact Hrep].
    intros w1 _ Hf. rewrite (LuckyNumber_cycle _ _ Hf). repeat split.
Qed.

(** Five more cycles on the grade the entity was set up with. *)
Lemma repeated_snapshot_is_silent_witness :
  established LatestGrade.__init__ data_grade (LatestGrade.async_update "vulcan") grade0
    (LatestGrade.__init__ data0)
  /\ repeats grade0 (serving_registered (LatestGrade.__init__ data0) (always grade0))
  /\ snd (cycles (LatestGrade.async_update "vulcan") 5
            (serving_registered (LatestGrade.__init__ data0) (always grade0))) = [].
Proof.
  assert (He : established LatestGrade.__init__ data_grade
                 (LatestGrade.async_update "vulcan") grade0 (LatestGrade.__init__ data0))
    by (left; exists data0; split; reflexivity).
  assert (Hr : repeats grade0
                 (serving_registered (LatestGrade.__init__ data0) (always grade0)))
    by (intros i _; reflexivity).
  split; [exact He|]. split; [exact Hr|].
  exact (proj1 (repeated_snapshot_is_silent "vulcan" 5) grade0
           (serving_registered (LatestGrade.__init__ data0) (always grade0)) He Hr).
Defined.

(** ** C7: availability of a lesson slot *)

(** C7. For the lesson entity the constructor builds for slot [i] of
    today or of tomorrow, [available] returns [False] exactly when the
    coordinator's last update failed and its data hold, under "lessons" for
    a today-slot and "lessons_t" for a tomorrow-slot, a slot "lesson_i"
    whose date is not the expected one: today for a today-slot, today + 1
    for a tomorrow-slot. In particular, after a refresh that failed, read
    on the day after the one the cached slot was fetched for, a today-slot
    is unavailable. *)
Theorem available_false_iff (c : Coordinator.t) (today : Z) (data : Data) (i : nat)
    (is_tomorrow : bool) :
  let e := VulcanLessonEntity.__init__ data i is_tomorrow in
  (VulcanLessonEntity.available c today e = Return false
   <-> Coordinator.last_update_success c = false
       /\ exists (days : gmap string (gmap string lesson.t)) (day : gmap string lesson.t)
                 (info : lesson.t),
           Coordinator.data c = Some days
           /\ days !! (if is_tomorrow then "lessons_t" else "lessons") = Some day
           /\ day !! ("lesson_" +:+ pretty i) = Some info
           /\ lesson.date info <> (if is_tomorrow then today + 1 else today)%Z)
  /\ (forall (failure : exn) (days : gmap string (gmap string lesson.t))
             (day : gmap string lesson.t) (info : lesson.t),
        is_Exception failure = true ->
        is_tomorrow = false ->
        Coordinator.data c = Some days ->
        days !! "lessons" = Some day ->
        day !! ("lesson_" +:+ pretty i) = Some info ->
        lesson.date info = (today - 1)%Z ->
        VulcanLessonEntity.available
          (snd (Coordinator.async_refresh c (Raise failure))) today e
        = Return false).
Proof.
  cbv zeta.
  assert (Hread : forall c0 : Coordinator.t,
             VulcanLessonEntity.lesson_info c0
               (VulcanLessonEntity.__init__ data i is_tomorrow)
             = match Coordinator.data c0 with
               | None => Raise TypeError
               | Some days =>
                   match days !! (if is_tomorrow then "lessons_t" else "lessons") with
                   | None => Raise (KeyError (if is_tomorrow then "lessons_t" else "lessons"))
                   | Some day =>
                       match day !! ("lesson_" +:+ pretty i) with
                       | None => Raise (KeyError ("lesson_" +:+ pretty i))
                       | Some info => Return info
                       end
                   end
               end).
  { intros c0. unfold VulcanLessonEntity.lesson_info, getitem_opt, getitem, res_bind.
    cbn [VulcanLessonEntity.tomorrow VulcanLessonEntity.number VulcanLessonEntity.__init__].
    destruct is_tomorrow;
      [change ("lessons" +:+ "_t") with "lessons_t"
      |change ("lessons" +:+ "") with "lessons"];
      (destruct (Coordinator.data c0) as [days|]; [|reflexivity]);
      (destruct (days !! _) as [day|]; [|reflexivity]);
      destruct (day !! _); reflexivity. }
  assert (Hflag : VulcanLessonEntity.is_tomorrow
                    (VulcanLessonEntity.__init__ data i is_tomorrow) = is_tomorrow)
    by reflexivity.
  split.
  - unfold VulcanLessonEntity.available. rewrite Hflag, Hread.
    destruct (Coordinator.last_update_success c); cbn [negb].
    { split; [discriminate | intros [H _]; discriminate]. }
    destruct (Coordinator.data c) as [days|].
    2:{ destruct is_tomorrow; cbn;
          (split; [discriminate | intros (_ & d & y & n & H & _); discriminate]). }
    destruct (days !! (if is_tomorrow then "lessons_t" else "lessons")) as [day|] eqn:Hday.
    2:{ destruct is_tomorrow; cbn;
          (split; [discriminate
                  | intros (_ & d & y & n & [= <-] & H & _); congruence]). }
    destruct (day !! ("lesson_" +:+ pretty i)) as [info|] eqn:Hslot.
    2:{ destruct is_tomorrow; cbn;
          (split; [discriminate
                  | intros (_ & d & y & n & [= <-] & H & H' & _); congruence]). }
    destruct is_tomorrow; cbn [negb res_bind].
    + destruct (lesson.date info =? today + 1)%Z eqn:Hd.
      * apply Z.eqb_eq in Hd. split; [discriminate|].
        intros (_ & d & y & n & [= <-] & H & H' & Hne). congruence.
      * apply Z.eqb_neq in Hd. split; [|reflexivity].
        intros _. split; [reflexivity|]. exists days, day, info. auto.
    + destruct (lesson.date info =? today)%Z eqn:Hd.
      * apply Z.eqb_eq in Hd. split; [discriminate|].
        intros (_ & d & y & n & [= <-] & H & H' & Hne). congruence.
      * apply Z.eqb_neq in Hd. split; [|reflexivity].
        intros _. split; [reflexivity|]. exists days, day, info. auto.
  - intros failure days day info Hex -> Hdata Hday Hslot Hdate.
    unfold Coordinator.async_refresh. rewrite Hex. cbn [snd].
    unfold VulcanLessonEntity.available. rewrite Hread.
    cbn [Coordinator.last_update_success Coordinator.data negb
         VulcanLessonEntity.is_tomorrow VulcanLessonEntity.__init__].
    rewrite Hdata, Hday, Hslot. cbn [res_bind].
    replace (lesson.date info =? today)%Z with false; [reflexivity|].
    symmetry. apply Z.eqb_neq. lia.
Qed.

(** A cache fetched on day 100, read on day 101 after a failed refresh.
    Slot 1 of today holds day 100 and is unavailable, though slot 0 of
    today was already replaced by day 101; slot 1 of tomorrow holds day
    102 and is available, though the same slot of today is stale. *)
Lemma available_false_iff_witness :
  VulcanLessonEntity.available
    (snd (Coordinator.async_refresh coordinator_mixed (Raise (UpdateFailed "down"))))
    101 (VulcanLessonEntity.__init__ data0 1 false)
  = Return false
  /\ VulcanLessonEntity.available
       (snd (Coordinator.async_refresh coordinator_mixed (Raise (UpdateFailed "down"))))
       101 (VulcanLessonEntity.__init__ data0 1 true)
     <> Return false.
Proof.
  split.
  - apply (proj2 (available_false_iff coordinator_mixed 101 data0 1 false)
             (UpdateFailed "down") timetable_mixed day_mixed
             (lesson.mk "Physics" 100 "3" "Lis" "09:00-09:45" ""));
      vm_compute; reflexivity.
  - intros H.
    apply (proj1 (available_false_iff
                    (snd (Coordinator.async_refresh coordinator_mixed
                            (Raise (UpdateFailed "down"))))
                    101 data0 1 true)) in H.
    destruct H as (_ & days & day & info & Hdata & Hday & Hslot & Hne).
    injection Hdata as <-.
    vm_compute in Hday. injection Hday as <-.
    vm_compute in Hslot. injection Hslot as <-.
    apply Hne. reflexivity.
Defined.

(** ** C8, C10: a failed timetable fetch *)

Lemma fetch_lessons_deadline (DEFAULT : Z) (get_lessons : Z -> Z -> Coordinator.answer)
    (today today_again : Z) (option_ : option Z) :
  (30 < Coordinator.took (get_lessons today (default DEFAULT option_)))%Z ->
  Coordinator.fetch_lessons DEFAULT get_lessons today today_again option_ = Raise TimeoutError.
Proof.
  intros H. unfold Coordinator.fetch_lessons. cbv zeta.
  apply Z.ltb_lt in H. rewrite H. reflexivity.
Qed.

(** C8. When the block fetching the two timetables raises an [Exception]
    other than [UnauthorizedCertificateException], a connection error and
    the [TimeoutError] of the 30 second deadline included, the update method
    raises [UpdateFailed] and does nothing else. The coordinator then keeps
    its stored data, marks the update unsuccessful, and every lesson entity
    reads the same state as before. The deadline does raise [TimeoutError]
    when the first call alone takes more than 30 seconds. *)
Theorem fetch_error_keeps_timetable (DOMAIN : string) (DEFAULT : Z)
    (get_lessons : Z -> Z -> Coordinator.answer) (today today_again : Z)
    (option_ : option Z)
    (c : Coordinator.t) :
  let update := Coordinator.async_update_data DOMAIN DEFAULT get_lessons today today_again option_ in
  let refreshed := Coordinator.async_refresh c (fst update) in
  (forall e : exn,
      Coordinator.fetch_lessons DEFAULT get_lessons today today_again option_ = Raise e ->
      is_Exception e = true ->
      e <> UnauthorizedCertificateException ->
      (exists message : string, fst update = Raise (UpdateFailed message))
      /\ snd update = []
      /\ fst refreshed = Return tt
      /\ Coordinator.data (snd refreshed) = Coordinator.data c
      /\ Coordinator.last_update_success (snd refreshed) = false
      /\ forall entity : VulcanLessonEntity.t,
          VulcanLessonEntity.state (snd refreshed) entity
          = VulcanLessonEntity.state c entity)
  /\ ((30 < Coordinator.took (get_lessons today (default DEFAULT option_)))%Z ->
      Coordinator.fetch_lessons DEFAULT get_lessons today today_again option_ = Raise TimeoutError).
Proof.
  cbv zeta. split; [|apply fetch_lessons_deadline].
  intros e He Hex Hne. unfold Coordinator.async_update_data. rewrite He.
  assert (Hu : is_UnauthorizedCertificateException e = false)
    by (destruct e; try reflexivity; congruence).
  rewrite Hu, Hex.
  destruct (is_ClientConnectorError e); cbn; repeat split; eauto.
Qed.

(** A backend that refuses the connection, and one that answers after the
    deadline. *)
Lemma fetch_error_keeps_timetable_witness :
  Coordinator.data
    (snd (Coordinator.async_refresh coordinator0
            (fst (Coordinator.async_update_data "vulcan" 10 backend_down 100 100 None))))
  = Some timetable0
  /\ fst (Coordinator.async_update_data "vulcan" 10 backend_slow 100 100 None)
     = Raise (UpdateFailed "").
Proof.
  split.
  - apply (proj1 (fetch_error_keeps_timetable "vulcan" 10 backend_down 100 100 None coordinator0)
             (ClientConnectorError "down") eq_refl eq_refl).
    discriminate.
  - pose proof (proj2 (fetch_error_keeps_timetable "vulcan" 10 backend_slow 100 100 None
                         coordinator0)) as Hslow.
    cbv zeta in Hslow.
    assert (Hlate : (30 < Coordinator.took (backend_slow 100 (default 10 None)))%Z)
      by (vm_compute; reflexivity).
    apply Hslow in Hlate.
    unfold Coordinator.async_update_data. rewrite Hlate. reflexivity.
Defined.

(** C10. When the block fetching the two timetables raises
    [UnauthorizedCertificateException], the update method logs, starts the
    re-authentication flow and returns [None] instead of raising. The
    coordinator takes the cycle for a success and stores [None]: what it
    held before is gone, and reading the state of any lesson entity raises
    [TypeError]. *)
Theorem unauthorized_drops_timetable (DOMAIN : string) (DEFAULT : Z)
    (get_lessons : Z -> Z -> Coordinator.answer) (today today_again : Z)
    (option_ : option Z)
    (c : Coordinator.t) :
  Coordinator.fetch_lessons DEFAULT get_lessons today today_again option_
    = Raise UnauthorizedCertificateException ->
  let update := Coordinator.async_update_data DOMAIN DEFAULT get_lessons today today_again option_ in
  let refreshed := Coordinator.async_refresh c (fst update) in
  fst update = Return None
  /\ In (flow_async_init DOMAIN "reauth") (snd update)
  /\ fst refreshed = Return tt
  /\ Coordinator.last_update_success (snd refreshed) = true
  /\ Coordinator.data (snd refreshed) = None
  /\ forall entity : VulcanLessonEntity.t,
      VulcanLessonEntity.state (snd refreshed) entity = Raise TypeError.
Proof.
  intros He. cbv zeta. unfold Coordinator.async_update_data. rewrite He. cbn.
  repeat split. right. left. reflexivity.
Qed.

(** A coordinator holding a timetable meets a revoked certificate. *)
Lemma unauthorized_drops_timetable_witness :
  VulcanLessonEntity.state coordinator0 (VulcanLessonEntity.__init__ data0 0 false)
    = Return "Math"
  /\ VulcanLessonEntity.state
       (snd (Coordinator.async_refresh coordinator0
               (fst (Coordinator.async_update_data "vulcan" 10 backend_unauthorized 100 100 None))))
       (VulcanLessonEntity.__init__ data0 0 false)
     = Raise TypeError.
Proof.
  split; [vm_compute; reflexivity|].
  apply (unauthorized_drops_timetable "vulcan" 10 backend_unauthorized 100 100 None
           coordinator0 eq_refl).
Defined.

(** ** The examples of the specification *)

(** A grade entity set up on the placeholder grade fetches its first real
    grade: one notification; the same grade again: none. *)
Example first_real_grade_notifies :
  let w := serving (LatestGrade.__init__
                      (mkData student0 1 grade_placeholder message0 lucky0 attendance0
                         homework0 exam0 notify_all))
             (always grade0) in
  length (notifications (effects (LatestGrade.async_update "vulcan" w))) = 1
  /\ notifications
       (effects (LatestGrade.async_update "vulcan"
                   (after (LatestGrade.async_update "vulcan" w)))) = [].
Proof. split; reflexivity. Qed.

(** Attendance at 10:00 "obecność", then at 10:05 "spóźnienie": only the
    second entry is notified. *)
Example attendance_sequence :
  let w0 := serving (LatestAttendance.__init__
                       (mkData student0 1 grade0 message0 lucky0
                          (attendance.mk "-" "-" "-" "-" "-" 0) homework0 exam0 notify_all))
              (fun i => match i with
                        | O => Return attendance0
                        | _ => Return attendance_late
                        end) in
  let first := LatestAttendance.async_update "vulcan" w0 in
  let second := LatestAttendance.async_update "vulcan" (after first) in
  notifications (effects first) = []
  /\ LatestAttendance.old_att (self (after first)) = 1000%Z
  /\ length (notifications (effects second)) = 1
  /\ LatestAttendance._state (self (after second)) = "spóźnienie".
Proof. repeat split; reflexivity. Qed.

(** A failed first attempt is retried, and the retry is the one that
    counts. *)
Example message_after_retry :
  let r := LatestMessage.async_update "vulcan"
             (serving_registered (LatestMessage.__init__ data0) (flaky message1)) in
  result r = Return tt
  /\ calls (client (after r)) = 2
  /\ effects r = [LatestMessage.notification
                    (LatestMessage.set_latest_message message1 (LatestMessage.__init__ data0));
                  bus_async_fire "vulcan_event" "device-1" "new_message"].
Proof. repeat split; reflexivity. Qed.

(** A cancellation is not an [Exception]: it is not retried. *)
Example cancellation_not_retried :
  let r := LatestMessage.async_update "vulcan"
             (serving (LatestMessage.__init__ data0) (fun _ => Raise CancelledError)) in
  result r = Raise CancelledError /\ calls (client (after r)) = 1.
Proof. split; reflexivity. Qed.

(** A good refresh of the timetable on day 100. *)
Example timetable_refresh :
  let c := snd (Coordinator.async_refresh Coordinator.new
                  (fst (Coordinator.async_update_data "vulcan" 10 backend_ok 100 100 None))) in
  Coordinator.last_update_success c = true
  /\ VulcanLessonEntity.state c (VulcanLessonEntity.__init__ data0 0 true) = Return "Math"
  /\ VulcanLessonEntity.available c 100 (VulcanLessonEntity.__init__ data0 0 true)
     = Return true
  /\ VulcanLessonEntity.state c (VulcanLessonEntity.__init__ data0 3 false)
     = Raise (KeyError "lesson_3").
Proof. repeat split; vm_compute; reflexivity. Qed.

(** * Further properties of the entities *)

(** ** Invariants along the polling loop *)

Section Always.
Context {E T : Type}.
Variable update : M E T unit.
Variable inv : E -> Prop.
Variable ok : effect -> Prop.

Hypothesis step :
  forall w : world E T,
    inv (self w) -> inv (self (after (update w))) /\ Forall ok (effects (update w)).

Lemma cycles_always (n : nat) :
  forall w : world E T,
    inv (self w) ->
    inv (self (fst (cycles update n w))) /\ Forall ok (snd (cycles update n w)).
Proof.
  induction n as [|k IH]; intros w Hi; [split; [exact Hi | constructor]|].
  destruct (step w Hi) as [Hi1 Hok1]. cbn.
  unfold effects, after in *.
  destruct (update w) as [[r w1] l1]. cbn in *.
  destruct (IH w1 Hi1) as [Hi2 Hok2].
  destruct (cycles update k w1) as [w2 l2]. cbn in *.
  split; [exact Hi2|]. apply Forall_app. split; assumption.
Qed.

End Always.

Lemma no_notification_filter (l : list effect) :
  Forall (fun e => is_notification e = false) l -> notifications l = [].
Proof.
  induction 1 as [|x l Hx _ IH]; [reflexivity|].
  unfold notifications in *. cbn. rewrite Hx. exact IH.
Qed.

(** ** The text slice *)

Lemma slice_0_chars (n : nat) (s : string) :
  chars (slice_0 n s) = Nat.min n (chars s).
Proof.
  revert n. induction s as [|c rest IH]; intros n; cbn.
  - rewrite Nat.min_0_r. reflexivity.
  - destruct (is_continuation c) eqn:Hc; cbn.
    + rewrite Hc. apply IH.
    + destruct n as [|k]; cbn; [reflexivity|].
      rewrite Hc, IH. reflexivity.
Qed.

Lemma slice_0_prefix (n : nat) (s : string) :
  exists rest : string, s = slice_0 n s +:+ rest.
Proof.
  revert n. induction s as [|c rest IH]; intros n; cbn.
  - exists "". reflexivity.
  - destruct (is_continuation c).
    + destruct (IH n) as [r Hr]. exists r.
      change (String c rest = String c (slice_0 n rest +:+ r)). f_equal. exact Hr.
    + destruct n as [|k].
      * exists (String c rest). reflexivity.
      * destruct (IH k) as [r Hr]. exists r.
        change (String c rest = String c (slice_0 k rest +:+ r)). f_equal. exact Hr.
Qed.

Lemma slice_0_short (n : nat) (s : string) :
  chars s <= n -> slice_0 n s = s.
Proof.
  revert n. induction s as [|c rest IH]; intros n Hn; cbn in *; [reflexivity|].
  destruct (is_continuation c).
  - f_equal. apply IH. exact Hn.
  - destruct n as [|k]; [lia|]. f_equal. apply IH. lia.
Qed.

(** X6. The slice [s[0:250]] the entities expose is a prefix of [s] that
    holds the first 250 characters of [s], or all of them when [s] has
    fewer: its length is the smaller of 250 and the length of [s], and a
    text of at most 250 characters is exposed whole. *)
Theorem slice_0_250_spec (s : string) :
  chars (slice_0_250 s) = Nat.min 250 (chars s)
  /\ (exists rest : string, s = slice_0_250 s +:+ rest)
  /\ (chars s <= 250 -> slice_0_250 s = s)
  /\ slice_0_250 (slice_0_250 s) = slice_0_250 s.
Proof.
  unfold slice_0_250. split; [apply slice_0_chars|].
  split; [apply slice_0_prefix|]. split; [apply slice_0_short|].
  apply slice_0_short. rewrite slice_0_chars. apply Nat.le_min_l.
Qed.

Lemma slice_0_250_spec_witness :
  slice_0_250 "Zebranie rodziców" = "Zebranie rodziców".
Proof.
  apply (proj1 (proj2 (proj2 (slice_0_250_spec "Zebranie rodziców")))).
  vm_compute. lia.
Defined.

(** ** What one cycle can send *)

Ltac by_fetch w cycle_lemma raise_lemma :=
  let v := fresh "v" in
  let e := fresh "e" in
  let Hf := fresh "Hf" in
  destruct (fetched w) as [v|e] eqn:Hf;
  [rewrite (cycle_lemma _ _ Hf) | rewrite (raise_lemma _ _ Hf)]; cbv zeta.

Lemma notification_then_event_nil : notification_then_event [].
Proof.
  repeat split; cbn; try lia. exists [], []. repeat split.
Qed.

Lemma notification_then_event_change (n : effect) (b : bool) (d : option string)
    (type_ : string) :
  is_notification n = true ->
  notification_then_event
    ((if b then [n] else [])
     ++ match d with
        | Some i => [bus_async_fire "vulcan_event" i type_]
        | None => []
        end).
Proof.
  intros Hn. unfold notification_then_event, notifications, bus_events.
  destruct n; try discriminate.
  split; [destruct b, d; cbn; lia|]. split; [destruct b, d; cbn; lia|].
  eexists _, _. split; [reflexivity|]. split; [destruct b | destruct d]; reflexivity.
Qed.

(** X1. Whatever the backend does, one cycle of a grade, attendance or
    message entity sends at most one persistent notification and fires at
    most one domain event, and it fires no event before the notification.
    A cycle of a homework, exam or lucky number entity sends no
    notification, fires no event, writes no log line and starts no flow. *)
Theorem one_notification_one_event_per_cycle (DOMAIN : string) :
  (forall w, notification_then_event (effects (LatestGrade.async_update DOMAIN w)))
  /\ (forall w, notification_then_event (effects (LatestAttendance.async_update DOMAIN w)))
  /\ (forall w, notification_then_event (effects (LatestMessage.async_update DOMAIN w)))
  /\ (forall w, effects (NextHomework.async_update w) = [])
  /\ (forall w, effects (NextExam.async_update w) = [])
  /\ (forall w, effects (LuckyNumber.async_update w) = []).
Proof.
  split; [|split; [|split; [|split; [|split]]]]; intros w.
  - by_fetch w (LatestGrade_cycle DOMAIN) (LatestGrade_raise DOMAIN);
      [|apply notification_then_event_nil].
    destruct (negb _ && negb _); [|apply notification_then_event_nil].
    apply notification_then_event_change. reflexivity.
  - by_fetch w (LatestAttendance_cycle DOMAIN) (LatestAttendance_raise DOMAIN);
      [|apply notification_then_event_nil].
    destruct (negb _ && (_ <? _)%Z); [|apply notification_then_event_nil].
    apply notification_then_event_change. reflexivity.
  - by_fetch w (LatestMessage_cycle DOMAIN) (LatestMessage_raise DOMAIN);
      [|apply notification_then_event_nil].
    destruct (negb _ && negb _); [|apply notification_then_event_nil].
    apply notification_then_event_change. reflexivity.
  - by_fetch w NextHomework_cycle NextHomework_raise; reflexivity.
  - by_fetch w NextExam_cycle NextExam_raise; reflexivity.
  - by_fetch w LuckyNumber_cycle LuckyNumber_raise; reflexivity.
Qed.

(** ** A toggle that is not on *)

Lemma is_True_off (x : option bool) : x <> Some true -> is_True x = false.
Proof. destruct x as [[|]|]; [congruence | reflexivity | reflexivity]. Qed.

Lemma silent_change (b : bool) (n : effect) (d : option string) (type_ : string) :
  b = false ->
  Forall (fun e => is_notification e = false)
    ((if b then [n] else [])
     ++ match d with
        | Some i => [bus_async_fire "vulcan_event" i type_]
        | None => []
        end).
Proof. intros ->. destruct d; cbn; repeat constructor. Qed.

(** X2. An entity whose notify toggle is anything but [True] (unset, or
    [False]) never sends a persistent notification, over any number of
    cycles and whatever the backend answers. *)
Theorem notify_off_never_notifies (DOMAIN : string) (n : nat) :
  (forall w : world LatestGrade.t grade.t,
      LatestGrade.notify (self w) <> Some true ->
      notifications (snd (cycles (LatestGrade.async_update DOMAIN) n w)) = [])
  /\ (forall w : world LatestAttendance.t attendance.t,
      LatestAttendance.notify (self w) <> Some true ->
      notifications (snd (cycles (LatestAttendance.async_update DOMAIN) n w)) = [])
  /\ (forall w : world LatestMessage.t message.t,
      LatestMessage.notify (self w) <> Some true ->
      notifications (snd (cycles (LatestMessage.async_update DOMAIN) n w)) = []).
Proof.
  split; [|split]; intros w Hoff; apply is_True_off in Hoff;
    apply no_notification_filter.
  - apply (cycles_always _ (fun s => is_True (LatestGrade.notify s) = false)); [|exact Hoff].
    intros w1 H1.
    by_fetch w1 (LatestGrade_cycle DOMAIN) (LatestGrade_raise DOMAIN);
      [|split; [exact H1 | constructor]].
    destruct (negb _ && negb _); (split; [exact H1|]); [|constructor].
    apply silent_change. exact H1.
  - apply (cycles_always _ (fun s => is_True (LatestAttendance.notify s) = false));
      [|exact Hoff].
    intros w1 H1.
    by_fetch w1 (LatestAttendance_cycle DOMAIN) (LatestAttendance_raise DOMAIN);
      [|split; [exact H1 | constructor]].
    destruct (negb _ && (_ <? _)%Z); (split; [exact H1|]); [|constructor].
    apply silent_change. rewrite H1. reflexivity.
  - apply (cycles_always _ (fun s => is_True (LatestMessage.notify s) = false)); [|exact Hoff].
    intros w1 H1.
    by_fetch w1 (LatestMessage_cycle DOMAIN) (LatestMessage_raise DOMAIN);
      [|split; [exact H1 | constructor]].
    destruct (negb _ && negb _); (split; [exact H1|]); [|constructor].
    apply silent_change. exact H1.
Qed.

(** The grade toggle is unset and the backend delivers a first grade. *)
Lemma notify_off_never_notifies_witness :
  notifications
    (snd (cycles (LatestGrade.async_update "vulcan") 3
            (serving_registered (LatestGrade.__init__ data_off) (always grade0))))
  = [].
Proof.
  apply (proj1 (notify_off_never_notifies "vulcan" 3)).
  vm_compute. discriminate.
Defined.

(** X3. The attendance baseline [old_att] never moves back: after any
    number of cycles, whatever the backend answers, it is at least what it
    was. *)
Theorem attendance_baseline_never_regresses (DOMAIN : string) (n : nat)
    (w : world LatestAttendance.t attendance.t) :
  (LatestAttendance.old_att (self w)
   <= LatestAttendance.old_att
        (self (fst (cycles (LatestAttendance.async_update DOMAIN) n w))))%Z.
Proof.
  apply (cycles_always (LatestAttendance.async_update DOMAIN)
           (fun s => (LatestAttendance.old_att (self w) <= LatestAttendance.old_att s)%Z)
           (fun _ => True)); [|lia].
  intros w1 H1.
  by_fetch w1 (LatestAttendance_cycle DOMAIN) (LatestAttendance_raise DOMAIN).
  - destruct (negb _ && (_ <? _)%Z) eqn:Hg.
    + apply attendance_guard in Hg. destruct Hg as [_ Hlt]. cbn.
      split; [lia|]. apply Forall_forall. intros; exact I.
    + cbn. split; [exact H1 | constructor].
  - cbn. split; [exact H1 | constructor].
Qed.

(** ** The exposed state and the stored snapshot *)

(** X4. The exposed state always shows the stored snapshot: from the
    constructor on, after any number of cycles and whatever the backend
    answers, [_state] is the content of [latest_grade] and of
    [latest_attendance], the first 250 characters of the title of
    [latest_message] and of the description of [next_homework] and
    [next_exam], and the number of [lucky_number]. *)
Theorem state_shows_snapshot (DOMAIN : string) (data : Data) (n : nat)
    (registry : gmap (string * string) string) :
  (forall c : Client grade.t,
      let s := self (fst (cycles (LatestGrade.async_update DOMAIN) n
                            (mkWorld (LatestGrade.__init__ data) c registry))) in
      LatestGrade._state s = grade.content (LatestGrade.latest_grade s))
  /\ (forall c : Client attendance.t,
      let s := self (fst (cycles (LatestAttendance.async_update DOMAIN) n
                            (mkWorld (LatestAttendance.__init__ data) c registry))) in
      LatestAttendance._state s
      = attendance.content (LatestAttendance.latest_attendance s))
  /\ (forall c : Client message.t,
      let s := self (fst (cycles (LatestMessage.async_update DOMAIN) n
                            (mkWorld (LatestMessage.__init__ data) c registry))) in
      LatestMessage._state s = slice_0_250 (message.title (LatestMessage.latest_message s)))
  /\ (forall c : Client homework.t,
      let s := self (fst (cycles NextHomework.async_update n
                            (mkWorld (NextHomework.__init__ data) c registry))) in
      NextHomework._state s
      = slice_0_250 (homework.description (NextHomework.next_homework s)))
  /\ (forall c : Client exam.t,
      let s := self (fst (cycles NextExam.async_update n
                            (mkWorld (NextExam.__init__ data) c registry))) in
      NextExam._state s = slice_0_250 (exam.description (NextExam.next_exam s)))
  /\ (forall c : Client lucky_number.t,
      let s := self (fst (cycles LuckyNumber.async_update n
                            (mkWorld (LuckyNumber.__init__ data) c registry))) in
      LuckyNumber._state s = lucky_number.number (LuckyNumber.lucky_number s)).
Proof.
  split; [|split; [|split; [|split; [|split]]]]; intros c; cbv zeta.
  - apply (cycles_always (LatestGrade.async_update DOMAIN)
             (fun s => LatestGrade._state s = grade.content (LatestGrade.latest_grade s))
             (fun _ => True)); [|reflexivity].
    intros w H. split; [|apply Forall_forall; intros; exact I].
    by_fetch w (LatestGrade_cycle DOMAIN) (LatestGrade_raise DOMAIN); [|exact H].
    destruct (negb _ && negb _); reflexivity.
  - apply (cycles_always (LatestAttendance.async_update DOMAIN)
             (fun s => LatestAttendance._state s
                       = attendance.content (LatestAttendance.latest_attendance s))
             (fun _ => True)); [|reflexivity].
    intros w H. split; [|apply Forall_forall; intros; exact I].
    by_fetch w (LatestAttendance_cycle DOMAIN) (LatestAttendance_raise DOMAIN); [|exact H].
    destruct (negb _ && (_ <? _)%Z); reflexivity.
  - apply (cycles_always (LatestMessage.async_update DOMAIN)
             (fun s => LatestMessage._state s
                       = slice_0_250 (message.title (LatestMessage.latest_message s)))
             (fun _ => True)); [|reflexivity].
    intros w H. split; [|apply Forall_forall; intros; exact I].
    by_fetch w (LatestMessage_cycle DOMAIN) (LatestMessage_raise DOMAIN); [|exact H].
    destruct (negb _ && negb _); reflexivity.
  - apply (cycles_always NextHomework.async_update
             (fun s => NextHomework._state s
                       = slice_0_250 (homework.description (NextHomework.next_homework s)))
             (fun _ => True)); [|reflexivity].
    intros w H. split; [|apply Forall_forall; intros; exact I].
    by_fetch w NextHomework_cycle NextHomework_raise; [reflexivity | exact H].
  - apply (cycles_always NextExam.async_update
             (fun s => NextExam._state s
                       = slice_0_250 (exam.description (NextExam.next_exam s)))
             (fun _ => True)); [|reflexivity].
    intros w H. split; [|apply Forall_forall; intros; exact I].
    by_fetch w NextExam_cycle NextExam_raise; [reflexivity | exact H].
  - apply (cycles_always LuckyNumber.async_update
             (fun s => LuckyNumber._state s
                       = lucky_number.number (LuckyNumber.lucky_number s))
             (fun _ => True)); [|reflexivity].
    intros w H. split; [|apply Forall_forall; intros; exact I].
    by_fetch w LuckyNumber_cycle LuckyNumber_raise; [reflexivity | exact H].
Qed.

(** X5. The exposed state of a message, homework or exam entity is never
    longer than 250 characters: from the constructor on, after any number of
    cycles and whatever the backend answers. *)
Theorem state_at_most_250_characters (DOMAIN : string) (data : Data) (n : nat)
    (registry : gmap (string * string) string) :
  (forall c : Client message.t,
      chars (LatestMessage._state
               (self (fst (cycles (LatestMessage.async_update DOMAIN) n
                             (mkWorld (LatestMessage.__init__ data) c registry)))))
      <= 250)
  /\ (forall c : Client homework.t,
      chars (NextHomework._state
               (self (fst (cycles NextHomework.async_update n
                             (mkWorld (NextHomework.__init__ data) c registry)))))
      <= 250)
  /\ (forall c : Client exam.t,
      chars (NextExam._state
               (self (fst (cycles NextExam.async_update n
                             (mkWorld (NextExam.__init__ data) c registry)))))
      <= 250).
Proof.
  assert (Hslice : forall s, chars (slice_0_250 s) <= 250)
    by (intros s; unfold slice_0_250; rewrite slice_0_chars; apply Nat.le_min_l).
  split; [|split]; intros c.
  - apply (cycles_always (LatestMessage.async_update DOMAIN)
             (fun s => chars (LatestMessage._state s) <= 250) (fun _ => True));
      [|apply Hslice].
    intros w H. split; [|apply Forall_forall; intros; exact I].
    by_fetch w (LatestMessage_cycle DOMAIN) (LatestMessage_raise DOMAIN); [|exact H].
    destruct (negb _ && negb _); apply Hslice.
  - apply (cycles_always NextHomework.async_update
             (fun s => chars (NextHomework._state s) <= 250) (fun _ => True));
      [|apply Hslice].
    intros w H. split; [|apply Forall_forall; intros; exact I].
    by_fetch w NextHomework_cycle NextHomework_raise; [apply Hslice | exact H].
  - apply (cycles_always NextExam.async_update
             (fun s => chars (NextExam._state s) <= 250) (fun _ => True));
      [|apply Hslice].
    intros w H. split; [|apply Forall_forall; intros; exact I].
    by_fetch w NextExam_cycle NextExam_raise; [apply Hslice | exact H].
Qed.

(** ** What a cycle sees of the backend *)

Ltac blind cycle_lemma raise_lemma :=
  let w1 := fresh "w1" in
  let w2 := fresh "w2" in
  let Hs := fresh "Hs" in
  let Hr := fresh "Hr" in
  let Hf := fresh "Hf" in
  let H2 := fresh "H2" in
  intros w1 w2 Hs Hr Hf;
  destruct (fetched w2) eqn:H2;
  [rewrite (cycle_lemma w1 _ Hf), (cycle_lemma w2 _ H2)
  |rewrite (raise_lemma w1 _ Hf), (raise_lemma w2 _ H2)];
  cbv zeta; rewrite Hs, Hr;
  repeat match goal with |- context [if ?b then _ else _] => destruct b end;
  repeat split.

(** X7. A cycle sees the backend only through what its fetch delivers:
    two runs from the same entity and device registry whose two attempts
    deliver the same value, or fail with the same exception, return the
    same result, leave the same entity and make the same calls. A cycle
    whose first attempt fails and whose retry delivers [v] is thus
    indistinguishable from one whose first attempt delivers [v]. *)
Theorem retry_is_transparent (DOMAIN : string) :
  backend_blind (LatestGrade.async_update DOMAIN)
  /\ backend_blind (LatestAttendance.async_update DOMAIN)
  /\ backend_blind (LatestMessage.async_update DOMAIN)
  /\ backend_blind NextHomework.async_update
  /\ backend_blind NextExam.async_update
  /\ backend_blind LuckyNumber.async_update.
Proof.
  split; [|split; [|split; [|split; [|split]]]].
  - blind (LatestGrade_cycle DOMAIN) (LatestGrade_raise DOMAIN).
  - blind (LatestAttendance_cycle DOMAIN) (LatestAttendance_raise DOMAIN).
  - blind (LatestMessage_cycle DOMAIN) (LatestMessage_raise DOMAIN).
  - blind NextHomework_cycle NextHomework_raise.
  - blind NextExam_cycle NextExam_raise.
  - blind LuckyNumber_cycle LuckyNumber_raise.
Qed.

(** A new message delivered by the retry, and the same message delivered at
    once. *)
Lemma retry_is_transparent_witness :
  same_observation
    (LatestMessage.async_update "vulcan"
       (serving_registered (LatestMessage.__init__ data0) (flaky message1)))
    (LatestMessage.async_update "vulcan"
       (serving_registered (LatestMessage.__init__ data0) (always message1))).
Proof.
  apply (proj1 (proj2 (proj2 (retry_is_transparent "vulcan")))); reflexivity.
Defined.

Lemma passes_through_intro {E T : Type} (update : M E T unit) :
  (forall w, client (after (update w)) = client_after w) ->
  (forall w e, fetched w = Raise e ->
     update w = (Raise e, mkWorld (self w) (client_after w) (device_registry w), [])) ->
  passes_through update.
Proof.
  intros Hclient Hraise w e H1 He.
  assert (Hf : fetched w = Raise e)
    by (unfold fetched; cbv zeta; rewrite H1, He; reflexivity).
  assert (Hn : retried w = 1)
    by (unfold retried; cbv zeta; rewrite H1, He; reflexivity).
  rewrite (Hraise w e Hf). repeat split.
  cbn. rewrite Hn. reflexivity.
Qed.

(** X8. An exception that is not an [Exception] (a cancellation) is not
    retried by any entity: the cycle ends after that one call by raising
    it, with the entity as it was and nothing sent. *)
Theorem cancellation_passes_through (DOMAIN : string) :
  passes_through (LatestGrade.async_update DOMAIN)
  /\ passes_through (LatestAttendance.async_update DOMAIN)
  /\ passes_through (LatestMessage.async_update DOMAIN)
  /\ passes_through NextHomework.async_update
  /\ passes_through NextExam.async_update
  /\ passes_through LuckyNumber.async_update.
Proof.
  split; [|split; [|split; [|split; [|split]]]]; apply passes_through_intro.
  - apply LatestGrade_client.
  - intros w e. apply LatestGrade_raise.
  - apply LatestAttendance_client.
  - intros w e. apply LatestAttendance_raise.
  - apply LatestMessage_client.
  - intros w e. apply LatestMessage_raise.
  - apply NextHomework_client.
  - apply NextHomework_raise.
  - apply NextExam_client.
  - apply NextExam_raise.
  - apply LuckyNumber_client.
  - apply LuckyNumber_raise.
Qed.

Lemma cancellation_passes_through_witness :
  calls (client (after (NextExam.async_update
                          (serving (NextExam.__init__ data0)
                             (fun _ => Raise CancelledError))))) = 1.
Proof.
  destruct (cancellation_passes_through "vulcan") as [_ [_ [_ [_ [Hx _]]]]].
  exact (proj1 (proj2 (Hx (serving (NextExam.__init__ data0) (fun _ => Raise CancelledError))
                          CancelledError eq_refl eq_refl))).
Defined.

(** ** Events of the attendance and message entities *)

(** X9. When a cycle of the attendance entity detects a change (content
    not "-", datetime later than [old_att]) it fires one "new_attendance"
    event on the device registered under the entity's own device
    identifier, and none when no such device is registered. The message
    entity does the same with "new_message" when the id is new and not 0.
    Neither the notify toggle nor the content "obecność" plays a part. *)
Theorem change_fires_event_on_own_device (DOMAIN : string) :
  (forall (w : world LatestAttendance.t attendance.t) (a : attendance.t),
      fetched w = Return a ->
      attendance.content a <> "-" ->
      (LatestAttendance.old_att (self w) < attendance.datetime a)%Z ->
      bus_events (effects (LatestAttendance.async_update DOMAIN w))
      = match device_registry w !! LatestAttendance.device_identifier DOMAIN (self w) with
        | Some d => [bus_async_fire "vulcan_event" d "new_attendance"]
        | None => []
        end)
  /\ (forall (w : world LatestMessage.t message.t) (m : message.t),
      fetched w = Return m ->
      LatestMessage.old_msg (self w) <> message.id m ->
      message.id m <> 0%Z ->
      bus_events (effects (LatestMessage.async_update DOMAIN w))
      = match device_registry w !! LatestMessage.device_identifier DOMAIN (self w) with
        | Some d => [bus_async_fire "vulcan_event" d "new_message"]
        | None => []
        end).
Proof.
  split.
  - intros w a Hf Hc Hlt. rewrite (LatestAttendance_cycle _ _ _ Hf). cbv zeta.
    rewrite (proj2 (attendance_guard a _) (conj Hc Hlt)).
    unfold effects, LatestAttendance.device_identifier. cbn [snd].
    rewrite bus_events_after_notification by (destruct (_ && _); reflexivity).
    destruct (device_registry w !! _); reflexivity.
  - intros w m Hf Hd Hz. rewrite (LatestMessage_cycle _ _ _ Hf). cbv zeta.
    rewrite (proj2 (message_guard m _) (conj Hd Hz)).
    unfold effects, LatestMessage.device_identifier. cbn [snd].
    rewrite bus_events_after_notification by (destruct (is_True _); reflexivity).
    destruct (device_registry w !! _); reflexivity.
Qed.

(** A later "obecność" entry with the attendance device registered: the
    event is fired although no notification is sent. *)
Lemma change_fires_event_on_own_device_witness :
  bus_events
    (effects (LatestAttendance.async_update "vulcan"
                (mkWorld (LatestAttendance.__init__ data0)
                   (mkClient (always attendance_present_later) 0)
                   (<[("vulcan", "attendance7") := "device-2"]> ∅))))
  = [bus_async_fire "vulcan_event" "device-2" "new_attendance"].
Proof.
  rewrite (proj1 (change_fires_event_on_own_device "vulcan")
             (mkWorld (LatestAttendance.__init__ data0)
                (mkClient (always attendance_present_later) 0)
                (<[("vulcan", "attendance7") := "device-2"]> ∅))
             attendance_present_later eq_refl).
  - vm_compute. reflexivity.
  - vm_compute. discriminate.
  - vm_compute. reflexivity.
Defined.

(** ** Answers that do not move the baseline *)

Section Unmoved.
Context {E T : Type}.
Variable update : M E T unit.
Variable stays : E -> T -> Prop.

Hypothesis unmoved_cycle :
  forall (w : world E T) (x : T),
    fetched w = Return x -> stays (self w) x ->
    effects (update w) = []
    /\ client (after (update w)) = client_after w
    /\ forall y, stays (self w) y -> stays (self (after (update w))) y.

Lemma cycles_unmoved (n : nat) :
  forall w : world E T,
    answers_only (stays (self w)) w -> snd (cycles update n w) = [].
Proof.
  induction n as [|k IH]; intros w Hw; [reflexivity|].
  destruct (Hw _ (Nat.le_refl _)) as [x [Hx Hs]].
  destruct (fetched_first w x Hx) as [Hf Hn].
  destruct (unmoved_cycle w x Hf Hs) as [He [Hc Hstay]].
  cbn. unfold effects, after in *.
  destruct (update w) as [[r w1] l1]. cbn in *. subst l1.
  specialize (IH w1).
  destruct (cycles update k w1) as [w2 l2]. cbn in *.
  apply IH. intros i Hi. rewrite Hc in *. unfold client_after in *. cbn in *.
  rewrite Hn in Hi. destruct (Hw i) as [y [Hy Hsy]]; [lia|].
  exists y. split; [exact Hy | apply Hstay; exact Hsy].
Qed.

End Unmoved.

(** X10. As long as every answer of the backend is a placeholder or
    carries the identity held as baseline, the entity makes no call into
    Home Assistant, however the two kinds of answer alternate: a grade with
    content "-" or with the identity string equal to [old_state], an
    attendance entry with content "-" or not later than [old_att], a message
    with id 0 or with the id [old_msg]. A placeholder that shows up between
    two fetches of the same snapshot does not make that snapshot new. *)
Theorem placeholder_does_not_reset_baseline (DOMAIN : string) (n : nat) :
  (forall w : world LatestGrade.t grade.t,
      answers_only
        (fun x => grade.content x = "-"
                  \/ LatestGrade.identity x = LatestGrade.old_state (self w)) w ->
      snd (cycles (LatestGrade.async_update DOMAIN) n w) = [])
  /\ (forall w : world LatestAttendance.t attendance.t,
      answers_only
        (fun x => attendance.content x = "-"
                  \/ (attendance.datetime x <= LatestAttendance.old_att (self w))%Z) w ->
      snd (cycles (LatestAttendance.async_update DOMAIN) n w) = [])
  /\ (forall w : world LatestMessage.t message.t,
      answers_only
        (fun x => message.id x = 0%Z \/ message.id x = LatestMessage.old_msg (self w)) w ->
      snd (cycles (LatestMessage.async_update DOMAIN) n w) = []).
Proof.
  split; [|split]; intros w Hw.
  - apply (cycles_unmoved (LatestGrade.async_update DOMAIN)
             (fun s x => grade.content x = "-"
                         \/ LatestGrade.identity x = LatestGrade.old_state s));
      [|exact Hw].
    intros w1 x Hf Hs. rewrite (LatestGrade_cycle _ _ _ Hf). cbv zeta.
    destruct (negb _ && negb _) eqn:Hg.
    + apply grade_guard in Hg. destruct Hg, Hs; congruence.
    + repeat split. intros y Hy. exact Hy.
  - apply (cycles_unmoved (LatestAttendance.async_update DOMAIN)
             (fun s x => attendance.content x = "-"
                         \/ (attendance.datetime x <= LatestAttendance.old_att s)%Z));
      [|exact Hw].
    intros w1 x Hf Hs. rewrite (LatestAttendance_cycle _ _ _ Hf). cbv zeta.
    destruct (negb _ && (_ <? _)%Z) eqn:Hg.
    + apply attendance_guard in Hg. destruct Hg, Hs; [congruence | lia].
    + repeat split. intros y Hy. exact Hy.
  - apply (cycles_unmoved (LatestMessage.async_update DOMAIN)
             (fun s x => message.id x = 0%Z \/ message.id x = LatestMessage.old_msg s));
      [|exact Hw].
    intros w1 x Hf Hs. rewrite (LatestMessage_cycle _ _ _ Hf). cbv zeta.
    destruct (negb _ && negb _) eqn:Hg.
    + apply message_guard in Hg. destruct Hg, Hs; congruence.
    + repeat split. intros y Hy. exact Hy.
Qed.

(** The message of the setup, the placeholder, and the message again. *)
Lemma placeholder_does_not_reset_baseline_witness :
  snd (cycles (LatestMessage.async_update "vulcan") 4
         (serving_registered (LatestMessage.__init__ data0) flicker))
  = [].
Proof.
  apply (proj2 (proj2 (placeholder_does_not_reset_baseline "vulcan" 4))).
  intros i _. unfold serving_registered, flicker. cbn.
  destruct (Nat.even i);
    [exists message_placeholder | exists message0]; split; auto.
Defined.

(** * Further properties of the timetable *)

(** X11. When the update method returns a timetable, both calls to
    [get_lessons] returned, the two together took no more than the 30
    seconds of the deadline they share, nothing was logged, and the
    timetable holds under "lessons" the answer to the call for the day read
    before the first call and under "lessons_t" the answer to the call for
    the day after the day read before the second call. Two calls that
    return and together take less than 30 seconds do give that timetable. *)
Theorem timetable_fetched_in_time (DOMAIN : string) (DEFAULT : Z)
    (get_lessons : Z -> Z -> Coordinator.answer) (today today_again : Z)
    (option_ : option Z) :
  let first := get_lessons today (default DEFAULT option_) in
  let second := get_lessons (today_again + 1)%Z (default DEFAULT option_) in
  let update :=
    Coordinator.async_update_data DOMAIN DEFAULT get_lessons today today_again option_ in
  (forall d : gmap string (gmap string lesson.t),
      fst update = Return (Some d) ->
      snd update = []
      /\ (Coordinator.took first + Coordinator.took second <= 30)%Z
      /\ exists lessons lessons_t : gmap string lesson.t,
           Coordinator.outcome first = Return lessons
           /\ Coordinator.outcome second = Return lessons_t
           /\ d = <["lessons" := lessons]> (<["lessons_t" := lessons_t]> ∅))
  /\ (forall lessons lessons_t : gmap string lesson.t,
        Coordinator.outcome first = Return lessons ->
        Coordinator.outcome second = Return lessons_t ->
        (Coordinator.took first < 30)%Z ->
        (Coordinator.took first + Coordinator.took second < 30)%Z ->
        update = (Return (Some (<["lessons" := lessons]> (<["lessons_t" := lessons_t]> ∅))),
                  [])).
Proof.
  cbv zeta. unfold Coordinator.async_update_data, Coordinator.fetch_lessons. cbv zeta.
  set (first := get_lessons today (default DEFAULT option_)).
  set (second := get_lessons (today_again + 1)%Z (default DEFAULT option_)).
  assert (Hraise : forall (e : exn) (d : gmap string (gmap string lesson.t)),
             fst (if is_UnauthorizedCertificateException e
                  then (Return None,
                        [LOGGER_error
                           "The certificate is not authorized, please authorize integration again.";
                         flow_async_init DOMAIN "reauth"])
                  else if is_ClientConnectorError e
                       then (Raise (UpdateFailed ("Error communicating with API: " +:+ str e)),
                             [])
                       else if is_Exception e then (Raise (UpdateFailed (str e)), [])
                            else (Raise e, []))
             <> Return (Some d)).
  { intros e d. destruct e; cbn; discriminate. }
  split.
  - intros d.
    destruct (30 <? Coordinator.took first)%Z eqn:H1;
      [intros H; exfalso; revert H; apply Hraise|].
    destruct (Coordinator.outcome first) as [l|e] eqn:Ho1;
      [|intros H; exfalso; revert H; apply Hraise].
    destruct (30 <? Coordinator.took first + Coordinator.took second)%Z eqn:H2;
      [intros H; exfalso; revert H; apply Hraise|].
    apply Z.ltb_ge in H2.
    destruct (Coordinator.outcome second) as [lt|e] eqn:Ho2;
      [|intros H; exfalso; revert H; apply Hraise].
    cbn. intros [= <-]. split; [reflexivity|]. split; [exact H2|].
    exists l, lt. repeat split.
  - intros lessons lessons_t Ho1 Ho2 H1 H2.
    replace (30 <? Coordinator.took first)%Z with false
      by (symmetry; apply Z.ltb_ge; lia).
    rewrite Ho1.
    replace (30 <? Coordinator.took first + Coordinator.took second)%Z with false
      by (symmetry; apply Z.ltb_ge; lia).
    rewrite Ho2. reflexivity.
Qed.

(** A refresh that starts on day 100 and makes its second call on day 101:
    the timetable holds days 100 and 102. Two calls of 15 and 16 seconds
    deliver no timetable. *)
Lemma timetable_fetched_in_time_witness :
  Coordinator.async_update_data "vulcan" 10 backend_ok 100 101 None
    = (Return (Some (<["lessons" := day_of 100]> (<["lessons_t" := day_of 102]> ∅))), [])
  /\ fst (Coordinator.async_update_data "vulcan" 10 backend_two_halves 100 100 None)
     <> Return (Some (timetable_of 100)).
Proof.
  split.
  - apply (proj2 (timetable_fetched_in_time "vulcan" 10 backend_ok 100 101 None)
             (day_of 100) (day_of 102)); vm_compute; reflexivity.
  - intros H.
    apply (proj1 (timetable_fetched_in_time "vulcan" 10 backend_two_halves 100 100 None))
      in H.
    destruct H as (_ & Hle & _). vm_compute in Hle. apply Hle. reflexivity.
Defined.

Lemma lesson_info_init (c : Coordinator.t) (data : Data) (i : nat) (is_tomorrow : bool) :
  VulcanLessonEntity.lesson_info c (VulcanLessonEntity.__init__ data i is_tomorrow)
  = (day <- getitem_opt (Coordinator.data c) (if is_tomorrow then "lessons_t" else "lessons") ;;
     getitem day ("lesson_" +:+ pretty i))%res.
Proof. destruct is_tomorrow; reflexivity. Qed.

(** X12. After a refresh that delivered a timetable, the entity of slot
    [i] for today reads slot "lesson_i" of the answer for today and the
    entity for tomorrow reads it in the answer for tomorrow, never the
    other way round; a slot the answer does not hold makes [state] raise
    [KeyError] with the name of the slot. Both entities are available,
    whatever the dates in the slots. *)
Theorem lesson_entities_read_their_day (c : Coordinator.t)
    (lessons lessons_t : gmap string lesson.t) (data : Data) (i : nat) (today : Z) :
  let refreshed :=
    snd (Coordinator.async_refresh c
           (Return (Some (<["lessons" := lessons]> (<["lessons_t" := lessons_t]> ∅))))) in
  let slot := "lesson_" +:+ pretty i in
  VulcanLessonEntity.state refreshed (VulcanLessonEntity.__init__ data i false)
    = match lessons !! slot with
      | Some info => Return (lesson.lesson info)
      | None => Raise (KeyError slot)
      end
  /\ VulcanLessonEntity.state refreshed (VulcanLessonEntity.__init__ data i true)
     = match lessons_t !! slot with
       | Some info => Return (lesson.lesson info)
       | None => Raise (KeyError slot)
       end
  /\ VulcanLessonEntity.available refreshed today (VulcanLessonEntity.__init__ data i false)
     = Return true
  /\ VulcanLessonEntity.available refreshed today (VulcanLessonEntity.__init__ data i true)
     = Return true.
Proof.
  cbv zeta. unfold VulcanLessonEntity.state. rewrite !lesson_info_init.
  cbn [Coordinator.async_refresh snd Coordinator.data getitem_opt].
  unfold getitem at 1 3.
  rewrite lookup_insert_eq.
  rewrite lookup_insert_ne by discriminate. rewrite lookup_insert_eq.
  unfold getitem, res_bind.
  split; [destruct (lessons !! _); reflexivity|].
  split; [destruct (lessons_t !! _); reflexivity|].
  split; reflexivity.
Qed.

(** X13. [state] and [extra_state_attributes] of a lesson entity fail
    together and with the same exception: [TypeError] when the coordinator
    holds no data, [KeyError] when the day or the slot is missing. When the
    slot is there [state] is its "lesson" field and the attributes are its
    room, teacher, time and reason, in that order. *)
Theorem lesson_state_and_attributes (c : Coordinator.t) (e : VulcanLessonEntity.t) :
  (forall err : exn,
      VulcanLessonEntity.state c e = Raise err
      <-> VulcanLessonEntity.extra_state_attributes c e = Raise err)
  /\ (Coordinator.data c = None -> VulcanLessonEntity.state c e = Raise TypeError)
  /\ (forall days : gmap string (gmap string lesson.t),
        Coordinator.data c = Some days ->
        days !! ("lessons" +:+ VulcanLessonEntity.tomorrow e) = None ->
        VulcanLessonEntity.state c e
        = Raise (KeyError ("lessons" +:+ VulcanLessonEntity.tomorrow e)))
  /\ (forall (days : gmap string (gmap string lesson.t)) (day : gmap string lesson.t),
        Coordinator.data c = Some days ->
        days !! ("lessons" +:+ VulcanLessonEntity.tomorrow e) = Some day ->
        match day !! ("lesson_" +:+ VulcanLessonEntity.number e) with
        | None =>
            VulcanLessonEntity.state c e
            = Raise (KeyError ("lesson_" +:+ VulcanLessonEntity.number e))
        | Some info =>
            VulcanLessonEntity.state c e = Return (lesson.lesson info)
            /\ VulcanLessonEntity.extra_state_attributes c e
               = Return [("room", lesson.room info); ("teacher", lesson.teacher info);
                         ("time", lesson.from_to info); ("reason", lesson.reason info)]
        end).
Proof.
  unfold VulcanLessonEntity.state, VulcanLessonEntity.extra_state_attributes,
    VulcanLessonEntity.lesson_info, getitem_opt, getitem, res_bind.
  split; [|split; [|split]].
  - intros err. destruct (Coordinator.data c) as [days|];
      [|split; intros [= <-]; reflexivity].
    destruct (days !! _) as [day|]; [|split; intros [= <-]; reflexivity].
    destruct (day !! _); [|split; intros [= <-]; reflexivity]. split; discriminate.
  - intros ->. reflexivity.
  - intros days -> ->. reflexivity.
  - intros days day -> ->. destruct (day !! _); [split|]; reflexivity.
Qed.

(** An entity for slot 3 when the backend delivered slot 0 only. *)
Lemma lesson_state_and_attributes_witness :
  VulcanLessonEntity.state coordinator0 (VulcanLessonEntity.__init__ data0 3 false)
  = Raise (KeyError "lesson_3").
Proof.
  exact (proj2 (proj2 (proj2 (lesson_state_and_attributes coordinator0
                                (VulcanLessonEntity.__init__ data0 3 false))))
           timetable0 (<["lesson_0" := lesson0]> ∅) eq_refl eq_refl).
Defined.

(** X14. A coordinator that holds no data: [available] returns [True]
    when the last update counts as successful and raises [TypeError] when
    it does not. So after a refresh that met a revoked certificate every
    lesson entity is available while reading its state raises; and when the
    very first refresh fails otherwise, reading [available] raises too. *)
Theorem available_without_data (DOMAIN : string) (DEFAULT : Z)
    (get_lessons : Z -> Z -> Coordinator.answer) (today today_again : Z)
    (option_ : option Z)
    (e : VulcanLessonEntity.t) :
  (forall c : Coordinator.t,
      Coordinator.data c = None ->
      VulcanLessonEntity.available c today e
      = if Coordinator.last_update_success c then Return true else Raise TypeError)
  /\ (forall c : Coordinator.t,
        Coordinator.fetch_lessons DEFAULT get_lessons today today_again option_
          = Raise UnauthorizedCertificateException ->
        let refreshed :=
          snd (Coordinator.async_refresh c
                 (fst (Coordinator.async_update_data DOMAIN DEFAULT get_lessons today
                         today_again option_))) in
        VulcanLessonEntity.available refreshed today e = Return true
        /\ VulcanLessonEntity.state refreshed e = Raise TypeError)
  /\ (forall err : exn,
        Coordinator.fetch_lessons DEFAULT get_lessons today today_again option_ = Raise err ->
        is_Exception err = true ->
        err <> UnauthorizedCertificateException ->
        VulcanLessonEntity.available
          (snd (Coordinator.async_refresh Coordinator.new
                  (fst (Coordinator.async_update_data DOMAIN DEFAULT get_lessons today
                          today_again option_))))
          today e
        = Raise TypeError).
Proof.
  split; [|split].
  - intros c Hd. unfold VulcanLessonEntity.available, VulcanLessonEntity.lesson_info.
    rewrite Hd. destruct (Coordinator.last_update_success c); cbn; [reflexivity|].
    destruct (VulcanLessonEntity.is_tomorrow e); reflexivity.
  - intros c He. cbv zeta. unfold Coordinator.async_update_data. rewrite He. cbn.
    split; reflexivity.
  - intros err He Hex Hne. unfold Coordinator.async_update_data. rewrite He.
    assert (Hu : is_UnauthorizedCertificateException err = false)
      by (destruct err; try reflexivity; congruence).
    rewrite Hu, Hex.
    unfold VulcanLessonEntity.available, VulcanLessonEntity.lesson_info.
    destruct (is_ClientConnectorError err); cbn;
      destruct (VulcanLessonEntity.is_tomorrow e); reflexivity.
Qed.

(** The first refresh ever meets a backend that refuses the connection. *)
Lemma available_without_data_witness :
  VulcanLessonEntity.available
    (snd (Coordinator.async_refresh Coordinator.new
            (fst (Coordinator.async_update_data "vulcan" 10 backend_down 100 100 None))))
    100 (VulcanLessonEntity.__init__ data0 0 false)
  = Raise TypeError.
Proof.
  apply (proj2 (proj2 (available_without_data "vulcan" 10 backend_down 100 100 None
                         (VulcanLessonEntity.__init__ data0 0 false)))
           (ClientConnectorError "down") eq_refl eq_refl).
  discriminate.
Defined.

(** * Properties of the setup *)

(** ** Texts built by concatenation *)

Lemma length_append (a b : string) :
  String.length (a +:+ b) = String.length a + String.length b.
Proof.
  induction a as [|c a IH]; [reflexivity|].
  change (S (String.length (a +:+ b)) = S (String.length a + String.length b)).
  rewrite IH. reflexivity.
Qed.

Lemma append_cancel_r (a b r : string) : a +:+ r = b +:+ r -> a = b.
Proof.
  intros H.
  assert (Hl : String.length a = String.length b).
  { apply (f_equal String.length) in H. rewrite !length_append in H. lia. }
  revert b H Hl. induction a as [|c a IH]; intros [|c' b] H Hl; try discriminate.
  - reflexivity.
  - change (String c (a +:+ r) = String c' (b +:+ r)) in H.
    injection H as -> H. f_equal. apply IH; [exact H|]. cbn in Hl. lia.
Qed.

(** A decimal numeral starts with a digit, not with "_". *)
Lemma pretty_N_go_head (x : N) :
  forall s : string,
    (exists c s', s = String c s' /\ c <> "_"%char) ->
    exists c s', pretty_N_go x s = String c s' /\ c <> "_"%char.
Proof.
  induction (N.lt_wf_0 x) as [x _ IH]. intros s Hs.
  destruct (N.eq_dec x 0%N) as [->|Hx]; [rewrite pretty_N_go_0; exact Hs|].
  rewrite pretty_N_go_step by lia.
  apply IH; [apply N.div_lt; lia|].
  eexists _, _. split; [reflexivity|].
  unfold pretty_N_char. repeat case_match; discriminate.
Qed.

Lemma pretty_nat_head (i : nat) :
  exists c s', pretty i = String c s' /\ c <> "_"%char.
Proof.
  unfold pretty, pretty_nat, pretty, pretty_N.
  destruct (decide (N.of_nat i = 0%N)) as [_|Hi].
  - eexists _, _. split; [reflexivity | discriminate].
  - rewrite pretty_N_go_step by lia.
    apply pretty_N_go_head. eexists _, _. split; [reflexivity|].
    unfold pretty_N_char. repeat case_match; discriminate.
Qed.

(** ** Unique ids *)

(** The unique id of the lesson entity of slot [i]. *)
Lemma lesson_unique_id (data : Data) (i : nat) (b : bool) :
  VulcanLessonEntity._unique_id (VulcanLessonEntity.__init__ data i b)
  = "lesson_" +:+ ((if b then "_t" else "") +:+ pretty i) +:+ "_"
      +:+ pretty (student_info.id (data_student_info data)).
Proof. destruct b; reflexivity. Qed.

Lemma lesson_unique_id_inj (data : Data) (i j : nat) (b b' : bool) :
  VulcanLessonEntity._unique_id (VulcanLessonEntity.__init__ data i b)
  = VulcanLessonEntity._unique_id (VulcanLessonEntity.__init__ data j b') ->
  i = j /\ b = b'.
Proof.
  rewrite !lesson_unique_id. intros H.
  apply (String.app_inj "lesson_") in H. apply append_cancel_r in H.
  destruct (pretty_nat_head i) as (ci & si & Hi & Hci).
  destruct (pretty_nat_head j) as (cj & sj & Hj & Hcj).
  destruct b, b'.
  - apply (String.app_inj "_t") in H. split; [|reflexivity].
    apply pretty_nat_inj. exact H.
  - rewrite Hj in H. exfalso. apply Hcj. injection H as H _. congruence.
  - rewrite Hi in H. exfalso. apply Hci. injection H as H _. congruence.
  - split; [|reflexivity]. apply pretty_nat_inj. exact H.
Qed.

Ltac heads H := cbv [String.append] in H; discriminate H.

Lemma lesson_unique_id_not_fixed (data : Data) (i : nat) (b : bool) :
  ~ In (VulcanLessonEntity._unique_id (VulcanLessonEntity.__init__ data i b))
       (map Setup.unique_id
          [Setup.Grade (LatestGrade.__init__ data);
           Setup.Lucky (LuckyNumber.__init__ data);
           Setup.Attendance (LatestAttendance.__init__ data);
           Setup.Message (LatestMessage.__init__ data);
           Setup.Homework (NextHomework.__init__ data);
           Setup.Exam (NextExam.__init__ data)]).
Proof.
  rewrite lesson_unique_id. cbn [map Setup.unique_id].
  cbn [LatestGrade._unique_id LatestGrade.__init__
       LuckyNumber._unique_id LuckyNumber.__init__
       LatestAttendance._unique_id LatestAttendance.__init__
       LatestMessage._unique_id LatestMessage.__init__
       NextHomework._unique_id NextHomework.__init__
       NextExam._unique_id NextExam.__init__ In].
  intros [H|[H|[H|[H|[H|[H|[]]]]]]]; heads H.
Qed.

Lemma fixed_unique_ids (data : Data) :
  NoDup (map Setup.unique_id
           [Setup.Grade (LatestGrade.__init__ data);
            Setup.Lucky (LuckyNumber.__init__ data);
            Setup.Attendance (LatestAttendance.__init__ data);
            Setup.Message (LatestMessage.__init__ data);
            Setup.Homework (NextHomework.__init__ data);
            Setup.Exam (NextExam.__init__ data)]).
Proof.
  cbn [map Setup.unique_id].
  cbn [LatestGrade._unique_id LatestGrade.__init__
       LuckyNumber._unique_id LuckyNumber.__init__
       LatestAttendance._unique_id LatestAttendance.__init__
       LatestMessage._unique_id LatestMessage.__init__
       NextHomework._unique_id NextHomework.__init__
       NextExam._unique_id NextExam.__init__].
  repeat (constructor;
          [intros H%list_elem_of_In; cbn [In] in H;
           repeat (destruct H as [H|H]; [heads H|]); exact H|]).
  constructor.
Qed.

(** The unique ids of the lesson entities made for the slots [a], ...,
    [a + len - 1]. *)
Lemma lesson_unique_ids_from (data : Data) (len : nat) :
  forall a : nat,
    let ids :=
      map Setup.unique_id
        (flat_map (fun i => [Setup.Lesson (VulcanLessonEntity.__init__ data i false);
                             Setup.Lesson (VulcanLessonEntity.__init__ data i true)])
           (seq a len)) in
    NoDup ids
    /\ forall u, In u ids ->
         exists i b, a <= i
           /\ u = VulcanLessonEntity._unique_id (VulcanLessonEntity.__init__ data i b).
Proof.
  induction len as [|len IH]; intros a; cbv zeta.
  - split; [constructor | intros u []].
  - destruct (IH (S a)) as [Hnd Hin]. cbn [seq flat_map app map Setup.unique_id].
    split.
    + constructor; [|constructor; [|exact Hnd]].
      * intros H%list_elem_of_In. destruct H as [H|H].
        -- apply lesson_unique_id_inj in H. destruct H as [_ H]. discriminate.
        -- apply Hin in H. destruct H as (i & b & Hle & H).
           apply lesson_unique_id_inj in H. lia.
      * intros H%list_elem_of_In. apply Hin in H. destruct H as (i & b & Hle & H).
        apply lesson_unique_id_inj in H. lia.
    + intros u [<-|[<-|H]].
      * exists a, false. split; [lia | reflexivity].
      * exists a, true. split; [lia | reflexivity].
      * apply Hin in H. destruct H as (i & b & Hle & ->).
        exists i, b. split; [lia | reflexivity].
Qed.

Lemma entities_of_unique (data : Data) (n : Z) :
  NoDup (map Setup.unique_id (Setup.entities_of data n))
  /\ length (Setup.entities_of data n) = 6 + 2 * Z.to_nat n.
Proof.
  unfold Setup.entities_of, Setup.lesson_entities. split.
  - rewrite map_app.
    destruct (lesson_unique_ids_from data (Z.to_nat n) 0) as [Hnd Hin].
    apply NoDup_app. split; [apply fixed_unique_ids|]. split; [|exact Hnd].
    intros u Hu Hl. apply list_elem_of_In in Hu, Hl.
    apply Hin in Hl. destruct Hl as (i & b & _ & ->).
    exact (lesson_unique_id_not_fixed data i b Hu).
  - rewrite length_app. cbn [length]. f_equal.
    generalize 0 at 1. induction (Z.to_nat n) as [|k IH]; intros a; [reflexivity|].
    cbn [seq flat_map]. rewrite length_app, IH. cbn. lia.
Qed.

(** X15. When the setup adds entities, every fetch of the setup returned
    and the entities are built from what was fetched: six entities for the
    facts and two per lesson slot, for today and for tomorrow, all with
    different unique ids. A slot count that is not positive gives no lesson
    entity. *)
Theorem setup_entities_have_unique_ids (DOMAIN : string) (DEFAULT : Z)
    (g : Setup.globals) (a : Attempts.attempt) (entities : list Setup.entity) :
  fst (fst (fst (Attempts.run DOMAIN DEFAULT g a))) = Setup.Added entities ->
  let n := default DEFAULT (Setup.lesson_entities_number (Attempts.options_ a)) in
  (exists data : Data,
      Setup.fetch_data (Attempts.answers_ a) (Attempts.students_number a)
        (Attempts.options_ a) = Return data
      /\ entities = Setup.entities_of data n)
  /\ NoDup (map Setup.unique_id entities)
  /\ length entities = 6 + 2 * Z.to_nat n.
Proof.
  unfold Attempts.run, Setup.async_setup_entry. cbv zeta.
  destruct (Coordinator.async_refresh _ _) as [[u|e] c]; cbn; [|discriminate].
  destruct (Setup.fetch_data _ _ _) as [data|err]; cbn.
  - intros [= <-]. split; [exists data; split; reflexivity|].
    apply entities_of_unique.
  - destruct (is_ClientConnectorError err); [destruct (Setup.connection_error g)|];
      discriminate.
Qed.

Lemma setup_entities_have_unique_ids_witness :
  length (Setup.entities_of data0 2) = 10.
Proof.
  apply (proj2 (proj2 (setup_entities_have_unique_ids "vulcan" 10 globals0 attempt_five
                         (Setup.entities_of data0 2) eq_refl))).
Defined.

(** ** Failing and repeated setups *)

Lemma update_has_no_connection_log (DOMAIN : string) (DEFAULT : Z)
    (get_lessons : Z -> Z -> Coordinator.answer) (today today_again : Z)
    (option_ : option Z) :
  List.filter Attempts.is_connection_log
    (snd (Coordinator.async_update_data DOMAIN DEFAULT get_lessons today today_again option_)) = [].
Proof.
  unfold Coordinator.async_update_data.
  destruct (Coordinator.fetch_lessons _ _ _ _ _) as [d|e]; [reflexivity|].
  destruct e; reflexivity.
Qed.

Lemma connection_log_is_one (err : exn) :
  Attempts.is_connection_log
    (LOGGER_error
       ("Connection error - please check your internet connection: " +:+ str err))
  = true.
Proof. reflexivity. Qed.

(** One call of the setup: the flag never goes back, a call that finds it
    set logs no connection error, and one that logs a connection error
    leaves it set. *)
Lemma setup_connection_log (DOMAIN : string) (DEFAULT : Z) (g : Setup.globals)
    (a : Attempts.attempt) :
  let r := Attempts.run DOMAIN DEFAULT g a in
  let logged := List.filter Attempts.is_connection_log (snd r) in
  let flag := Setup.connection_error (snd (fst (fst r))) in
  (Setup.connection_error g = true -> flag = true /\ logged = [])
  /\ length logged <= 1
  /\ (logged <> [] -> flag = true).
Proof.
  cbv zeta. unfold Attempts.run, Setup.async_setup_entry. cbv zeta.
  pose proof (update_has_no_connection_log DOMAIN DEFAULT (Attempts.get_lessons a)
                (Attempts.today a) (Attempts.today_again a) (Setup.lesson_entities_number (Attempts.options_ a)))
    as Hu.
  destruct (Coordinator.async_refresh _ _) as [[u|e] c]; cbn [fst snd].
  2:{ rewrite Hu. cbn. repeat split; auto; congruence. }
  destruct (Setup.fetch_data _ _ _) as [data|err]; cbn [fst snd].
  { rewrite Hu. cbn. repeat split; auto; congruence. }
  destruct (is_ClientConnectorError err); cbn [fst snd].
  2:{ rewrite Hu. cbn. repeat split; auto; congruence. }
  destruct (Setup.connection_error g); cbn [fst snd].
  - rewrite Hu. cbn. repeat split; auto; congruence.
  - rewrite List.filter_app, Hu. cbn [app List.filter].
    rewrite connection_log_is_one. cbn. repeat split; auto; congruence.
Qed.

(** X16. When one of the seven fetches of the setup raises
    [ClientConnectorError], the setup raises [PlatformNotReady] from it,
    adds no entity and leaves the "connection_error" flag set; the error is
    logged only when the flag was not set before. Any other exception of a
    fetch leaves the setup as it is, with the flag untouched and nothing
    logged. *)
Theorem setup_fetch_failure (DOMAIN : string) (DEFAULT : Z) (g : Setup.globals)
    (a : Attempts.attempt) (err : exn) :
  Setup.fetch_data (Attempts.answers_ a) (Attempts.students_number a) (Attempts.options_ a)
    = Raise err ->
  let update :=
    Coordinator.async_update_data DOMAIN DEFAULT (Attempts.get_lessons a) (Attempts.today a) (Attempts.today_again a)
      (Setup.lesson_entities_number (Attempts.options_ a)) in
  fst (Coordinator.async_refresh Coordinator.new (fst update)) = Return tt ->
  let r := Attempts.run DOMAIN DEFAULT g a in
  (is_ClientConnectorError err = true ->
     fst (fst (fst r)) = Setup.PlatformNotReady err
     /\ Setup.connection_error (snd (fst (fst r))) = true
     /\ snd r
        = (snd update
           ++ (if Setup.connection_error g then []
               else [LOGGER_error
                       ("Connection error - please check your internet connection: "
                        +:+ str err)]))%list)
  /\ (is_ClientConnectorError err = false ->
        fst (fst (fst r)) = Setup.Raised err
        /\ Setup.connection_error (snd (fst (fst r))) = Setup.connection_error g
        /\ snd r = snd update).
Proof.
  intros Hf update Hr r. subst update r.
  unfold Attempts.run, Setup.async_setup_entry. cbv zeta.
  destruct (Coordinator.async_refresh _ _) as [[u|e] c]; [|discriminate].
  rewrite Hf. split; intros ->.
  - destruct (Setup.connection_error g); cbn; repeat split.
    rewrite app_nil_r. reflexivity.
  - repeat split.
Qed.

(** The attendance fetch of the setup meets a refused connection. *)
Lemma setup_fetch_failure_witness :
  fst (fst (fst (Attempts.run "vulcan" 10 globals0 attempt_down)))
  = Setup.PlatformNotReady (ClientConnectorError "down").
Proof.
  apply (proj1 (setup_fetch_failure "vulcan" 10 globals0 attempt_down
                  (ClientConnectorError "down") eq_refl eq_refl)).
  reflexivity.
Defined.

(** X17. Over any sequence of calls of the setup, whatever the backend
    does in each, the connection error is logged at most once; it is not
    logged at all when the "connection_error" flag was already set, and the
    flag then stays set. *)
Theorem connection_error_logged_once (DOMAIN : string) (DEFAULT : Z)
    (g : Setup.globals) (l : list Attempts.attempt) :
  length (List.filter Attempts.is_connection_log (snd (Attempts.setups DOMAIN DEFAULT g l)))
    <= 1
  /\ (Setup.connection_error g = true ->
      List.filter Attempts.is_connection_log (snd (Attempts.setups DOMAIN DEFAULT g l)) = []
      /\ Setup.connection_error (fst (Attempts.setups DOMAIN DEFAULT g l)) = true).
Proof.
  revert g. induction l as [|a rest IH]; intros g.
  - cbn. split; [lia | auto].
  - cbn [Attempts.setups].
    pose proof (setup_connection_log DOMAIN DEFAULT g a) as Ha. cbv zeta in Ha.
    destruct (Attempts.run DOMAIN DEFAULT g a) as [[[o g1] c] l1]. cbn [fst snd] in Ha.
    destruct Ha as (Hset & Hone & Hflag).
    specialize (IH g1). cbv zeta in IH.
    destruct (Attempts.setups DOMAIN DEFAULT g1 rest) as [g2 l2]. cbn [fst snd] in *.
    destruct IH as [IHone IHset].
    rewrite List.filter_app, length_app. split.
    + destruct (List.filter Attempts.is_connection_log l1) as [|x xs] eqn:Hl1.
      * cbn. exact IHone.
      * destruct (IHset (Hflag ltac:(discriminate))) as [-> _]. cbn in *. lia.
    + intros Hg. destruct (Hset Hg) as [Hg1 ->]. destruct (IHset Hg1) as [-> Hg2].
      split; [reflexivity | exact Hg2].
Qed.

(** Two more attempts against a backend that refuses the connection, after
    the error has been logged once. *)
Lemma connection_error_logged_once_witness :
  List.filter Attempts.is_connection_log
    (snd (Attempts.setups "vulcan" 10 globals_flagged [attempt_down; attempt_down]))
  = [].
Proof.
  exact (proj1 (proj2 (connection_error_logged_once "vulcan" 10 globals_flagged
                         [attempt_down; attempt_down]) eq_refl)).
Defined.

Example connection_error_three_attempts :
  length (List.filter Attempts.is_connection_log
            (snd (Attempts.setups "vulcan" 10 globals0
                    [attempt_down; attempt_down; attempt_down])))
  = 1.
Proof. vm_compute. reflexivity. Qed.

(** ** The polling interval *)

Lemma run_interval (DOMAIN : string) (DEFAULT : Z) (g : Setup.globals)
    (a : Attempts.attempt) :
  Setup.SCAN_INTERVAL (snd (fst (fst (Attempts.run DOMAIN DEFAULT g a))))
  = match Setup.scan_interval (Attempts.options_ a) with
    | Some minutes => minutes
    | None => Setup.SCAN_INTERVAL g
    end.
Proof.
  unfold Attempts.run, Setup.async_setup_entry. cbv zeta.
  destruct (Coordinator.async_refresh _ _) as [[u|e] c]; [|reflexivity].
  destruct (Setup.fetch_data _ _ _) as [data|err]; [reflexivity|].
  destruct (is_ClientConnectorError err); [destruct (Setup.connection_error g)|];
    reflexivity.
Qed.

Lemma setups_app (DOMAIN : string) (DEFAULT : Z) (l1 l2 : list Attempts.attempt) :
  forall g : Setup.globals,
    fst (Attempts.setups DOMAIN DEFAULT g (l1 ++ l2))
    = fst (Attempts.setups DOMAIN DEFAULT (fst (Attempts.setups DOMAIN DEFAULT g l1)) l2).
Proof.
  induction l1 as [|a rest IH]; intros g; [reflexivity|].
  cbn [app Attempts.setups].
  destruct (Attempts.run DOMAIN DEFAULT g a) as [[[o g1] c] e1].
  specialize (IH g1).
  destruct (Attempts.setups DOMAIN DEFAULT g1 (rest ++ l2)) as [g2 e2].
  destruct (Attempts.setups DOMAIN DEFAULT g1 rest) as [g3 e3].
  exact IH.
Qed.

Lemma setups_keep_interval (DOMAIN : string) (DEFAULT : Z) (l : list Attempts.attempt) :
  forall g : Setup.globals,
    (forall a, In a l -> Setup.scan_interval (Attempts.options_ a) = None) ->
    Setup.SCAN_INTERVAL (fst (Attempts.setups DOMAIN DEFAULT g l)) = Setup.SCAN_INTERVAL g.
Proof.
  induction l as [|a rest IH]; intros g Hnone; [reflexivity|].
  cbn [Attempts.setups].
  pose proof (run_interval DOMAIN DEFAULT g a) as Ha.
  rewrite (Hnone a (or_introl eq_refl)) in Ha.
  destruct (Attempts.run DOMAIN DEFAULT g a) as [[[o g1] c] e1]. cbn [fst snd] in Ha.
  specialize (IH g1 (fun b Hb => Hnone b (or_intror Hb))).
  destruct (Attempts.setups DOMAIN DEFAULT g1 rest) as [g2 e2]. cbn [fst] in *.
  congruence.
Qed.

(** X18. The polling interval is a module global that every call of the
    setup overwrites only when its entry sets the option: after any
    sequence of setups it is the option of the last entry that set one,
    whether that setup succeeded or not, and the value it had before when
    none did. An entry without the option thus polls at the interval of an
    earlier entry rather than at the default. *)
Theorem scan_interval_is_sticky (DOMAIN : string) (DEFAULT : Z) (g : Setup.globals)
    (l : list Attempts.attempt) :
  ((forall a, In a l -> Setup.scan_interval (Attempts.options_ a) = None) ->
   Setup.SCAN_INTERVAL (fst (Attempts.setups DOMAIN DEFAULT g l)) = Setup.SCAN_INTERVAL g)
  /\ (forall (before after_ : list Attempts.attempt) (a : Attempts.attempt) (minutes : Z),
        l = (before ++ a :: after_)%list ->
        Setup.scan_interval (Attempts.options_ a) = Some minutes ->
        (forall b, In b after_ -> Setup.scan_interval (Attempts.options_ b) = None) ->
        Setup.SCAN_INTERVAL (fst (Attempts.setups DOMAIN DEFAULT g l)) = minutes).
Proof.
  split; [apply setups_keep_interval|].
  intros before after_ a minutes -> Ha Hnone.
  rewrite setups_app. cbn [Attempts.setups].
  pose proof (run_interval DOMAIN DEFAULT
                (fst (Attempts.setups DOMAIN DEFAULT g before)) a) as Hr.
  rewrite Ha in Hr.
  destruct (Attempts.run DOMAIN DEFAULT _ a) as [[[o g1] c] e1]. cbn [fst snd] in Hr.
  pose proof (setups_keep_interval DOMAIN DEFAULT after_ g1 Hnone) as Hk.
  destruct (Attempts.setups DOMAIN DEFAULT g1 after_) as [g2 e2]. cbn [fst] in *.
  congruence.
Qed.

(** An entry with a five minute interval, then one without the option: the
    global stays at five, not at the ten it started with. *)
Lemma scan_interval_is_sticky_witness :
  Setup.SCAN_INTERVAL (fst (Attempts.setups "vulcan" 10 globals0 [attempt_five; attempt_plain]))
  = 5%Z.
Proof.
  apply (proj2 (scan_interval_is_sticky "vulcan" 10 globals0 [attempt_five; attempt_plain])
           [] [attempt_plain] attempt_five 5%Z eq_refl eq_refl).
  intros b [<-|[]]. reflexivity.
Defined.

(** ** Devices of the entities *)

Lemma entities_of_cases (data : Data) (n : Z) (x : Setup.entity) :
  In x (Setup.entities_of data n) ->
  x = Setup.Grade (LatestGrade.__init__ data)
  \/ x = Setup.Lucky (LuckyNumber.__init__ data)
  \/ x = Setup.Attendance (LatestAttendance.__init__ data)
  \/ x = Setup.Message (LatestMessage.__init__ data)
  \/ x = Setup.Homework (NextHomework.__init__ data)
  \/ x = Setup.Exam (NextExam.__init__ data)
  \/ exists (i : nat) (b : bool), x = Setup.Lesson (VulcanLessonEntity.__init__ data i b).
Proof.
  unfold Setup.entities_of, Setup.lesson_entities. intros H.
  apply in_app_or in H. destruct H as [H|H].
  - cbn in H. intuition auto.
  - apply in_flat_map in H. destruct H as (i & _ & [<-|[<-|[]]]);
      do 6 right; eauto.
Qed.

(** X19. Among the entities of one setup, two are attached to the same
    device exactly when they are of the same kind, the lesson entities of
    today forming one kind and those of tomorrow another: all lesson slots
    of a day share one device, and no device is shared across kinds. *)
Theorem entities_share_device_by_kind (DOMAIN : string) (data : Data) (n : Z)
    (x y : Setup.entity) :
  In x (Setup.entities_of data n) ->
  In y (Setup.entities_of data n) ->
  Setup.device_identifier DOMAIN x = Setup.device_identifier DOMAIN y
  <-> Attempts.group x = Attempts.group y.
Proof.
  intros Hx Hy.
  apply entities_of_cases in Hx, Hy.
  destruct Hx as [->|[->|[->|[->|[->|[->|(i & b & ->)]]]]]];
    destruct Hy as [->|[->|[->|[->|[->|[->|(j & b' & ->)]]]]]];
    try destruct b; try destruct b';
    (split; intros H;
     first [reflexivity | discriminate H | (injection H as H; heads H)]).
Qed.

(** Slots 0 and 1 of today are on one device. *)
Lemma entities_share_device_by_kind_witness :
  Setup.device_identifier "vulcan"
    (Setup.Lesson (VulcanLessonEntity.__init__ data0 0 false))
  = Setup.device_identifier "vulcan"
      (Setup.Lesson (VulcanLessonEntity.__init__ data0 1 false)).
Proof.
  apply (entities_share_device_by_kind "vulcan" data0 2).
  - vm_compute. tauto.
  - vm_compute. tauto.
  - reflexivity.
Defined.

(** ** From the setup to the polling loop *)

Lemma setup_makes_no_notification (DOMAIN : string) (DEFAULT : Z) (g : Setup.globals)
    (a : Attempts.attempt) :
  notifications (snd (Attempts.run DOMAIN DEFAULT g a)) = []
  /\ bus_events (snd (Attempts.run DOMAIN DEFAULT g a)) = [].
Proof.
  unfold Attempts.run, Setup.async_setup_entry. cbv zeta.
  assert (Hu : notifications
                 (snd (Coordinator.async_update_data DOMAIN DEFAULT (Attempts.get_lessons a)
                         (Attempts.today a) (Attempts.today_again a)
                         (Setup.lesson_entities_number (Attempts.options_ a)))) = []
               /\ bus_events
                    (snd (Coordinator.async_update_data DOMAIN DEFAULT
                            (Attempts.get_lessons a) (Attempts.today a) (Attempts.today_again a)
                            (Setup.lesson_entities_number (Attempts.options_ a)))) = []).
  { unfold Coordinator.async_update_data.
    destruct (Coordinator.fetch_lessons _ _ _ _ _) as [d|e]; [split; reflexivity|].
    destruct e; split; reflexivity. }
  destruct Hu as [Hn Hb].
  destruct (Coordinator.async_refresh _ _) as [[u|e] c]; cbn [snd]; [|split; assumption].
  destruct (Setup.fetch_data _ _ _) as [data|err]; cbn [snd]; [split; assumption|].
  destruct (is_ClientConnectorError err); cbn [snd]; [|split; assumption].
  destruct (Setup.connection_error g); cbn [snd]; [split; assumption|].
  unfold notifications, bus_events in *. rewrite !List.filter_app, Hn, Hb.
  split; reflexivity.
Qed.

Lemma fetch_data_fields (b : Setup.answers) (students_number : Z) (o : Setup.options)
    (data : Data) :
  Setup.fetch_data b students_number o = Return data ->
  Setup.get_latest_grade b = Return (data_grade data)
  /\ Setup.get_latest_attendance b = Return (data_attendance data)
  /\ Setup.get_latest_message b = Return (data_message data).
Proof.
  unfold Setup.fetch_data, res_bind.
  destruct (Setup.get_student_info b); [|discriminate].
  destruct (Setup.get_latest_grade b); [|discriminate].
  destruct (Setup.get_latest_message b); [|discriminate].
  destruct (Setup.get_lucky_number b); [|discriminate].
  destruct (Setup.get_latest_attendance b); [|discriminate].
  destruct (Setup.get_next_homework b); [|discriminate].
  destruct (Setup.get_next_exam b); [|discriminate].
  intros [= <-]. repeat split.
Qed.

(** X20. The setup sends no notification and fires no event, whatever it
    fetched. The grade, attendance and message entities it adds take what
    the setup fetched as their baseline: as long as the backend keeps
    answering what it answered to the setup, their cycles make no call into
    Home Assistant. *)
Theorem setup_baseline_is_silent (DOMAIN : string) (DEFAULT : Z) (g : Setup.globals)
    (a : Attempts.attempt) (entities : list Setup.entity) (n : nat)
    (registry : gmap (string * string) string) :
  fst (fst (fst (Attempts.run DOMAIN DEFAULT g a))) = Setup.Added entities ->
  notifications (snd (Attempts.run DOMAIN DEFAULT g a)) = []
  /\ bus_events (snd (Attempts.run DOMAIN DEFAULT g a)) = []
  /\ (forall (e : LatestGrade.t) (c : Client grade.t),
        In (Setup.Grade e) entities ->
        (forall i, calls c <= i ->
           responses c i = Setup.get_latest_grade (Attempts.answers_ a)) ->
        snd (cycles (LatestGrade.async_update DOMAIN) n (mkWorld e c registry)) = [])
  /\ (forall (e : LatestAttendance.t) (c : Client attendance.t),
        In (Setup.Attendance e) entities ->
        (forall i, calls c <= i ->
           responses c i = Setup.get_latest_attendance (Attempts.answers_ a)) ->
        snd (cycles (LatestAttendance.async_update DOMAIN) n (mkWorld e c registry)) = [])
  /\ (forall (e : LatestMessage.t) (c : Client message.t),
        In (Setup.Message e) entities ->
        (forall i, calls c <= i ->
           responses c i = Setup.get_latest_message (Attempts.answers_ a)) ->
        snd (cycles (LatestMessage.async_update DOMAIN) n (mkWorld e c registry)) = []).
Proof.
  intros Hadded.
  destruct (setup_makes_no_notification DOMAIN DEFAULT g a) as [Hn Hb].
  split; [exact Hn|]. split; [exact Hb|].
  assert (Hdata : exists data,
             Setup.fetch_data (Attempts.answers_ a) (Attempts.students_number a)
               (Attempts.options_ a) = Return data
             /\ entities
                = Setup.entities_of data
                    (default DEFAULT (Setup.lesson_entities_number (Attempts.options_ a)))).
  { revert Hadded. unfold Attempts.run, Setup.async_setup_entry. cbv zeta.
    destruct (Coordinator.async_refresh _ _) as [[u|e] c]; cbn; [|discriminate].
    destruct (Setup.fetch_data _ _ _) as [data|err]; cbn.
    - intros [= <-]. exists data. split; reflexivity.
    - destruct (is_ClientConnectorError err); [destruct (Setup.connection_error g)|];
        discriminate. }
  destruct Hdata as (data & Hfetch & ->).
  destruct (fetch_data_fields _ _ _ _ Hfetch) as (Hg & Ha & Hm).
  split; [|split].
  - intros e c Hin Hresp. apply entities_of_cases in Hin.
    destruct Hin as [H|[H|[H|[H|[H|[H|(i & b & H)]]]]]]; try discriminate H.
    injection H as ->.
    apply (cycles_unmoved (LatestGrade.async_update DOMAIN)
             (fun s x => grade.content x = "-"
                         \/ LatestGrade.identity x = LatestGrade.old_state s)).
    + intros w1 x Hf Hs. rewrite (LatestGrade_cycle _ _ _ Hf). cbv zeta.
      destruct (negb _ && negb _) eqn:Hgd.
      * apply grade_guard in Hgd. destruct Hgd, Hs; congruence.
      * repeat split. intros y Hy. exact Hy.
    + intros i Hi. exists (data_grade data). split; [|right; reflexivity].
      cbn in *. rewrite (Hresp i Hi). exact Hg.
  - intros e c Hin Hresp. apply entities_of_cases in Hin.
    destruct Hin as [H|[H|[H|[H|[H|[H|(i & b & H)]]]]]]; try discriminate H.
    injection H as ->.
    apply (cycles_unmoved (LatestAttendance.async_update DOMAIN)
             (fun s x => attendance.content x = "-"
                         \/ (attendance.datetime x <= LatestAttendance.old_att s)%Z)).
    + intros w1 x Hf Hs. rewrite (LatestAttendance_cycle _ _ _ Hf). cbv zeta.
      destruct (negb _ && (_ <? _)%Z) eqn:Hgd.
      * apply attendance_guard in Hgd. destruct Hgd, Hs; [congruence | lia].
      * repeat split. intros y Hy. exact Hy.
    + intros i Hi. exists (data_attendance data). split; [|right; cbn; lia].
      cbn in *. rewrite (Hresp i Hi). exact Ha.
  - intros e c Hin Hresp. apply entities_of_cases in Hin.
    destruct Hin as [H|[H|[H|[H|[H|[H|(i & b & H)]]]]]]; try discriminate H.
    injection H as ->.
    apply (cycles_unmoved (LatestMessage.async_update DOMAIN)
             (fun s x => message.id x = 0%Z \/ message.id x = LatestMessage.old_msg s)).
    + intros w1 x Hf Hs. rewrite (LatestMessage_cycle _ _ _ Hf). cbv zeta.
      destruct (negb _ && negb _) eqn:Hgd.
      * apply message_guard in Hgd. destruct Hgd, Hs; congruence.
      * repeat split. intros y Hy. exact Hy.
    + intros i Hi. exists (data_message data). split; [|right; reflexivity].
      cbn in *. rewrite (Hresp i Hi). exact Hm.
Qed.

(** The setup of student 7, then four cycles of the message entity on the
    message the setup fetched. *)
Lemma setup_baseline_is_silent_witness :
  snd (cycles (LatestMessage.async_update "vulcan") 4
         (serving_registered (LatestMessage.__init__ data0) (always message0)))
  = [].
Proof.
  apply (proj2 (proj2 (proj2 (proj2
           (setup_baseline_is_silent "vulcan" 10 globals0 attempt_five
              (Setup.entities_of data0 2) 4
              (<[("vulcan", "message7") := "device-1"]> ∅) eq_refl))))
           (LatestMessage.__init__ data0) (mkClient (always message0) 0)).
  - vm_compute. tauto.
  - intros i _. reflexivity.
Defined.

(** * A change is reported once *)

Lemma cycles_S {E T : Type} (update : M E T unit) (n : nat) (w : world E T) :
  snd (cycles update (S n) w)
  = (effects (update w) ++ snd (cycles update n (after (update w))))%list.
Proof.
  cbn [cycles]. unfold effects, after.
  destruct (update w) as [[r w1] l1]. cbn [fst snd].
  destruct (cycles update n w1) as [w2 l2]. reflexivity.
Qed.

Lemma repeats_client {E T : Type} (v : T) (w1 w2 : world E T) :
  client w1 = client w2 -> repeats v w1 -> repeats v w2.
Proof. unfold repeats. intros <-. auto. Qed.

Lemma LatestGrade_quiet (DOMAIN : string) (v : grade.t) (n : nat) :
  forall w : world LatestGrade.t grade.t,
    grade.content v = "-" \/ LatestGrade.old_state (self w) = LatestGrade.identity v ->
    repeats v w ->
    snd (cycles (LatestGrade.async_update DOMAIN) n w) = [].
Proof.
  apply (cycles_quiet (LatestGrade.async_update DOMAIN)
           (fun s => grade.content v = "-" \/ LatestGrade.old_state s = LatestGrade.identity v)).
  intros w Hi Hf. rewrite (LatestGrade_cycle _ _ _ Hf). cbv zeta.
  destruct (negb _ && negb _) eqn:Hg.
  - apply grade_guard in Hg. destruct Hg, Hi; congruence.
  - repeat split. exact Hi.
Qed.

Lemma LatestAttendance_quiet (DOMAIN : string) (v : attendance.t) (n : nat) :
  forall w : world LatestAttendance.t attendance.t,
    attendance.content v = "-"
    \/ (attendance.datetime v <= LatestAttendance.old_att (self w))%Z ->
    repeats v w ->
    snd (cycles (LatestAttendance.async_update DOMAIN) n w) = [].
Proof.
  apply (cycles_quiet (LatestAttendance.async_update DOMAIN)
           (fun s => attendance.content v = "-"
                     \/ (attendance.datetime v <= LatestAttendance.old_att s)%Z)).
  intros w Hi Hf. rewrite (LatestAttendance_cycle _ _ _ Hf). cbv zeta.
  destruct (negb _ && (_ <? _)%Z) eqn:Hg.
  - apply attendance_guard in Hg. destruct Hg, Hi; [congruence | lia].
  - repeat split. exact Hi.
Qed.

Lemma LatestMessage_quiet (DOMAIN : string) (v : message.t) (n : nat) :
  forall w : world LatestMessage.t message.t,
    message.id v = 0%Z \/ LatestMessage.old_msg (self w) = message.id v ->
    repeats v w ->
    snd (cycles (LatestMessage.async_update DOMAIN) n w) = [].
Proof.
  apply (cycles_quiet (LatestMessage.async_update DOMAIN)
           (fun s => message.id v = 0%Z \/ LatestMessage.old_msg s = message.id v)).
  intros w Hi Hf. rewrite (LatestMessage_cycle _ _ _ Hf). cbv zeta.
  destruct (negb _ && negb _) eqn:Hg.
  - apply message_guard in Hg. destruct Hg, Hi; congruence.
  - repeat split. exact Hi.
Qed.

(** X21. A change is reported once, however long the polling goes on.
    When the backend keeps answering a snapshot [v] that the guard of the
    entity takes for a change, the calls of any number of cycles, one or
    more, are those of the first cycle: the notification of [v] if the
    toggle is on (for attendance, and the content is not "obecność"), then
    the event if the device is registered. The later cycles add nothing. *)
Theorem change_is_reported_once (DOMAIN : string) (n : nat) :
  (forall (w : world LatestGrade.t grade.t) (v : grade.t),
      repeats v w ->
      grade.content v <> "-" ->
      LatestGrade.old_state (self w) <> LatestGrade.identity v ->
      snd (cycles (LatestGrade.async_update DOMAIN) (S n) w)
      = ((if is_True (LatestGrade.notify (self w))
          then [LatestGrade.notification (LatestGrade.set_latest_grade v (self w))]
          else [])
         ++ match device_registry w !!
                    (DOMAIN, "message" +:+ pretty (student_info.id
                                                     (LatestGrade.student_info (self w)))) with
            | Some d => [bus_async_fire "vulcan_event" d "new_grade"]
            | None => []
            end)%list)
  /\ (forall (w : world LatestAttendance.t attendance.t) (v : attendance.t),
      repeats v w ->
      attendance.content v <> "-" ->
      (LatestAttendance.old_att (self w) < attendance.datetime v)%Z ->
      snd (cycles (LatestAttendance.async_update DOMAIN) (S n) w)
      = ((if is_True (LatestAttendance.notify (self w))
             && negb (attendance.content v =? "obecność")
          then [LatestAttendance.notification
                  (LatestAttendance.set_latest_attendance v (self w))]
          else [])
         ++ match device_registry w !! LatestAttendance.device_identifier DOMAIN (self w) with
            | Some d => [bus_async_fire "vulcan_event" d "new_attendance"]
            | None => []
            end)%list)
  /\ (forall (w : world LatestMessage.t message.t) (v : message.t),
      repeats v w ->
      LatestMessage.old_msg (self w) <> message.id v ->
      message.id v <> 0%Z ->
      snd (cycles (LatestMessage.async_update DOMAIN) (S n) w)
      = ((if is_True (LatestMessage.notify (self w))
          then [LatestMessage.notification (LatestMessage.set_latest_message v (self w))]
          else [])
         ++ match device_registry w !! LatestMessage.device_identifier DOMAIN (self w) with
            | Some d => [bus_async_fire "vulcan_event" d "new_message"]
            | None => []
            end)%list).
Proof.
  split; [|split]; intros w v Hr H1 H2; rewrite cycles_S;
    destruct (repeats_next v w Hr) as [Hf Hr'].
  - rewrite (LatestGrade_cycle _ _ _ Hf). cbv zeta.
    rewrite (proj2 (grade_guard v _) (conj H1 H2)).
    unfold effects, after. cbn [fst snd].
    rewrite (LatestGrade_quiet DOMAIN v); [apply app_nil_r | right; reflexivity |].
    exact (repeats_client v _ _ eq_refl Hr').
  - rewrite (LatestAttendance_cycle _ _ _ Hf). cbv zeta.
    rewrite (proj2 (attendance_guard v _) (conj H1 H2)).
    unfold effects, after. cbn [fst snd].
    rewrite (LatestAttendance_quiet DOMAIN v); [apply app_nil_r | right; cbn; lia |].
    exact (repeats_client v _ _ eq_refl Hr').
  - rewrite (LatestMessage_cycle _ _ _ Hf). cbv zeta.
    rewrite (proj2 (message_guard v _) (conj H1 H2)).
    unfold effects, after. cbn [fst snd].
    rewrite (LatestMessage_quiet DOMAIN v); [apply app_nil_r | right; reflexivity |].
    exact (repeats_client v _ _ eq_refl Hr').
Qed.

(** Six cycles on a new message: one notification, one event. *)
Lemma change_is_reported_once_witness :
  snd (cycles (LatestMessage.async_update "vulcan") 6
         (serving_registered (LatestMessage.__init__ data0) (always message1)))
  = [LatestMessage.notification
       (LatestMessage.set_latest_message message1 (LatestMessage.__init__ data0));
     bus_async_fire "vulcan_event" "device-1" "new_message"].
Proof.
  rewrite (proj2 (proj2 (change_is_reported_once "vulcan" 5))
             (serving_registered (LatestMessage.__init__ data0) (always message1)) message1).
  - vm_compute. reflexivity.
  - intros i _. reflexivity.
  - vm_compute. discriminate.
  - vm_compute. discriminate.
Defined.

(** * Unique ids across students *)

Lemma no_underscore_split (a b x y : string) :
  no_underscore a = true -> no_underscore b = true ->
  a +:+ String "_" x = b +:+ String "_" y -> a = b /\ x = y.
Proof.
  revert b. induction a as [|c a IH]; intros [|c' b] Ha Hb H.
  - injection H as ->. split; reflexivity.
  - change (String "_" x = String c' (b +:+ String "_" y)) in H.
    injection H as <- _. cbn in Hb. discriminate.
  - change (String c (a +:+ String "_" x) = String "_" y) in H.
    injection H as -> _. cbn in Ha. discriminate.
  - change (String c (a +:+ String "_" x) = String c' (b +:+ String "_" y)) in H.
    injection H as -> H. cbn in Ha, Hb.
    apply andb_true_iff in Ha, Hb. destruct Ha as [_ Ha], Hb as [_ Hb].
    destruct (IH b Ha Hb H) as [-> ->]. split; reflexivity.
Qed.

Lemma pretty_N_go_no_underscore (x : N) :
  forall s : string,
    no_underscore s = true -> no_underscore (pretty_N_go x s) = true.
Proof.
  induction (N.lt_wf_0 x) as [x _ IH]. intros s Hs.
  destruct (N.eq_dec x 0%N) as [->|Hx]; [rewrite pretty_N_go_0; exact Hs|].
  rewrite pretty_N_go_step by lia.
  apply IH; [apply N.div_lt; lia|].
  cbn. rewrite Hs. unfold pretty_N_char. repeat case_match; reflexivity.
Qed.

Lemma pretty_nat_no_underscore (i : nat) : no_underscore (pretty i) = true.
Proof.
  unfold pretty, pretty_nat, pretty, pretty_N.
  destruct (decide (N.of_nat i = 0%N)); [reflexivity|].
  apply pretty_N_go_no_underscore. reflexivity.
Qed.

Lemma lesson_unique_id_inj_students (d1 d2 : Data) (i j : nat) (b b' : bool) :
  VulcanLessonEntity._unique_id (VulcanLessonEntity.__init__ d1 i b)
  = VulcanLessonEntity._unique_id (VulcanLessonEntity.__init__ d2 j b') ->
  i = j /\ b = b'
  /\ student_info.id (data_student_info d1) = student_info.id (data_student_info d2).
Proof.
  rewrite !lesson_unique_id. intros H.
  apply (String.app_inj "lesson_") in H.
  destruct (pretty_nat_head i) as (ci & si & Hi & Hci).
  destruct (pretty_nat_head j) as (cj & sj & Hj & Hcj).
  pose proof (pretty_nat_no_underscore i) as Ni.
  pose proof (pretty_nat_no_underscore j) as Nj.
  set (s1 := pretty (student_info.id (data_student_info d1))) in *.
  set (s2 := pretty (student_info.id (data_student_info d2))) in *.
  assert (Hfinish : pretty i +:+ String "_" s1 = pretty j +:+ String "_" s2 ->
                    i = j /\ student_info.id (data_student_info d1)
                             = student_info.id (data_student_info d2)).
  { intros H'. destruct (no_underscore_split _ _ _ _ Ni Nj H') as [Hp Hs].
    split; [apply pretty_nat_inj; exact Hp | apply pretty_Z_inj; exact Hs]. }
  destruct b, b'.
  - change ("_t" +:+ (pretty i +:+ String "_" s1) = "_t" +:+ (pretty j +:+ String "_" s2)) in H.
    apply (String.app_inj "_t") in H. destruct (Hfinish H). auto.
  - change (String "_" (String "t" (pretty i +:+ String "_" s1))
            = pretty j +:+ String "_" s2) in H.
    rewrite Hj in H. exfalso. apply Hcj. injection H as H _. congruence.
  - change (pretty i +:+ String "_" s1
            = String "_" (String "t" (pretty j +:+ String "_" s2))) in H.
    rewrite Hi in H. exfalso. apply Hci. injection H as H _. congruence.
  - change (pretty i +:+ String "_" s1 = pretty j +:+ String "_" s2) in H.
    destruct (Hfinish H). auto.
Qed.

(** X22. Unique ids do not clash across students either: when an entity
    set up for one student and an entity set up for another report the same
    unique id, the two students have the same id, the entities are of the
    same kind and, for lesson entities, of the same day and slot. *)
Theorem unique_id_names_student_and_kind (d1 d2 : Data) (n1 n2 : Z) (x y : Setup.entity) :
  In x (Setup.entities_of d1 n1) ->
  In y (Setup.entities_of d2 n2) ->
  Setup.unique_id x = Setup.unique_id y ->
  student_info.id (data_student_info d1) = student_info.id (data_student_info d2)
  /\ Attempts.group x = Attempts.group y
  /\ forall e1 e2 : VulcanLessonEntity.t,
       x = Setup.Lesson e1 -> y = Setup.Lesson e2 ->
       VulcanLessonEntity.number e1 = VulcanLessonEntity.number e2.
Proof.
  intros Hx Hy.
  apply entities_of_cases in Hx, Hy.
  destruct Hx as [->|[->|[->|[->|[->|[->|(i & b & ->)]]]]]];
    destruct Hy as [->|[->|[->|[->|[->|[->|(j & b' & ->)]]]]]];
    cbn [Setup.unique_id]; try rewrite !lesson_unique_id;
    cbn [LatestGrade._unique_id LatestGrade.__init__
         LuckyNumber._unique_id LuckyNumber.__init__
         LatestAttendance._unique_id LatestAttendance.__init__
         LatestMessage._unique_id LatestMessage.__init__
         NextHomework._unique_id NextHomework.__init__
         NextExam._unique_id NextExam.__init__];
    intros H;
    try (rewrite <- !lesson_unique_id in H;
         apply lesson_unique_id_inj_students in H; destruct H as (-> & -> & H);
         split; [exact H|]; split; [reflexivity|];
         intros e1 e2 [= <-] [= <-]; reflexivity);
    try (heads H);
    (apply String.app_inj in H; apply pretty_Z_inj in H;
     split; [exact H|]; split; [reflexivity|]; intros e1 e2 Hl; discriminate Hl).
Qed.

(** The grade entities of students 7 and 71 report different unique
    ids. *)
Lemma unique_id_names_student_and_kind_witness :
  Setup.unique_id (Setup.Grade (LatestGrade.__init__ data0))
  <> Setup.unique_id (Setup.Grade (LatestGrade.__init__ data1)).
Proof.
  intros H.
  apply (unique_id_names_student_and_kind data0 data1 0 0) in H.
  - destruct H as [H _]. vm_compute in H. discriminate H.
  - left. reflexivity.
  - left. reflexivity.
Defined.

(** * The text of a [KeyError] *)

(** [str] of a [KeyError] is the key as [repr] writes it. *)
Example str_of_KeyError :
  Py.str (KeyError "lesson_3") = "'lesson_3'"
  /\ Py.repr "it's" = String "034" ("it's" +:+ String "034" "")
  /\ Py.repr (String "009" "a") = String "039" (String "092" ("ta" +:+ String "039" "")).
Proof. repeat split; vm_compute; reflexivity. Qed.
